(** * gitlab-reviewer-roulette: metrics, leaderboard and badge core

    A shallow embedding of the Go sources of the reviewer-roulette service
    (aggregator, metrics repository, leaderboard, badge evaluator, OOO
    windows, metric calculators) together with the properties the
    specification states about them.

    Conventions of the embedding:
    - Go [int]/[uint] are 64-bit; they are carried as [Z] and every
      arithmetic operation of the source that can overflow goes through
      [wrap_int] (slice lengths and indices, which the address space
      bounds, are exact).
    - Go [float64] is IEEE-754 binary64: Rocq's primitive [float].
    - [time.Time] is an instant, carried as nanoseconds since the Unix
      epoch; [time.Now()] is an explicit argument [now] of the functions
      that only read the store, and a reading of the world's clock in the
      functions that write to it.
    - A nullable column / Go pointer field is an [option].
    - The ORM sets a zero [CreatedAt] to the current time when it inserts
      a row, and writes every column of the struct, [created_at]
      included, when it saves one.
    - A SQL table is the list of its rows in primary-key order; a query
      without ORDER BY returns its rows in that order, so the same query
      on the same table returns the same list.  (Iteration over a Go map,
      which the runtime randomises, is an arbitrary enumeration instead.)
    - Database and network failures are outside the model: every
      repository call succeeds (the [err != nil] branches of the callers
      that only log-and-continue on such failures are therefore dead). *)

From Stdlib Require Import ZArith Lia Floats Uint63.
From stdpp Require Import base option list strings gmap.

Local Open Scope Z_scope.

(* ===================================================================== *)
(** ** Go machine integers and floats                                     *)
(* ===================================================================== *)

Module Go.

Definition min_int : Z := - 2 ^ 63.
Definition max_int : Z := 2 ^ 63 - 1.

(** Two's-complement wrap-around of a 64-bit signed [int]. *)
Definition wrap_int (z : Z) : Z := (z + 2 ^ 63) mod 2 ^ 64 - 2 ^ 63.

Definition int_add (a b : Z) : Z := wrap_int (a + b).

(** [float64(n)] for an [int] n: the nearest binary64 value. *)
Definition float64_of_int (z : Z) : float :=
  if z =? min_int then (- (Z.ldexp one 63))%float
  else if z <? 0 then (- (of_uint63 (Uint63.of_Z (- z))))%float
  else of_uint63 (Uint63.of_Z z).

(** Magnitude of a finite binary64 value [m * 2^e], truncated toward zero. *)
Definition trunc_mag (m : positive) (e : Z) : Z :=
  if 0 <=? e then Z.pos m * 2 ^ e else Z.pos m / 2 ^ (- e).

(** [int(f)] for a [float64] f: truncation toward zero.  A value that does
    not fit (and NaN, and the infinities) converts to the "integer
    indefinite" value [min_int], as the amd64 conversion does. *)
Definition int_of_float64 (f : float) : Z :=
  match Prim2SF f with
  | S754_zero _ => 0
  | S754_finite s m e =>
      let z := if s then - trunc_mag m e else trunc_mag m e in
      if (min_int <=? z) && (z <=? max_int) then z else min_int
  | S754_infinity _ | S754_nan => min_int
  end.

End Go.

(* ===================================================================== *)
(** ** package time                                                       *)
(* ===================================================================== *)

Module time.

(** An instant: nanoseconds since 1970-01-01T00:00:00Z. *)
Definition Time := Z.
(** A [Duration] is an [int64] count of nanoseconds. *)
Definition Duration := Z.

Definition Nanosecond : Duration := 1.
Definition Second : Duration := 1000000000.
Definition Minute : Duration := 60 * Second.
Definition Hour : Duration := 60 * Minute.

Definition minDuration : Duration := Go.min_int.
Definition maxDuration : Duration := Go.max_int.

Definition After (t u : Time) : bool := u <? t.
Definition Before (t u : Time) : bool := t <? u.
Definition Add (t : Time) (d : Duration) : Time := t + d.

(** [t.Sub(u)]: the difference, saturated to the range of [Duration]. *)
Definition Sub (t u : Time) : Duration :=
  let d := t - u in
  if d <? minDuration then minDuration
  else if maxDuration <? d then maxDuration
  else d.

(** [d.Seconds()]: [float64(d / Second) + float64(d % Second) / 1e9],
    with Go's truncated division. *)
Definition Seconds (d : Duration) : float :=
  (Go.float64_of_int (Z.quot d Second)
   + Go.float64_of_int (Z.rem d Second) / 1e9)%float.

(** [t.Unix()]: whole seconds since the epoch. *)
Definition Unix (t : Time) : Z := t / Second.

(** Days from 1970-01-01 to the civil date y-m-d (proleptic Gregorian). *)
Definition days_from_civil (y m d : Z) : Z :=
  let y' := if m <=? 2 then y - 1 else y in
  let era := y' / 400 in
  let yoe := y' - era * 400 in
  let mp := (m + 9) mod 12 in
  let doy := (153 * mp + 2) / 5 + d - 1 in
  let doe := yoe * 365 + yoe / 4 - yoe / 100 + doy in
  era * 146097 + doe - 719468.

(** [time.Date(y, m, d, hh, mm, ss, ns, loc)] for a location at a fixed
    offset of [loc] seconds east of UTC. *)
Definition Date (y m d hh mm ss ns : Z) (loc : Z) : Time :=
  ((days_from_civil y m d * 86400 + hh * 3600 + mm * 60 + ss - loc) * Second + ns).

Definition UTC : Z := 0.

(** The zero [Time]: January 1, year 1, 00:00:00 UTC. *)
Definition zero_Time : Time := Date 1 1 1 0 0 0 0 UTC.

Definition IsZero (t : Time) : bool := t =? zero_Time.

End time.

Import time.

(* ===================================================================== *)
(** ** package models                                                     *)
(* ===================================================================== *)

Record User := mkUser {
  User_ID : Z;
  User_GitLabID : Z;
  User_Username : string;
  User_Role : string;
  User_Team : string
}.

Record OOOStatus := mkOOOStatus {
  OOO_ID : Z;
  OOO_UserID : Z;
  OOO_StartDate : Time;
  OOO_EndDate : Time;
  OOO_Reason : string
}.

(** [func (o *OOOStatus) IsActive() bool] (models/user.go). *)
Definition IsActive (now : Time) (o : OOOStatus) : bool :=
  After now (OOO_StartDate o) && Before now (OOO_EndDate o).

Definition MRStatusPending : string := "pending".
Definition MRStatusInReview : string := "in_review".
Definition MRStatusApproved : string := "approved".
Definition MRStatusMerged : string := "merged".
Definition MRStatusClosed : string := "closed".

Record MRReview := mkMRReview {
  MR_ID : Z;
  MR_GitLabMRIID : Z;
  MR_GitLabProjectID : Z;
  MR_Team : string;
  MR_RouletteTriggeredAt : option Time;
  MR_FirstReviewAt : option Time;
  MR_ApprovedAt : option Time;
  MR_MergedAt : option Time;
  MR_ClosedAt : option Time;
  MR_Status : string
}.

Record ReviewerAssignment := mkReviewerAssignment {
  RA_ID : Z;
  RA_MRReviewID : Z;
  RA_UserID : Z;
  RA_Role : string;
  RA_AssignedAt : Time;
  RA_FirstCommentAt : option Time;
  RA_ApprovedAt : option Time;
  RA_CommentCount : Z;
  RA_CommentLength : Z
}.

(** A [review_metrics] row. *)
Record ReviewMetrics := mkReviewMetrics {
  RM_ID : Z;
  RM_Date : Time;
  RM_Team : string;
  RM_UserID : option Z;
  RM_ProjectID : option Z;
  RM_TotalReviews : Z;
  RM_CompletedReviews : Z;
  RM_AvgTTFR : option Z;
  RM_AvgTimeToApproval : option Z;
  RM_AvgCommentCount : option float;
  RM_AvgCommentLength : option float;
  RM_EngagementScore : option float;
  RM_CreatedAt : Time
}.

Record UserBadge := mkUserBadge {
  UB_ID : Z;
  UB_UserID : Z;
  UB_BadgeID : Z;
  UB_EarnedAt : Time
}.

(** [BadgeCriteria.Value] is an [interface{}] filled by [json.Unmarshal]:
    a JSON number arrives as a [float64], anything else as another dynamic
    type. *)
Inductive JSONValue :=
| JNumber (f : float)
| JOther.

Record BadgeCriteria := mkBadgeCriteria {
  BC_Metric : string;
  BC_Operator : string;
  BC_Value : JSONValue;
  BC_Period : string
}.

(** A badge.  [Criteria] is the stored JSON document; it is carried as the
    result of [json.Unmarshal] into [BadgeCriteria] ([None]: the document
    does not parse). *)
Record Badge := mkBadge {
  Badge_ID : Z;
  Badge_Name : string;
  Badge_Criteria : option BadgeCriteria
}.

(* ===================================================================== *)
(** ** package metrics: calculator.go                                     *)
(* ===================================================================== *)

Definition CalculateTTFR (triggeredAt : Time) (firstReviewAt : option Time) : option Z :=
  match firstReviewAt with
  | None => None
  | Some fr =>
      let duration := Sub fr triggeredAt in
      let seconds := Go.int_of_float64 (Seconds duration) in
      let seconds := if seconds <? 0 then 0 else seconds in
      Some seconds
  end.

Definition CalculateTimeToApproval (triggeredAt : Time) (approvedAt : option Time) : option Z :=
  match approvedAt with
  | None => None
  | Some ap =>
      let duration := Sub ap triggeredAt in
      let seconds := Go.int_of_float64 (Seconds duration) in
      let seconds := if seconds <? 0 then 0 else seconds in
      Some seconds
  end.

Definition CalculateEngagementScore (assignment : option ReviewerAssignment) : float :=
  match assignment with
  | None => 0%float
  | Some a =>
      let score := 0%float in
      let score := (score + Go.float64_of_int (RA_CommentCount a) * 10)%float in
      let score := (score + Go.float64_of_int (RA_CommentLength a) / 100)%float in
      score
  end.

Definition CalculateTTFRForMR (mrReview : option MRReview) : option Z :=
  match mrReview with
  | None => None
  | Some r =>
      match MR_RouletteTriggeredAt r with
      | None => None
      | Some t => CalculateTTFR t (MR_FirstReviewAt r)
      end
  end.

Definition CalculateTimeToApprovalForMR (mrReview : option MRReview) : option Z :=
  match mrReview with
  | None => None
  | Some r =>
      match MR_RouletteTriggeredAt r with
      | None => None
      | Some t => CalculateTimeToApproval t (MR_ApprovedAt r)
      end
  end.

(* ===================================================================== *)
(** ** Period windows (badges/evaluator.go and leaderboard/service.go)    *)
(* ===================================================================== *)

Definition year2000 : Time := Date 2000 1 1 0 0 0 0 UTC.

Module badges_period.
(** [func (s *Service) calculatePeriodRange(period string)] of the badge
    evaluator. *)
Definition calculatePeriodRange (now : Time) (period : string) : Time * Time :=
  let endDate := now in
  let startDate :=
    if String.eqb period "day" then Add now (-24 * Hour)
    else if String.eqb period "week" then Add now (-7 * 24 * Hour)
    else if String.eqb period "month" then Add now (-30 * 24 * Hour)
    else if String.eqb period "year" then Add now (-365 * 24 * Hour)
    else if String.eqb period "all_time" || String.eqb period "" then year2000
    else year2000 in
  (startDate, endDate).
End badges_period.

Module leaderboard_period.
(** [func calculatePeriodRange(period string)] of the leaderboard service. *)
Definition calculatePeriodRange (now : Time) (period : string) : Time * Time :=
  let endDate := now in
  let startDate :=
    if String.eqb period "day" then Add now (-24 * Hour)
    else if String.eqb period "week" then Add now (-7 * 24 * Hour)
    else if String.eqb period "month" then Add now (-30 * 24 * Hour)
    else if String.eqb period "year" then Add now (-365 * 24 * Hour)
    else if String.eqb period "all_time" || String.eqb period "" then year2000
    else year2000 in
  (startDate, endDate).
End leaderboard_period.

(* ===================================================================== *)
(** ** package repository: the durable store                              *)
(* ===================================================================== *)

Record DB := mkDB {
  db_users : list User;
  db_ooo_status : list OOOStatus;
  db_mr_reviews : list MRReview;
  db_reviewer_assignments : list ReviewerAssignment;
  db_review_metrics : list ReviewMetrics;
  db_badges : list Badge;
  db_user_badges : list UserBadge
}.

(** SQL [x BETWEEN a AND b] on instants (both ends included). *)
Definition between (x a b : Time) : bool := (a <=? x) && (x <=? b).

(** [x BETWEEN a AND b] on a nullable column: NULL satisfies nothing. *)
Definition between_opt (x : option Time) (a b : Time) : bool :=
  match x with
  | Some t => between t a b
  | None => false
  end.

(** The value an auto-increment primary key takes on the next insert. *)
Definition next_id (ids : list Z) : Z := 1 + foldr Z.max 0 ids.

(** [.First(&x)]: the first matching row in primary-key order. *)
Definition First {A} (p : A -> bool) (rows : list A) : option A := List.find p rows.

(** [.Count(&n)]. *)
Definition Count {A} (p : A -> bool) (rows : list A) : Z :=
  Z.of_nat (length (List.filter p rows)).

(** *** OOORepository *)

(** [IsUserOOO]: counts the windows of the user with
    [start_date <= now AND end_date >= now]. *)
Definition IsUserOOO (now : Time) (db : DB) (userID : Z) : bool :=
  let count :=
    Count (fun o => (OOO_UserID o =? userID)
                    && (OOO_StartDate o <=? now) && (OOO_EndDate o >=? now))
          (db_ooo_status db) in
  count >? 0.

(** *** UserRepository *)

Definition UserRepository_GetByID (db : DB) (id : Z) : option User :=
  First (fun u => User_ID u =? id) (db_users db).

Definition UserRepository_List (db : DB) (team role : string) : list User :=
  let q := db_users db in
  let q := if negb (String.eqb team "") then List.filter (fun u => String.eqb (User_Team u) team) q else q in
  let q := if negb (String.eqb role "") then List.filter (fun u => String.eqb (User_Role u) role) q else q in
  q.

(** *** ReviewRepository *)

Definition GetAssignmentsByMRReviewID (db : DB) (mrReviewID : Z) : list ReviewerAssignment :=
  List.filter (fun a => RA_MRReviewID a =? mrReviewID) (db_reviewer_assignments db).

Definition GetCompletedReviewsByDateRange (db : DB) (startDate endDate : Time) : list MRReview :=
  List.filter
    (fun r => (between_opt (MR_MergedAt r) startDate endDate
               || between_opt (MR_ClosedAt r) startDate endDate)
              && (String.eqb (MR_Status r) MRStatusMerged
                  || String.eqb (MR_Status r) MRStatusClosed))
    (db_mr_reviews db).

(** *** MetricsRepository *)

(** [ORDER BY date DESC]; rows of equal date keep their primary-key order. *)
Fixpoint insert_date_desc (r : ReviewMetrics) (l : list ReviewMetrics) : list ReviewMetrics :=
  match l with
  | [] => [r]
  | x :: l' => if RM_Date x <=? RM_Date r then r :: l else x :: insert_date_desc r l'
  end.

Definition order_by_date_desc (l : list ReviewMetrics) : list ReviewMetrics :=
  foldr insert_date_desc [] l.

(** The unique key of a metrics row: (date, team, user, project), the
    nullable columns being part of it. *)
Definition metric_key (m : ReviewMetrics) : Time * string * option Z * option Z :=
  (RM_Date m, RM_Team m, RM_UserID m, RM_ProjectID m).

(** The [WHERE] clause built by [CreateOrUpdate]: [date = ? AND team = ?],
    then [user_id = ?] or [user_id IS NULL], then the same for
    [project_id]. *)
Definition same_key (metric r : ReviewMetrics) : bool :=
  bool_decide (metric_key r = metric_key metric).

Definition set_RM_ID (id : Z) (m : ReviewMetrics) : ReviewMetrics :=
  {| RM_ID := id; RM_Date := RM_Date m; RM_Team := RM_Team m;
     RM_UserID := RM_UserID m; RM_ProjectID := RM_ProjectID m;
     RM_TotalReviews := RM_TotalReviews m;
     RM_CompletedReviews := RM_CompletedReviews m;
     RM_AvgTTFR := RM_AvgTTFR m;
     RM_AvgTimeToApproval := RM_AvgTimeToApproval m;
     RM_AvgCommentCount := RM_AvgCommentCount m;
     RM_AvgCommentLength := RM_AvgCommentLength m;
     RM_EngagementScore := RM_EngagementScore m;
     RM_CreatedAt := RM_CreatedAt m |}.

Definition set_RM_CreatedAt (createdAt : Time) (m : ReviewMetrics) : ReviewMetrics :=
  {| RM_ID := RM_ID m; RM_Date := RM_Date m; RM_Team := RM_Team m;
     RM_UserID := RM_UserID m; RM_ProjectID := RM_ProjectID m;
     RM_TotalReviews := RM_TotalReviews m;
     RM_CompletedReviews := RM_CompletedReviews m;
     RM_AvgTTFR := RM_AvgTTFR m;
     RM_AvgTimeToApproval := RM_AvgTimeToApproval m;
     RM_AvgCommentCount := RM_AvgCommentCount m;
     RM_AvgCommentLength := RM_AvgCommentLength m;
     RM_EngagementScore := RM_EngagementScore m;
     RM_CreatedAt := createdAt |}.

(** What the ORM does to a [CreatedAt] field on insert: a zero value is
    set to the current time, any other value is kept. *)
Definition stamp_CreatedAt (now : Time) (metric : ReviewMetrics) : ReviewMetrics :=
  if IsZero (RM_CreatedAt metric) then set_RM_CreatedAt now metric else metric.

(** The table after [db.Create(metric)], [now] being the reading of the
    clock the ORM takes for the statement: [CreatedAt] is stamped, a zero
    ID takes the next auto-increment value, and the row is inserted. *)
Definition MetricsRepository_Create (now : Time) (metric : ReviewMetrics)
    (tbl : list ReviewMetrics) : list ReviewMetrics :=
  let metric := stamp_CreatedAt now metric in
  let id := if RM_ID metric =? 0 then next_id (RM_ID <$> tbl) else RM_ID metric in
  tbl ++ [set_RM_ID id metric].

(** The table after [db.Save(metric)] for a metric whose ID is set:
    [UPDATE ... WHERE id = ?] on every column, [created_at] included, with
    the values the struct holds. *)
Definition MetricsRepository_Save (metric : ReviewMetrics) (tbl : list ReviewMetrics)
  : list ReviewMetrics :=
  (fun r => if RM_ID r =? RM_ID metric then metric else r) <$> tbl.

(** The [filters] map of [GetByDateRange]; an absent entry is [None]. *)
Record Filters := mkFilters {
  filter_team : option string;
  filter_user_id : option Z;
  filter_project_id : option Z
}.

Definition no_filters : Filters := mkFilters None None None.

Definition GetByDateRange (db : DB) (startDate endDate : Time) (filters : Filters)
  : list ReviewMetrics :=
  let q := List.filter (fun m => between (RM_Date m) startDate endDate) (db_review_metrics db) in
  let q := match filter_team filters with
           | Some team => if negb (String.eqb team "")
                          then List.filter (fun m => String.eqb (RM_Team m) team) q else q
           | None => q
           end in
  let q := match filter_user_id filters with
           | Some userID => List.filter (fun m => bool_decide (RM_UserID m = Some userID)) q
           | None => q
           end in
  let q := match filter_project_id filters with
           | Some projectID => List.filter (fun m => bool_decide (RM_ProjectID m = Some projectID)) q
           | None => q
           end in
  order_by_date_desc q.

Definition GetMetricsByUser (db : DB) (userID : Z) (startDate endDate : Time)
  : list ReviewMetrics :=
  order_by_date_desc
    (List.filter (fun m => bool_decide (RM_UserID m = Some userID)
                           && between (RM_Date m) startDate endDate)
                 (db_review_metrics db)).

(** *** BadgeRepository *)

Definition BadgeRepository_GetAll (db : DB) : list Badge := db_badges db.

Definition HasUserEarnedBadge (db : DB) (userID badgeID : Z) : bool :=
  let count := Count (fun ub => (UB_UserID ub =? userID) && (UB_BadgeID ub =? badgeID))
                     (db_user_badges db) in
  count >? 0.

Definition set_user_badges (ubs : list UserBadge) (db : DB) : DB :=
  {| db_users := db_users db; db_ooo_status := db_ooo_status db;
     db_mr_reviews := db_mr_reviews db;
     db_reviewer_assignments := db_reviewer_assignments db;
     db_review_metrics := db_review_metrics db;
     db_badges := db_badges db; db_user_badges := ubs |}.

Definition set_review_metrics (ms : list ReviewMetrics) (db : DB) : DB :=
  {| db_users := db_users db; db_ooo_status := db_ooo_status db;
     db_mr_reviews := db_mr_reviews db;
     db_reviewer_assignments := db_reviewer_assignments db;
     db_review_metrics := ms;
     db_badges := db_badges db; db_user_badges := db_user_badges db |}.

Definition GetUserBadgeCount (db : DB) (userID : Z) : Z :=
  Count (fun ub => UB_UserID ub =? userID) (db_user_badges db).

Definition GetBadgeHoldersCount (db : DB) (badgeID : Z) : Z :=
  Count (fun ub => UB_BadgeID ub =? badgeID) (db_user_badges db).

(* ===================================================================== *)
(** ** package sort, and iteration over Go maps                           *)
(* ===================================================================== *)

(** What [sort.Slice] establishes: no element is strictly less than one
    placed before it. *)
Definition sorted_by {A} (less : A -> A -> bool) (l : list A) : Prop :=
  forall (i j : nat) x y,
    l !! i = Some x -> l !! j = Some y -> (i < j)%nat -> less y x = false.

(** The requirement [sort.Slice] puts on [less] (a strict weak ordering):
    irreflexive, transitive, and transitive on its negation. *)
Definition strict_weak_on {A} (less : A -> A -> bool) (l : list A) : Prop :=
  (forall x, x ∈ l -> less x x = false)
  /\ (forall x y z, x ∈ l -> y ∈ l -> z ∈ l ->
        less x y = true -> less y z = true -> less x z = true)
  /\ (forall x y z, x ∈ l -> y ∈ l -> z ∈ l ->
        less x y = false -> less y z = false -> less x z = false).

(** [sort.Slice] is not stable and its algorithm is the library's business:
    the code is modelled against its contract.  It always permutes the
    slice; it sorts it when [less] is a strict weak ordering. *)
Class SliceSorter := {
  sort_Slice : forall {A : Type}, (A -> A -> bool) -> list A -> list A;
  sort_Slice_perm : forall A (less : A -> A -> bool) (l : list A),
    sort_Slice less l ≡ₚ l;
  sort_Slice_sorted : forall A (less : A -> A -> bool) (l : list A),
    strict_weak_on less l -> sorted_by less (sort_Slice less l)
}.

(** [for k, v := range m] visits the entries of a map in an unspecified
    order: some enumeration of the map. *)
Class MapRange := {
  map_range : forall {K} `{Countable K} {V}, gmap K V -> list (K * V);
  map_range_perm : forall K `{Countable K} V (m : gmap K V),
    map_range m ≡ₚ map_to_list m
}.

(** The insertion sort [sort.Slice] runs on short slices: each element in
    turn moves left while it is less than its left neighbour.  [sorted] is
    the prefix already placed, last element first. *)
Fixpoint insertion_step {A} (less : A -> A -> bool) (x : A) (sorted : list A) : list A :=
  match sorted with
  | [] => [x]
  | y :: rest => if less x y then y :: insertion_step less x rest else x :: sorted
  end.

Definition insertionSortLessFunc {A} (less : A -> A -> bool) (l : list A) : list A :=
  reverse (fold_left (fun sorted x => insertion_step less x sorted) l []).

(* ===================================================================== *)
(** ** package leaderboard                                                *)
(* ===================================================================== *)

Record Entry := mkEntry {
  E_UserID : Z;
  E_Username : string;
  E_Team : string;
  E_CompletedReviews : Z;
  E_AvgTTFR : float;
  E_AvgCommentCount : float;
  E_EngagementScore : float;
  E_BadgeCount : Z;
  E_Rank : Z
}.

Definition set_Rank (rank : Z) (e : Entry) : Entry :=
  {| E_UserID := E_UserID e; E_Username := E_Username e; E_Team := E_Team e;
     E_CompletedReviews := E_CompletedReviews e; E_AvgTTFR := E_AvgTTFR e;
     E_AvgCommentCount := E_AvgCommentCount e;
     E_EngagementScore := E_EngagementScore e;
     E_BadgeCount := E_BadgeCount e; E_Rank := rank |}.

Record aggregatedMetrics := mkAgg {
  A_CompletedReviews : Z;
  A_TotalTTFR : float;
  A_TotalCommentCount : float;
  A_TotalEngagementScore : float;
  A_MetricsCount : Z;
  A_AvgTTFR : float;
  A_AvgCommentCount : float;
  A_EngagementScore : float
}.

(** The zero value of [aggregatedMetrics], read from a map on a missing key. *)
Definition zero_agg : aggregatedMetrics := mkAgg 0 0 0 0 0 0 0 0.

(** Go's float comparison [a > b]. *)
Definition float_gt (a b : float) : bool := (b <? a)%float.

Definition agg_add_row (agg : aggregatedMetrics) (m : ReviewMetrics) : aggregatedMetrics :=
  {| A_CompletedReviews := Go.int_add (A_CompletedReviews agg) (RM_CompletedReviews m);
     A_MetricsCount := Go.int_add (A_MetricsCount agg) 1;
     A_TotalTTFR :=
       match RM_AvgTTFR m with
       | Some t => (A_TotalTTFR agg + Go.float64_of_int t)%float
       | None => A_TotalTTFR agg
       end;
     A_TotalCommentCount :=
       match RM_AvgCommentCount m with
       | Some c => (A_TotalCommentCount agg + c)%float
       | None => A_TotalCommentCount agg
       end;
     A_TotalEngagementScore :=
       match RM_EngagementScore m with
       | Some s => (A_TotalEngagementScore agg + s)%float
       | None => A_TotalEngagementScore agg
       end;
     A_AvgTTFR := A_AvgTTFR agg;
     A_AvgCommentCount := A_AvgCommentCount agg;
     A_EngagementScore := A_EngagementScore agg |}.

Definition agg_averages (agg : aggregatedMetrics) : aggregatedMetrics :=
  if A_MetricsCount agg >? 0 then
    {| A_CompletedReviews := A_CompletedReviews agg;
       A_TotalTTFR := A_TotalTTFR agg;
       A_TotalCommentCount := A_TotalCommentCount agg;
       A_TotalEngagementScore := A_TotalEngagementScore agg;
       A_MetricsCount := A_MetricsCount agg;
       A_AvgTTFR := (A_TotalTTFR agg / Go.float64_of_int (A_MetricsCount agg))%float;
       A_AvgCommentCount :=
         (A_TotalCommentCount agg / Go.float64_of_int (A_MetricsCount agg))%float;
       A_EngagementScore :=
         (A_TotalEngagementScore agg / Go.float64_of_int (A_MetricsCount agg))%float |}
  else agg.

(** [aggregateMetricsByUser] of the leaderboard: totals per user, then the
    means.  The second loop rewrites each key of the map once, from that
    key's own value, so its iteration order is immaterial. *)
Definition leaderboard_aggregateMetricsByUser (metrics : list ReviewMetrics)
  : gmap Z aggregatedMetrics :=
  let userMetrics :=
    fold_left
      (fun (userMetrics : gmap Z aggregatedMetrics) m =>
         match RM_UserID m with
         | None => userMetrics
         | Some userID =>
             let agg := default zero_agg (userMetrics !! userID) in
             <[userID := agg_add_row agg m]> userMetrics
         end)
      metrics ∅ in
  agg_averages <$> userMetrics.

Definition sortLeaderboard {sorter : SliceSorter} (entries : list Entry) (metric : string) : list Entry :=
  if String.eqb metric "completed_reviews" then
    sort_Slice (fun a b => E_CompletedReviews a >? E_CompletedReviews b) entries
  else if String.eqb metric "engagement_score" then
    sort_Slice (fun a b => float_gt (E_EngagementScore a) (E_EngagementScore b)) entries
  else if String.eqb metric "avg_ttfr" then
    sort_Slice (fun a b => (E_AvgTTFR a <? E_AvgTTFR b)%float) entries
  else if String.eqb metric "avg_comment_count" then
    sort_Slice (fun a b => float_gt (E_AvgCommentCount a) (E_AvgCommentCount b)) entries
  else
    sort_Slice (fun a b => E_CompletedReviews a >? E_CompletedReviews b) entries.

(** The entries of [getLeaderboard] before sorting: one per aggregated
    user that [userRepo.GetByID] finds, in map-iteration order. *)
Definition build_entries {order : MapRange} (db : DB) (userMetrics : gmap Z aggregatedMetrics)
  : list Entry :=
  let badgeCounts : gmap Z Z :=
    fold_left (fun (bc : gmap Z Z) '(userID, _) => <[userID := GetUserBadgeCount db userID]> bc)
              (map_range userMetrics) ∅ in
  fold_left
    (fun entries '(userID, aggMetrics) =>
       match UserRepository_GetByID db userID with
       | None => entries
       | Some user =>
           entries ++ [ {| E_UserID := userID;
                           E_Username := User_Username user;
                           E_Team := User_Team user;
                           E_CompletedReviews := A_CompletedReviews aggMetrics;
                           E_AvgTTFR := A_AvgTTFR aggMetrics;
                           E_AvgCommentCount := A_AvgCommentCount aggMetrics;
                           E_EngagementScore := A_EngagementScore aggMetrics;
                           E_BadgeCount := default 0 (badgeCounts !! userID);
                           E_Rank := 0 |} ]
       end)
    (map_range userMetrics) [].

(** [for i := range entries { entries[i].Rank = i + 1 }]. *)
Definition assign_ranks (entries : list Entry) : list Entry :=
  imap (fun i e => set_Rank (Z.of_nat i + 1) e) entries.

(** [if limit > 0 && len(entries) > limit { entries = entries[:limit] }]. *)
Definition apply_limit (limit : Z) (entries : list Entry) : list Entry :=
  if (limit >? 0) && (Z.of_nat (length entries) >? limit)
  then take (Z.to_nat limit) entries
  else entries.

Definition getLeaderboard {sorter : SliceSorter} {order : MapRange}
    (now : Time) (db : DB) (team period metric : string) (limit : Z) : list Entry :=
  let '(startDate, endDate) := leaderboard_period.calculatePeriodRange now period in
  let filters := if negb (String.eqb team "")
                 then mkFilters (Some team) None None else no_filters in
  let metrics := GetByDateRange db startDate endDate filters in
  let userMetrics := leaderboard_aggregateMetricsByUser metrics in
  let entries := build_entries db userMetrics in
  let entries := sortLeaderboard entries metric in
  let entries := assign_ranks entries in
  apply_limit limit entries.

Definition GetGlobalLeaderboard {sorter : SliceSorter} {order : MapRange}
    (now : Time) (db : DB) (period metric : string) (limit : Z) : list Entry :=
  getLeaderboard now db "" period metric limit.

(** [GetUserRank]: the rank of the user in the unlimited global
    leaderboard; [None] is the "user not found in leaderboard" error. *)
Definition GetUserRank {sorter : SliceSorter} {order : MapRange}
    (now : Time) (db : DB) (userID : Z) (period metric : string) : option Z :=
  E_Rank <$> List.find (fun e => E_UserID e =? userID)
                       (GetGlobalLeaderboard now db period metric 0).

(* ===================================================================== *)
(** ** The world the services run in: store and wall clock                *)
(* ===================================================================== *)

(** Errors returned by the modelled functions. *)
Inductive result (A : Type) :=
| Ok (a : A)
| Err (msg : string).
Arguments Ok {A} a.
Arguments Err {A} msg.

(** [w_wall] is the sequence of readings [time.Now()] will return, [w_tick]
    the number of readings taken so far. *)
Record World := mkWorld {
  w_wall : nat -> Time;
  w_tick : nat;
  w_db : DB
}.

Definition M (A : Type) : Type := World -> A * World.

Definition ret {A} (a : A) : M A := fun w => (a, w).

Definition bind {A B} (m : M A) (k : A -> M B) : M B :=
  fun w => let '(a, w') := m w in k a w'.

Notation "'do' x <- m ; k" := (bind m (fun x => k))
  (at level 10, x pattern, m at level 100, k at level 200).

(** [time.Now()]. *)
Definition time_Now : M Time :=
  fun w => (w_wall w (w_tick w),
            {| w_wall := w_wall w; w_tick := S (w_tick w); w_db := w_db w |}).

(** A read-only query against the store. *)
Definition query {A} (f : DB -> A) : M A := fun w => (f (w_db w), w).

(** A write to the store. *)
Definition exec (f : DB -> DB) : M unit :=
  fun w => (tt, {| w_wall := w_wall w; w_tick := w_tick w; w_db := f (w_db w) |}).

Fixpoint foldM {A B} (f : B -> A -> M B) (b : B) (l : list A) : M B :=
  match l with
  | [] => ret b
  | x :: l' => do b' <- f b x; foldM f b' l'
  end.

(** [BadgeRepository.AwardBadge]: a no-op returning success when the pair
    is already there, an insert stamped [time.Now()] otherwise. *)
Definition BadgeRepository_AwardBadge (userID badgeID : Z) : M (result unit) :=
  do exists_ <- query (fun db => HasUserEarnedBadge db userID badgeID);
  if (exists_ : bool) then ret (Ok tt)
  else
    do now <- time_Now;
    do _ <- exec (fun db =>
      let userBadge := {| UB_ID := next_id (UB_ID <$> db_user_badges db);
                          UB_UserID := userID; UB_BadgeID := badgeID;
                          UB_EarnedAt := now |} in
      set_user_badges (db_user_badges db ++ [userBadge]) db);
    ret (Ok tt).

(** [MetricsRepository.CreateOrUpdate]: looks the key up; creates the row
    when there is none (the only branch that reads the clock, for the
    creation stamp); otherwise copies the ID of the row found, and nothing
    else of it, into [metric] and saves [metric] over it. *)
Definition CreateOrUpdate (metric : ReviewMetrics) : M (result unit) :=
  do existing <- query (fun db => First (same_key metric) (db_review_metrics db));
  match existing with
  | None =>
      do now <- time_Now;
      do _ <- exec (fun db =>
        set_review_metrics (MetricsRepository_Create now metric (db_review_metrics db)) db);
      ret (Ok tt)
  | Some existing =>
      let metric := set_RM_ID (RM_ID existing) metric in
      do _ <- exec (fun db =>
        set_review_metrics (MetricsRepository_Save metric (db_review_metrics db)) db);
      ret (Ok tt)
  end.

(* ===================================================================== *)
(** ** package badges: evaluator.go and service.go                        *)
(* ===================================================================== *)

Definition evaluateMetricCriteria (operator : string) (threshold actualValue : float)
  : result bool :=
  if String.eqb operator "<" then Ok (actualValue <? threshold)%float
  else if String.eqb operator "<=" then Ok (actualValue <=? threshold)%float
  else if String.eqb operator ">" then Ok (threshold <? actualValue)%float
  else if String.eqb operator ">=" then Ok (threshold <=? actualValue)%float
  else if String.eqb operator "==" then Ok (actualValue =? threshold)%float
  else Err "unsupported operator".

Definition getMetricValue (m : ReviewMetrics) (metric : string) : result float :=
  if String.eqb metric "completed_reviews" then
    Ok (Go.float64_of_int (RM_CompletedReviews m))
  else if String.eqb metric "engagement_score" then
    Ok (default 0%float (RM_EngagementScore m))
  else if String.eqb metric "avg_ttfr" then
    Ok (default 0%float (Go.float64_of_int <$> RM_AvgTTFR m))
  else if String.eqb metric "avg_comment_count" then
    Ok (default 0%float (RM_AvgCommentCount m))
  else Err "top ranking not supported for metric".

(** [aggregateMetricsByUser] of the evaluator: the per-user sum of the
    metric over the rows; the first row whose metric is unsupported aborts
    with its error. *)
Definition badges_aggregateMetricsByUser (allMetrics : list ReviewMetrics) (metric : string)
  : result (gmap Z float) :=
  fold_left
    (fun acc m =>
       match acc with
       | Err e => Err e
       | Ok userAggregates =>
           match RM_UserID m with
           | None => Ok userAggregates
           | Some uid =>
               match getMetricValue m metric with
               | Err e => Err e
               | Ok value =>
                   Ok (<[uid := (default 0%float (userAggregates !! uid) + value)%float]>
                         userAggregates)
               end
           end
       end)
    allMetrics (Ok ∅).

Record userRank := mkUserRank {
  rank_userID : Z;
  rank_value : float
}.

Definition sortUserRankings {sorter : SliceSorter} {order : MapRange} (userAggregates : gmap Z float)
  : list userRank :=
  let rankings := (fun '(uid, val) => mkUserRank uid val) <$> map_range userAggregates in
  sort_Slice (fun a b => float_gt (rank_value a) (rank_value b)) rankings.

Definition evaluateTopRanking {sorter : SliceSorter} {order : MapRange}
    (metric : string) (topN : Z) (period : string) (userID : Z) : M (result bool) :=
  do now <- time_Now;
  let '(startDate, endDate) := badges_period.calculatePeriodRange now period in
  do allMetrics <- query (fun db => GetByDateRange db startDate endDate no_filters);
  match badges_aggregateMetricsByUser allMetrics metric with
  | Err e => ret (Err e)
  | Ok userAggregates =>
      let rankings := sortUserRankings userAggregates in
      ret (Ok (existsb (fun r => rank_userID r =? userID)
                       (take (Z.to_nat topN) rankings)))
  end.

Record userTotals := mkUserTotals {
  totalTTFR : float;
  totalCommentCount : float;
  totalCommentLength : float;
  totalEngagementScore : float;
  totalCompletedReviews : Z;
  metricsCount : Z
}.

Definition userTotals_add (t : userTotals) (m : ReviewMetrics) : userTotals :=
  {| totalTTFR :=
       match RM_AvgTTFR m with
       | Some v => (totalTTFR t + Go.float64_of_int v)%float
       | None => totalTTFR t
       end;
     totalCommentCount :=
       match RM_AvgCommentCount m with
       | Some v => (totalCommentCount t + v)%float
       | None => totalCommentCount t
       end;
     totalCommentLength :=
       match RM_AvgCommentLength m with
       | Some v => (totalCommentLength t + v)%float
       | None => totalCommentLength t
       end;
     totalEngagementScore :=
       match RM_EngagementScore m with
       | Some v => (totalEngagementScore t + v)%float
       | None => totalEngagementScore t
       end;
     totalCompletedReviews := Go.int_add (totalCompletedReviews t) (RM_CompletedReviews m);
     metricsCount := Go.int_add (metricsCount t) 1 |}.

(** [aggregateUserMetrics] of the evaluator: the [map[string]float64] of the
    user's aggregated metrics over the window. *)
Definition badges_aggregateUserMetrics (db : DB) (userID : Z) (startDate endDate : Time)
  : gmap string float :=
  let metrics : gmap string float := ∅ in
  let userMetrics := GetMetricsByUser db userID startDate endDate in
  if (length userMetrics =? 0)%nat then metrics
  else
    let t := fold_left userTotals_add userMetrics (mkUserTotals 0 0 0 0 0 0) in
    let metrics :=
      if metricsCount t >? 0 then
        <["engagement_score" := (totalEngagementScore t / Go.float64_of_int (metricsCount t))%float]>
        (<["avg_comment_length" := (totalCommentLength t / Go.float64_of_int (metricsCount t))%float]>
        (<["avg_comment_count" := (totalCommentCount t / Go.float64_of_int (metricsCount t))%float]>
        (<["avg_ttfr" := (totalTTFR t / Go.float64_of_int (metricsCount t))%float]> metrics)))
      else metrics in
    let metrics := <["completed_reviews" := Go.float64_of_int (totalCompletedReviews t)]> metrics in
    let metrics := <["external_reviews" := Go.float64_of_int (totalCompletedReviews t)]> metrics in
    metrics.

Definition checkCriteria {sorter : SliceSorter} {order : MapRange}
    (criteria : BadgeCriteria) (userID : Z) : M (result bool) :=
  do now <- time_Now;
  let '(startDate, endDate) := badges_period.calculatePeriodRange now (BC_Period criteria) in
  do userMetrics <- query (fun db => badges_aggregateUserMetrics db userID startDate endDate);
  match (userMetrics : gmap string float) !! BC_Metric criteria with
  | None => ret (Ok false)
  | Some metricValue =>
      if String.eqb (BC_Operator criteria) "top" then
        match BC_Value criteria with
        | JNumber topN =>
            evaluateTopRanking (BC_Metric criteria) (Go.int_of_float64 topN)
                               (BC_Period criteria) userID
        | JOther => ret (Err "invalid value type for 'top' operator")
        end
      else
        match BC_Value criteria with
        | JNumber threshold =>
            ret (evaluateMetricCriteria (BC_Operator criteria) threshold metricValue)
        | JOther => ret (Err "invalid value type: expected float64")
        end
  end.

Definition EvaluateBadge {sorter : SliceSorter} {order : MapRange} (badge : Badge) (userID : Z)
  : M (result bool) :=
  match Badge_Criteria badge with
  | None => ret (Err "failed to parse badge criteria")
  | Some criteria => checkCriteria criteria userID
  end.

(** [Service.AwardBadge]: the repository call; what follows it only feeds
    the process-wide counters and gauges, which are not part of the store. *)
Definition Service_AwardBadge (userID : Z) (badge : Badge) : M (result unit) :=
  do r <- BadgeRepository_AwardBadge userID (Badge_ID badge);
  match r with
  | Err e => ret (Err e)
  | Ok _ =>
      do _ <- query (fun db => UserRepository_GetByID db userID);
      do _ <- query (fun db => GetBadgeHoldersCount db (Badge_ID badge));
      ret (Ok tt)
  end.

(** The body of the inner loop of [EvaluateAllBadges] for one
    (badge, user) pair. *)
Definition evaluate_pair {sorter : SliceSorter} {order : MapRange}
    (badge : Badge) (awardsCount : Z) (user : User) : M Z :=
  do hasEarned <- query (fun db => HasUserEarnedBadge db (User_ID user) (Badge_ID badge));
  if (hasEarned : bool) then ret awardsCount
  else
    do q <- EvaluateBadge badge (User_ID user);
    match q with
    | Err _ => ret awardsCount
    | Ok qualifies =>
        if (qualifies : bool) then
          do r <- Service_AwardBadge (User_ID user) badge;
          match r with
          | Err _ => ret awardsCount
          | Ok _ => ret (Go.int_add awardsCount 1)
          end
        else ret awardsCount
    end.

Definition EvaluateAllBadges {sorter : SliceSorter} {order : MapRange} : M (result Z) :=
  do start <- time_Now;
  do badges <- query BadgeRepository_GetAll;
  do users <- query (fun db => UserRepository_List db "" "");
  do awardsCount <-
    foldM (fun awardsCount badge => foldM (evaluate_pair badge) awardsCount users) 0 badges;
  do duration <- time_Now;
  ret (Ok awardsCount).

(* ===================================================================== *)
(** ** package aggregator                                                 *)
(* ===================================================================== *)

(** [time.Date(date.Year(), date.Month(), date.Day(), 0, 0, 0, 0,
    date.Location())]: midnight of the civil day of [date], for a location
    at a fixed offset of [loc] seconds east of UTC. *)
Definition startOfDay (date : Time) (loc : Z) : Time :=
  let local := date + loc * Second in
  local / (24 * Hour) * (24 * Hour) - loc * Second.

Record teamTotals := mkTeamTotals {
  team_totalTTFR : float;
  team_totalTimeToApproval : float;
  team_ttfrCount : Z;
  team_approvalCount : Z;
  team_totalCommentCount : Z;
  team_totalCommentLength : Z;
  team_completedCount : Z
}.

(** One iteration of the loop of [aggregateTeamMetrics] over the reviews. *)
Definition teamTotals_add (db : DB) (t : teamTotals) (review : MRReview) : teamTotals :=
  let completedCount :=
    if String.eqb (MR_Status review) MRStatusMerged
    then Go.int_add (team_completedCount t) 1 else team_completedCount t in
  let '(totalTTFR, ttfrCount) :=
    match MR_FirstReviewAt review, MR_RouletteTriggeredAt review with
    | Some firstReviewAt, Some triggeredAt =>
        let ttfr := Seconds (Sub firstReviewAt triggeredAt) in
        if (0 <=? ttfr)%float
        then ((team_totalTTFR t + ttfr)%float, Go.int_add (team_ttfrCount t) 1)
        else (team_totalTTFR t, team_ttfrCount t)
    | _, _ => (team_totalTTFR t, team_ttfrCount t)
    end in
  let '(totalTimeToApproval, approvalCount) :=
    match MR_ApprovedAt review, MR_RouletteTriggeredAt review with
    | Some approvedAt, Some triggeredAt =>
        let approvalTime := Seconds (Sub approvedAt triggeredAt) in
        if (0 <=? approvalTime)%float
        then ((team_totalTimeToApproval t + approvalTime)%float,
              Go.int_add (team_approvalCount t) 1)
        else (team_totalTimeToApproval t, team_approvalCount t)
    | _, _ => (team_totalTimeToApproval t, team_approvalCount t)
    end in
  let assignments := GetAssignmentsByMRReviewID db (MR_ID review) in
  let '(totalCommentCount, totalCommentLength) :=
    fold_left
      (fun '(cc, cl) assignment =>
         (Go.int_add cc (RA_CommentCount assignment),
          Go.int_add cl (RA_CommentLength assignment)))
      assignments (team_totalCommentCount t, team_totalCommentLength t) in
  {| team_totalTTFR := totalTTFR;
     team_totalTimeToApproval := totalTimeToApproval;
     team_ttfrCount := ttfrCount;
     team_approvalCount := approvalCount;
     team_totalCommentCount := totalCommentCount;
     team_totalCommentLength := totalCommentLength;
     team_completedCount := completedCount |}.

(** The team-level row [aggregateTeamMetrics] builds: the struct literal
    sets neither [ID] nor [CreatedAt], which keep their zero values. *)
Definition team_metric (db : DB) (date : Time) (team : string) (reviews : list MRReview)
  : ReviewMetrics :=
  let t := fold_left (teamTotals_add db) reviews (mkTeamTotals 0 0 0 0 0 0 0) in
  let len_reviews := Z.of_nat (length reviews) in
  let avgTTFR :=
    if team_ttfrCount t >? 0
    then (team_totalTTFR t / Go.float64_of_int (team_ttfrCount t))%float else 0%float in
  let avgTimeToApproval :=
    if team_approvalCount t >? 0
    then (team_totalTimeToApproval t / Go.float64_of_int (team_approvalCount t))%float
    else 0%float in
  let avgCommentCount :=
    if len_reviews >? 0
    then (Go.float64_of_int (team_totalCommentCount t) / Go.float64_of_int len_reviews)%float
    else 0%float in
  let avgCommentLength :=
    if len_reviews >? 0
    then (Go.float64_of_int (team_totalCommentLength t) / Go.float64_of_int len_reviews)%float
    else 0%float in
  let engagementScore :=
    if len_reviews >? 0
    then (avgCommentCount * 10 + avgCommentLength / 100)%float else 0%float in
  let avgTTFRMinutes :=
    if team_ttfrCount t >? 0 then Some (Go.int_of_float64 (avgTTFR / 60)%float) else None in
  let avgTimeToApprovalMinutes :=
    if team_approvalCount t >? 0
    then Some (Go.int_of_float64 (avgTimeToApproval / 60)%float) else None in
  {| RM_ID := 0;
     RM_Date := date;
     RM_Team := team;
     RM_UserID := None;
     RM_ProjectID := None;
     RM_TotalReviews := len_reviews;
     RM_CompletedReviews := team_completedCount t;
     RM_AvgTTFR := avgTTFRMinutes;
     RM_AvgTimeToApproval := avgTimeToApprovalMinutes;
     RM_AvgCommentCount := Some avgCommentCount;
     RM_AvgCommentLength := Some avgCommentLength;
     RM_EngagementScore := Some engagementScore;
     RM_CreatedAt := zero_Time |}.

Definition aggregateTeamMetrics (date : Time) (team : string) (reviews : list MRReview)
  : M (result unit) :=
  do metric <- query (fun db => team_metric db date team reviews);
  CreateOrUpdate metric.

(** The user-level row [aggregateUserMetrics] builds for one assignment;
    here too [ID] and [CreatedAt] keep their zero values. *)
Definition user_metric (date : Time) (review : MRReview) (assignment : ReviewerAssignment)
  : ReviewMetrics :=
  let avgTTFR :=
    match RA_FirstCommentAt assignment with
    | Some firstCommentAt =>
        if Unix (RA_AssignedAt assignment) >? 0 then
          let ttfr := Seconds (Sub firstCommentAt (RA_AssignedAt assignment)) in
          if (0 <=? ttfr)%float then ttfr else 0%float
        else 0%float
    | None => 0%float
    end in
  let avgTimeToApproval :=
    match RA_ApprovedAt assignment with
    | Some approvedAt =>
        if Unix (RA_AssignedAt assignment) >? 0 then
          let approvalTime := Seconds (Sub approvedAt (RA_AssignedAt assignment)) in
          if (0 <=? approvalTime)%float then approvalTime else 0%float
        else 0%float
    | None => 0%float
    end in
  let engagementScore := CalculateEngagementScore (Some assignment) in
  let avgTTFRMinutes :=
    if float_gt avgTTFR 0 then Some (Go.int_of_float64 (avgTTFR / 60)%float) else None in
  let avgTimeToApprovalMinutes :=
    if float_gt avgTimeToApproval 0
    then Some (Go.int_of_float64 (avgTimeToApproval / 60)%float) else None in
  let commentCount := Go.float64_of_int (RA_CommentCount assignment) in
  let commentLength := Go.float64_of_int (RA_CommentLength assignment) in
  let completedReviews := if String.eqb (MR_Status review) MRStatusMerged then 1 else 0 in
  {| RM_ID := 0;
     RM_Date := date;
     RM_Team := MR_Team review;
     RM_UserID := Some (RA_UserID assignment);
     RM_ProjectID := Some (MR_GitLabProjectID review);
     RM_TotalReviews := 1;
     RM_CompletedReviews := completedReviews;
     RM_AvgTTFR := avgTTFRMinutes;
     RM_AvgTimeToApproval := avgTimeToApprovalMinutes;
     RM_AvgCommentCount := Some commentCount;
     RM_AvgCommentLength := Some commentLength;
     RM_EngagementScore := Some engagementScore;
     RM_CreatedAt := zero_Time |}.

Definition aggregateUserMetrics (date : Time) (review : MRReview) : M (result unit) :=
  do assignments <- query (fun db => GetAssignmentsByMRReviewID db (MR_ID review));
  do _ <- foldM (fun (_ : unit) assignment =>
                   do _ <- CreateOrUpdate (user_metric date review assignment);
                   ret tt)
                tt assignments;
  ret (Ok tt).

(** [teamReviews[review.Team] = append(teamReviews[review.Team], review)]. *)
Definition group_by_team (reviews : list MRReview) : gmap string (list MRReview) :=
  fold_left
    (fun (teamReviews : gmap string (list MRReview)) review =>
       <[MR_Team review := default [] (teamReviews !! MR_Team review) ++ [review]]> teamReviews)
    reviews ∅.

(** [AggregateDaily]; [loc] is the location of [date]. *)
Definition AggregateDaily {order : MapRange} (date : Time) (loc : Z) : M (result unit) :=
  let startOfDay := startOfDay date loc in
  let endOfDay := Add startOfDay (24 * Hour) in
  do reviews <- query (fun db => GetCompletedReviewsByDateRange db startOfDay endOfDay);
  if (length reviews =? 0)%nat then ret (Ok tt)
  else
    let teamReviews := group_by_team reviews in
    do _ <- foldM (fun (_ : unit) '(team, reviews) =>
                     do _ <- aggregateTeamMetrics startOfDay team reviews;
                     ret tt)
                  tt (map_range teamReviews);
    do _ <- foldM (fun (_ : unit) review =>
                     do _ <- aggregateUserMetrics startOfDay review;
                     ret tt)
                  tt reviews;
    ret (Ok tt).

(* ===================================================================== *)
(** ** package repository: the other queries                              *)
(* ===================================================================== *)

(** [ORDER BY key DESC] on a column of instants; rows of equal key keep
    their primary-key order. *)
Fixpoint insert_desc {A} (key : A -> Z) (r : A) (l : list A) : list A :=
  match l with
  | [] => [r]
  | x :: l' => if key x <=? key r then r :: l else x :: insert_desc key r l'
  end.

Definition order_by_desc {A} (key : A -> Z) (l : list A) : list A :=
  foldr (insert_desc key) [] l.

(** [.Preload("X")] of a belongs-to association: the referenced row, or the
    zero value of its struct when there is none. *)
Definition preload {A} (key : A -> Z) (zero : A) (rows : list A) (id : Z) : A :=
  default zero (First (fun r => key r =? id) rows).

Definition zero_User : User := mkUser 0 0 "" "" "".

(** The zero [Badge]: its [Criteria] is the empty document, which does not
    parse. *)
Definition zero_Badge : Badge := mkBadge 0 "" None.

(** *** BadgeRepository *)

(** A [UserBadge] as [GetUserBadges] returns it: the row with its [Badge]
    and [User] preloaded. *)
Record LoadedUserBadge := mkLoadedUserBadge {
  LUB_row : UserBadge;
  LUB_Badge : Badge;
  LUB_User : User
}.

Definition load_user_badge (db : DB) (ub : UserBadge) : LoadedUserBadge :=
  {| LUB_row := ub;
     LUB_Badge := preload Badge_ID zero_Badge (db_badges db) (UB_BadgeID ub);
     LUB_User := preload User_ID zero_User (db_users db) (UB_UserID ub) |}.

Definition BadgeRepository_GetUserBadges (db : DB) (userID : Z) : list LoadedUserBadge :=
  load_user_badge db
    <$> order_by_desc UB_EarnedAt
          (List.filter (fun ub => UB_UserID ub =? userID) (db_user_badges db)).

(* ===================================================================== *)
(** ** package leaderboard: team leaderboards and user statistics         *)
(* ===================================================================== *)

Definition GetTeamLeaderboard {sorter : SliceSorter} {order : MapRange}
    (now : Time) (db : DB) (team period metric : string) (limit : Z) : list Entry :=
  getLeaderboard now db team period metric limit.

(** [getUserTeamRank]: [None] is the "user not found in team leaderboard"
    error. *)
Definition getUserTeamRank {sorter : SliceSorter} {order : MapRange}
    (now : Time) (db : DB) (userID : Z) (team period metric : string) : option Z :=
  E_Rank <$> List.find (fun e => E_UserID e =? userID)
                       (GetTeamLeaderboard now db team period metric 0).

Record UserStats := mkUserStats {
  US_UserID : Z;
  US_Username : string;
  US_Team : string;
  US_Period : string;
  US_TotalReviews : Z;
  US_CompletedReviews : Z;
  US_AvgTTFR : float;
  US_AvgTimeToApproval : float;
  US_AvgCommentCount : float;
  US_EngagementScore : float;
  US_Badges : list Badge;
  US_GlobalRank : Z;
  US_TeamRank : Z
}.

(** The state of the loop of [GetUserStats] over the user's rows. *)
Record statsTotals := mkStatsTotals {
  st_TotalReviews : Z;
  st_CompletedReviews : Z;
  st_totalTTFR : float;
  st_totalTimeToApproval : float;
  st_totalCommentCount : float;
  st_totalEngagementScore : float;
  st_metricsCount : Z
}.

Definition statsTotals_add (t : statsTotals) (m : ReviewMetrics) : statsTotals :=
  {| st_TotalReviews := Go.int_add (st_TotalReviews t) (RM_TotalReviews m);
     st_CompletedReviews := Go.int_add (st_CompletedReviews t) (RM_CompletedReviews m);
     st_totalTTFR :=
       match RM_AvgTTFR m with
       | Some v => (st_totalTTFR t + Go.float64_of_int v)%float
       | None => st_totalTTFR t
       end;
     st_totalTimeToApproval :=
       match RM_AvgTimeToApproval m with
       | Some v => (st_totalTimeToApproval t + Go.float64_of_int v)%float
       | None => st_totalTimeToApproval t
       end;
     st_totalCommentCount :=
       match RM_AvgCommentCount m with
       | Some v => (st_totalCommentCount t + v)%float
       | None => st_totalCommentCount t
       end;
     st_totalEngagementScore :=
       match RM_EngagementScore m with
       | Some v => (st_totalEngagementScore t + v)%float
       | None => st_totalEngagementScore t
       end;
     st_metricsCount := Go.int_add (st_metricsCount t) 1 |}.

(** [GetUserStats].  [calculatePeriodRange], [GetUserRank] and
    [getUserTeamRank] each read the clock for themselves. *)
Definition GetUserStats {sorter : SliceSorter} {order : MapRange}
    (userID : Z) (period : string) : M (result UserStats) :=
  do user <- query (fun db => UserRepository_GetByID db userID);
  match user with
  | None => ret (Err "failed to get user")
  | Some user =>
      do now <- time_Now;
      let '(startDate, endDate) := leaderboard_period.calculatePeriodRange now period in
      do metrics <- query (fun db => GetMetricsByUser db userID startDate endDate);
      let t := fold_left statsTotals_add metrics (mkStatsTotals 0 0 0 0 0 0 0) in
      let averaged := st_metricsCount t >? 0 in
      let count := Go.float64_of_int (st_metricsCount t) in
      do userBadges <- query (fun db => BadgeRepository_GetUserBadges db userID);
      let badges :=
        LUB_Badge <$> List.filter (fun ub => negb (Badge_ID (LUB_Badge ub) =? 0)) userBadges in
      do now <- time_Now;
      do globalRank <- query (fun db => GetUserRank now db userID period "engagement_score");
      do now <- time_Now;
      do teamRank <- query (fun db =>
        getUserTeamRank now db userID (User_Team user) period "engagement_score");
      ret (Ok {| US_UserID := userID;
                 US_Username := User_Username user;
                 US_Team := User_Team user;
                 US_Period := period;
                 US_TotalReviews := st_TotalReviews t;
                 US_CompletedReviews := st_CompletedReviews t;
                 US_AvgTTFR := if averaged then (st_totalTTFR t / count)%float else 0%float;
                 US_AvgTimeToApproval :=
                   if averaged then (st_totalTimeToApproval t / count)%float else 0%float;
                 US_AvgCommentCount :=
                   if averaged then (st_totalCommentCount t / count)%float else 0%float;
                 US_EngagementScore :=
                   if averaged then (st_totalEngagementScore t / count)%float else 0%float;
                 US_Badges := badges;
                 US_GlobalRank := default 0 globalRank;
                 US_TeamRank := default 0 teamRank |})
  end.

(** *** OOORepository: the other lookups *)

Definition GetActiveOOO (now : Time) (db : DB) (userID : Z) : list OOOStatus :=
  List.filter (fun o => (OOO_UserID o =? userID)
                        && (OOO_StartDate o <=? now) && (OOO_EndDate o >=? now))
              (db_ooo_status db).

(** [GetActiveByUserID]: [None] is the [nil, nil] of the not-found case. *)
Definition GetActiveByUserID (now : Time) (db : DB) (userID : Z) : option OOOStatus :=
  First (fun o => (OOO_UserID o =? userID)
                  && (OOO_StartDate o <=? now) && (OOO_EndDate o >=? now))
        (db_ooo_status db).

(** *** BadgeRepository: revocation *)


(* ===================================================================== *)
(** ** package badges: the per-user evaluation                            *)
(* ===================================================================== *)

(** The body of the loop of [EvaluateUserBadges] for one badge. *)
Definition evaluate_user_badge {sorter : SliceSorter} {order : MapRange}
    (userID : Z) (newlyEarned : list Badge) (badge : Badge) : M (list Badge) :=
  do hasEarned <- query (fun db => HasUserEarnedBadge db userID (Badge_ID badge));
  if (hasEarned : bool) then ret newlyEarned
  else
    do q <- EvaluateBadge badge userID;
    match q with
    | Err _ => ret newlyEarned
    | Ok qualifies =>
        if (qualifies : bool) then
          do r <- Service_AwardBadge userID badge;
          match r with
          | Err _ => ret newlyEarned
          | Ok _ => ret (newlyEarned ++ [badge])
          end
        else ret newlyEarned
    end.

Definition EvaluateUserBadges {sorter : SliceSorter} {order : MapRange}
    (userID : Z) : M (result (list Badge)) :=
  do badges <- query BadgeRepository_GetAll;
  do newlyEarned <- foldM (evaluate_user_badge userID) [] badges;
  ret (Ok newlyEarned).

(* ===================================================================== *)
(** * Vocabulary of the properties                                        *)
(* ===================================================================== *)

(** ** Signs and order of binary64 numbers *)

(** [f] carries the sign bit [s], or is NaN. *)
Definition SF_sign_is (s : bool) (f : spec_float) : Prop :=
  match f with
  | S754_nan => True
  | S754_zero s' | S754_infinity s' | S754_finite s' _ _ => s' = s
  end.

(** [f] is not a strictly positive number. *)
Definition SF_nonpos (f : spec_float) : Prop :=
  match f with
  | S754_finite false _ _ | S754_infinity false => False
  | _ => True
  end.

Definition SF_is_nan (f : spec_float) : bool :=
  match f with S754_nan => true | _ => false end.

(** A key whose lexicographic order is the order [SFcompare] decides:
    class (-inf, negative, zero, positive, +inf), then exponent, then
    mantissa, the last two negated for negative numbers. *)
Definition SF_key (f : spec_float) : Z * Z * Z :=
  match f with
  | S754_nan => (0, 0, 0)
  | S754_zero _ => (0, 0, 0)
  | S754_infinity true => (-2, 0, 0)
  | S754_infinity false => (2, 0, 0)
  | S754_finite true m e => (-1, - e, Z.neg m)
  | S754_finite false m e => (1, e, Z.pos m)
  end.

Definition lex_lt (a b : Z * Z * Z) : Prop :=
  let '(a1, a2, a3) := a in
  let '(b1, b2, b3) := b in
  a1 < b1 \/ (a1 = b1 /\ (a2 < b2 \/ (a2 = b2 /\ a3 < b3))).

Definition float_key (x : float) : Z * Z * Z := SF_key (Prim2SF x).

(** ** Badge awards *)

(** [count(UserBadge where user, badge)]. *)
Definition pair_count (db : DB) (userID badgeID : Z) : Z :=
  Count (fun ub => (UB_UserID ub =? userID) && (UB_BadgeID ub =? badgeID)) (db_user_badges db).

Definition at_most_once (db : DB) : Prop :=
  forall userID badgeID, pair_count db userID badgeID <= 1.

(** A computation that leaves the store as it found it. *)
Definition readonly {A} (m : M A) : Prop := forall w, w_db (snd (m w)) = w_db w.


(** [n] sequential invocations of [EvaluateAllBadges]. *)
Definition evaluate_n_times {sorter : SliceSorter} {order : MapRange}
    (n : nat) (w : World) : World :=
  Nat.iter n (fun w => snd (EvaluateAllBadges w)) w.

(** The user's summed [completed_reviews] over the rows of a window. *)
Definition summed_completed_reviews (rows : list ReviewMetrics) : Z :=
  fold_left (fun total m => Go.int_add total (RM_CompletedReviews m)) rows 0.

(** ** Leaderboard order and ranks *)

(** The comparator [sortLeaderboard] hands to [sort.Slice]. *)
Definition leaderboard_less (metric : string) : Entry -> Entry -> bool :=
  if String.eqb metric "completed_reviews" then
    fun a b => E_CompletedReviews a >? E_CompletedReviews b
  else if String.eqb metric "engagement_score" then
    fun a b => float_gt (E_EngagementScore a) (E_EngagementScore b)
  else if String.eqb metric "avg_ttfr" then
    fun a b => (E_AvgTTFR a <? E_AvgTTFR b)%float
  else if String.eqb metric "avg_comment_count" then
    fun a b => float_gt (E_AvgCommentCount a) (E_AvgCommentCount b)
  else
    fun a b => E_CompletedReviews a >? E_CompletedReviews b.

(** The entry's value of the ranking metric is a number (not NaN).  The
    integer metric [completed_reviews], and with it every unknown metric,
    always is. *)
Definition metric_defined (metric : string) (e : Entry) : Prop :=
  if String.eqb metric "engagement_score" then is_nan (E_EngagementScore e) = false
  else if String.eqb metric "avg_ttfr" then is_nan (E_AvgTTFR e) = false
  else if String.eqb metric "avg_comment_count" then is_nan (E_AvgCommentCount e) = false
  else True.

(** [x] may stand before [y] in the leaderboard of [metric]: descending
    for completed_reviews, engagement_score and avg_comment_count,
    ascending for avg_ttfr, and as completed_reviews for any other metric. *)
Definition in_order (metric : string) (x y : Entry) : Prop :=
  if String.eqb metric "engagement_score" then
    (E_EngagementScore y <=? E_EngagementScore x)%float = true
  else if String.eqb metric "avg_ttfr" then
    (E_AvgTTFR x <=? E_AvgTTFR y)%float = true
  else if String.eqb metric "avg_comment_count" then
    (E_AvgCommentCount y <=? E_AvgCommentCount x)%float = true
  else E_CompletedReviews y <= E_CompletedReviews x.

(** The ranked, untruncated leaderboard: what [getLeaderboard] holds just
    before it applies the limit. *)
Definition ranked_leaderboard {sorter : SliceSorter} {order : MapRange}
    (now : Time) (db : DB) (team period metric : string) : list Entry :=
  getLeaderboard now db team period metric 0.

(** The number of entries of [l] strictly better than [e] on the metric. *)
Definition better_count (metric : string) (l : list Entry) (e : Entry) : Z :=
  Z.of_nat (length (List.filter (fun x => leaderboard_less metric x e) l)).

(** The number of entries of [l] that [e] is strictly better than. *)
Definition worse_count (metric : string) (l : list Entry) (e : Entry) : Z :=
  Z.of_nat (length (List.filter (fun x => leaderboard_less metric e x) l)).

(** ** Upserts of metrics rows *)

(** A row with its creation stamp set aside. *)
Definition unstamp (m : ReviewMetrics) : ReviewMetrics := set_RM_CreatedAt zero_Time m.

(** The metrics rows of a world. *)
Definition metrics_rows (w : World) : list ReviewMetrics := db_review_metrics (w_db w).

(** One [CreateOrUpdate] as a step on the pair of the clock's next reading
    and the metrics table: a creation takes the reading, a save does not. *)
Definition upsert_step (wall : nat -> Time) (st : nat * list ReviewMetrics)
    (m : ReviewMetrics) : nat * list ReviewMetrics :=
  match First (same_key m) (snd st) with
  | None => (S (fst st), MetricsRepository_Create (wall (fst st)) m (snd st))
  | Some existing => (fst st, MetricsRepository_Save (set_RM_ID (RM_ID existing) m) (snd st))
  end.

(** The world [w] with the clock's next reading and the metrics table
    replaced. *)
Definition world_of (w : World) (st : nat * list ReviewMetrics) : World :=
  {| w_wall := w_wall w; w_tick := fst st;
     w_db := set_review_metrics (snd st) (w_db w) |}.

(** [CreateOrUpdate] seen row by row: rewrite the first row of the key in
    place, keeping its ID. *)
Fixpoint update_first (m : ReviewMetrics) (T : list ReviewMetrics)
  : option (list ReviewMetrics) :=
  match T with
  | [] => None
  | r :: T' =>
      if same_key m r then Some (set_RM_ID (RM_ID r) m :: T')
      else cons r <$> update_first m T'
  end.

(** The upsert on tables whose creation stamps are set aside: a row of a
    new key is appended under the next ID, as it is. *)
Definition upsert (m : ReviewMetrics) (T : list ReviewMetrics) : list ReviewMetrics :=
  match update_first m T with
  | Some T' => T'
  | None =>
      T ++ [set_RM_ID (if RM_ID m =? 0 then next_id (RM_ID <$> T) else RM_ID m) m]
  end.

(** A batch of upserts, in order. *)
Definition apply_ops (ops : list ReviewMetrics) (T : list ReviewMetrics) : list ReviewMetrics :=
  fold_left (fun T m => upsert m T) ops T.

(** The team-level rows of a run, in the order the team map is iterated. *)
Definition team_ops {order : MapRange} (db : DB) (date : Time) (reviews : list MRReview)
  : list ReviewMetrics :=
  (fun '(team, rs) => team_metric db date team rs) <$> map_range (group_by_team reviews).

(** The user-level rows of a run: for each review, one per assignment. *)
Definition user_ops (db : DB) (date : Time) (reviews : list MRReview) : list ReviewMetrics :=
  concat ((fun review => user_metric date review <$> GetAssignmentsByMRReviewID db (MR_ID review))
            <$> reviews).

(** The rows one run of [AggregateDaily] hands to [CreateOrUpdate], in
    order: the team-level rows, then the user-level rows. *)
Definition daily_team_ops {order : MapRange} (db : DB) (date : Time) (loc : Z)
  : list ReviewMetrics :=
  let sod := startOfDay date loc in
  team_ops db sod (GetCompletedReviewsByDateRange db sod (Add sod (24 * Hour))).

Definition daily_user_ops (db : DB) (date : Time) (loc : Z) : list ReviewMetrics :=
  let sod := startOfDay date loc in
  user_ops db sod (GetCompletedReviewsByDateRange db sod (Add sod (24 * Hour))).

Definition daily_ops {order : MapRange} (db : DB) (date : Time) (loc : Z)
  : list ReviewMetrics :=
  daily_team_ops db date loc ++ daily_user_ops db date loc.

(** A batch of [CreateOrUpdate] calls against the clock, in order. *)
Definition run_ops (wall : nat -> Time) (ops : list ReviewMetrics)
    (st : nat * list ReviewMetrics) : nat * list ReviewMetrics :=
  fold_left (upsert_step wall) ops st.

(** The [created_at] of the row stored under the key of [m]: the row
    [CreateOrUpdate] finds for it. *)
Definition stored_stamp (m : ReviewMetrics) (T : list ReviewMetrics) : option Time :=
  RM_CreatedAt <$> First (same_key m) T.

(** ** Stores and worlds of the seed scenarios *)

(** The seed scenario "badge award and no re-award": badge speed_demon with
    criteria avg_ttfr < 120, and alice with one metrics row of avg_ttfr 60. *)
Definition alice : User := mkUser 1 101 "alice" "dev" "frontend".

Definition bob : User := mkUser 2 102 "bob" "dev" "frontend".

Definition ooo_window : OOOStatus :=
  {| OOO_ID := 1; OOO_UserID := 7;
     OOO_StartDate := Date 2025 1 15 0 0 0 0 UTC;
     OOO_EndDate := Date 2025 1 20 0 0 0 0 UTC;
     OOO_Reason := "vacation" |}.

Definition ooo_db : DB := mkDB [] [ooo_window] [] [] [] [] [].

Definition speed_demon : Badge :=
  mkBadge 1 "speed_demon" (Some (mkBadgeCriteria "avg_ttfr" "<" (JNumber 120) "")).

Definition alice_row : ReviewMetrics :=
  {| RM_ID := 1; RM_Date := Date 2025 1 10 0 0 0 0 UTC; RM_Team := "frontend";
     RM_UserID := Some 1; RM_ProjectID := Some 100;
     RM_TotalReviews := 1; RM_CompletedReviews := 1;
     RM_AvgTTFR := Some 60; RM_AvgTimeToApproval := None;
     RM_AvgCommentCount := Some 5%float; RM_AvgCommentLength := Some 500%float;
     RM_EngagementScore := Some 55%float;
     RM_CreatedAt := Date 2025 1 11 2 0 0 0 UTC |}.

Definition badge_world : World :=
  {| w_wall := fun n => Date 2025 1 15 12 0 0 0 UTC + Z.of_nat n * Second;
     w_tick := 0;
     w_db := mkDB [alice] [] [] [] [alice_row] [speed_demon] [] |}.

Definition rank_row (id userID day ttfr : Z) (engagement : float) : ReviewMetrics :=
  {| RM_ID := id; RM_Date := Date 2025 1 day 0 0 0 0 UTC; RM_Team := "frontend";
     RM_UserID := Some userID; RM_ProjectID := Some 100;
     RM_TotalReviews := 1; RM_CompletedReviews := 1;
     RM_AvgTTFR := Some ttfr; RM_AvgTimeToApproval := None;
     RM_AvgCommentCount := Some 1%float; RM_AvgCommentLength := Some 0%float;
     RM_EngagementScore := Some engagement;
     RM_CreatedAt := Date 2025 1 (day + 1) 2 0 0 0 UTC |}.

(** alice: two rows, avg_ttfr 30 and 30, engagement 10 and 10.
    bob: one row, avg_ttfr 120, engagement 15. *)
Definition ranking_world : World :=
  {| w_wall := fun n => Date 2025 1 15 12 0 0 0 UTC + Z.of_nat n * Second;
     w_tick := 0;
     w_db := mkDB [alice; bob] [] [] []
                  [rank_row 1 1 10 30 10; rank_row 2 1 11 30 10; rank_row 3 2 10 120 15]
                  [] [] |}.

Definition top1 (metric : string) : Badge :=
  mkBadge 1 "top1" (Some (mkBadgeCriteria metric "top" (JNumber 1) "all_time")).

Definition three_users_world : World :=
  {| w_wall := fun n => Date 2025 1 15 12 0 0 0 UTC + Z.of_nat n * Second;
     w_tick := 0;
     w_db := mkDB [alice; bob; mkUser 3 103 "charlie" "ops" "platform"] [] [] []
                  [rank_row 1 1 10 120 10; rank_row 2 2 10 60 10; rank_row 3 3 10 90 10]
                  [] [] |}.

(** alice and bob tie on completed_reviews (one each). *)
Definition tie_world : World :=
  {| w_wall := fun n => Date 2025 1 15 12 0 0 0 UTC + Z.of_nat n * Second;
     w_tick := 0;
     w_db := mkDB [alice; bob] [] [] []
                  [rank_row 1 1 10 60 10; rank_row 2 2 10 90 10] [] [] |}.

Definition scenario_review : MRReview :=
  {| MR_ID := 1; MR_GitLabMRIID := 1; MR_GitLabProjectID := 100; MR_Team := "frontend";
     MR_RouletteTriggeredAt := Some (Date 2025 1 15 10 0 0 0 UTC);
     MR_FirstReviewAt := Some (Date 2025 1 15 11 0 0 0 UTC);
     MR_ApprovedAt := Some (Date 2025 1 15 11 30 0 0 UTC);
     MR_MergedAt := Some (Date 2025 1 15 12 0 0 0 UTC);
     MR_ClosedAt := None;
     MR_Status := MRStatusMerged |}.

Definition scenario_assignment (id userID : Z) (role : string) (count len : Z)
  : ReviewerAssignment :=
  {| RA_ID := id; RA_MRReviewID := 1; RA_UserID := userID; RA_Role := role;
     RA_AssignedAt := Date 2025 1 15 10 0 0 0 UTC;
     RA_FirstCommentAt := Some (Date 2025 1 15 10 30 0 0 UTC);
     RA_ApprovedAt := Some (Date 2025 1 15 11 0 0 0 UTC);
     RA_CommentCount := count; RA_CommentLength := len |}.

(** One merged review on 2025-01-15 with two assignments: comment counts 5
    and 3, comment lengths 500 and 300. *)
Definition scenario_db : DB :=
  mkDB [alice; bob] [] [scenario_review]
       [scenario_assignment 1 1 "codeowner" 5 500; scenario_assignment 2 2 "team_member" 3 300]
       [] [] [].

(** The scenario store under a clock that reads 2025-01-16 02:00:00 UTC
    first and one second more at every later reading. *)
Definition scenario_world : World :=
  {| w_wall := fun n => Date 2025 1 16 2 0 0 0 UTC + Z.of_nat n * Second;
     w_tick := 0;
     w_db := scenario_db |}.

(** ** Leaderboards and user statistics *)

(** Newest first. *)
Definition date_desc (l : list ReviewMetrics) : Prop :=
  forall (i j : nat) x y, l !! i = Some x -> l !! j = Some y -> (i < j)%nat ->
    RM_Date y <= RM_Date x.

Definition rows_of_user (uid : Z) (metrics : list ReviewMetrics) : list ReviewMetrics :=
  List.filter (fun m => bool_decide (RM_UserID m = Some uid)) metrics.

(** The entry [getLeaderboard] builds for one aggregated user. *)
Definition entry_of (db : DB) (userID : Z) (aggMetrics : aggregatedMetrics) (user : User)
  : Entry :=
  {| E_UserID := userID;
     E_Username := User_Username user;
     E_Team := User_Team user;
     E_CompletedReviews := A_CompletedReviews aggMetrics;
     E_AvgTTFR := A_AvgTTFR aggMetrics;
     E_AvgCommentCount := A_AvgCommentCount aggMetrics;
     E_EngagementScore := A_EngagementScore aggMetrics;
     E_BadgeCount := GetUserBadgeCount db userID;
     E_Rank := 0 |}.

(** The metrics rows a leaderboard is computed from. *)
Definition leaderboard_rows (now : Time) (db : DB) (team period : string) : list ReviewMetrics :=
  GetByDateRange db (fst (leaderboard_period.calculatePeriodRange now period))
                 (snd (leaderboard_period.calculatePeriodRange now period))
                 (if negb (String.eqb team "") then mkFilters (Some team) None None
                  else no_filters).

(** Who is on a leaderboard. *)
Definition on_leaderboard (now : Time) (db : DB) (team period : string) (uid : Z) : Prop :=
  is_Some (UserRepository_GetByID db uid)
  /\ exists m, m ∈ db_review_metrics db
       /\ RM_UserID m = Some uid
       /\ fst (leaderboard_period.calculatePeriodRange now period) <= RM_Date m
          <= snd (leaderboard_period.calculatePeriodRange now period)
       /\ (team = "" \/ RM_Team m = team).

(** The world after one reading of the clock. *)
Definition tick (w : World) : World :=
  {| w_wall := w_wall w; w_tick := S (w_tick w); w_db := w_db w |}.

(** The [k]-th reading of the clock from [w] on. *)
Definition reading (w : World) (k : nat) : Time := w_wall w (w_tick w + k)%nat.

(** The rows [GetUserStats] aggregates: the user's rows in the window that
    ends at the first reading of the clock. *)
Definition stats_rows (w : World) (uid : Z) (period : string) : list ReviewMetrics :=
  GetMetricsByUser (w_db w) uid
    (fst (leaderboard_period.calculatePeriodRange (reading w 0) period))
    (snd (leaderboard_period.calculatePeriodRange (reading w 0) period)).


(** bob's entry on the avg_ttfr leaderboard of [three_users_world]. *)
Definition bob_entry : Entry :=
  {| E_UserID := 2; E_Username := "bob"; E_Team := "frontend";
     E_CompletedReviews := 1; E_AvgTTFR := 60; E_AvgCommentCount := 1;
     E_EngagementScore := 10; E_BadgeCount := 0; E_Rank := 1 |}.

(* ===================================================================== *)
(** * Properties                                                          *)
(* ===================================================================== *)

(** ** The contracts of [sort.Slice] and of map iteration are realisable *)

Section InsertionSort.
Context {A : Type} (less : A -> A -> bool).

(** The placed prefix, read last element first: nothing in it is less than
    an element placed before it. *)
Fixpoint placed (l : list A) : Prop :=
  match l with
  | [] => True
  | y :: rest => Forall (fun z => less y z = false) rest /\ placed rest
  end.

Lemma strict_weak_on_incl (l l' : list A) :
  (forall x, x ∈ l' -> x ∈ l) -> strict_weak_on less l -> strict_weak_on less l'.
Proof.
  intros Hin (Hirr & Htr & Hneg). split; [|split].
  - intros x Hx. apply Hirr, Hin, Hx.
  - intros x y z Hx Hy Hz. apply Htr; apply Hin; assumption.
  - intros x y z Hx Hy Hz. apply Hneg; apply Hin; assumption.
Qed.

Lemma insertion_step_perm (x : A) (l : list A) : insertion_step less x l ≡ₚ x :: l.
Proof.
  induction l as [|y l IH]; simpl; [reflexivity|].
  destruct (less x y); [|reflexivity].
  rewrite IH. apply Permutation_swap.
Qed.

Lemma insertion_fold_perm (l acc : list A) :
  fold_left (fun sorted x => insertion_step less x sorted) l acc ≡ₚ acc ++ l.
Proof.
  revert acc. induction l as [|x l IH]; intros acc; simpl.
  - rewrite app_nil_r. reflexivity.
  - rewrite IH, insertion_step_perm. simpl. apply Permutation_middle.
Qed.

Lemma insertionSortLessFunc_perm (l : list A) : insertionSortLessFunc less l ≡ₚ l.
Proof.
  unfold insertionSortLessFunc. rewrite reverse_Permutation.
  apply insertion_fold_perm.
Qed.

Lemma insertion_step_placed (x : A) (l : list A) :
  strict_weak_on less (x :: l) -> placed l -> placed (insertion_step less x l).
Proof.
  intros Hswo. induction l as [|y l IH]; simpl.
  - intros _. split; [constructor|exact I].
  - intros [Hy Hl]. destruct (less x y) eqn:Hxy; simpl.
    + split.
      * rewrite insertion_step_perm. constructor; [|exact Hy].
        destruct Hswo as (Hirr & Htr & _).
        destruct (less y x) eqn:Hyx; [|reflexivity].
        assert (less x x = true) as Hxx.
        { apply (Htr x y x); [left|right; left|left|assumption|assumption]. }
        rewrite Hirr in Hxx by left. discriminate.
      * apply IH; [|exact Hl].
        eapply strict_weak_on_incl; [|exact Hswo].
        intros z Hz. apply elem_of_cons in Hz as [->|Hz]; [left|right; right; exact Hz].
    + split; [|split; assumption].
      constructor; [exact Hxy|].
      rewrite Forall_forall in Hy |- *. intros z Hz.
      destruct Hswo as (_ & _ & Hneg).
      apply (Hneg x y z); [left|right; left|right; right; exact Hz|exact Hxy|apply Hy, Hz].
Qed.

Lemma insertion_fold_placed (l acc : list A) :
  strict_weak_on less (acc ++ l) -> placed acc ->
  placed (fold_left (fun sorted x => insertion_step less x sorted) l acc).
Proof.
  revert acc. induction l as [|x l IH]; intros acc Hswo Hacc; simpl; [exact Hacc|].
  apply IH.
  - eapply strict_weak_on_incl; [|exact Hswo].
    intros z. rewrite !elem_of_app, insertion_step_perm, !elem_of_cons. tauto.
  - apply insertion_step_placed; [|exact Hacc].
    eapply strict_weak_on_incl; [|exact Hswo].
    intros z. rewrite elem_of_app, !elem_of_cons. tauto.
Qed.

Lemma sorted_by_snoc (l : list A) (y : A) :
  sorted_by less l -> Forall (fun z => less y z = false) l -> sorted_by less (l ++ [y]).
Proof.
  intros Hl Hy i j a b Hi Hj Hij.
  assert (j < length (l ++ [y]))%nat as Hjlen by (eapply lookup_lt_Some; eauto).
  rewrite length_app in Hjlen. simpl in Hjlen.
  rewrite lookup_app_l in Hi by lia.
  destruct (decide (j < length l)%nat) as [Hjl|Hjl].
  - rewrite lookup_app_l in Hj by lia. eapply Hl; eauto.
  - rewrite lookup_app_r in Hj by lia.
    replace (j - length l)%nat with 0%nat in Hj by lia. simpl in Hj.
    injection Hj as <-. rewrite Forall_forall in Hy. apply Hy.
    eapply list_elem_of_lookup_2; eauto.
Qed.

Lemma placed_reverse_sorted (l : list A) : placed l -> sorted_by less (reverse l).
Proof.
  induction l as [|y l IH]; simpl.
  - intros _ i j a b Hi. cbv in Hi. discriminate.
  - intros [Hy Hl]. rewrite reverse_cons. apply sorted_by_snoc; [apply IH, Hl|].
    rewrite Forall_forall in Hy |- *. intros z Hz. apply Hy.
    rewrite elem_of_reverse in Hz. exact Hz.
Qed.

Lemma insertionSortLessFunc_sorted (l : list A) :
  strict_weak_on less l -> sorted_by less (insertionSortLessFunc less l).
Proof.
  intros Hswo. unfold insertionSortLessFunc.
  apply placed_reverse_sorted, insertion_fold_placed; [exact Hswo|exact I].
Qed.

End InsertionSort.

(** [sort.Slice] as it runs on short slices. *)
Definition insertion_sorter : SliceSorter :=
  {| sort_Slice := @insertionSortLessFunc;
     sort_Slice_perm := @insertionSortLessFunc_perm;
     sort_Slice_sorted := @insertionSortLessFunc_sorted |}.

(** One admissible iteration order: the canonical enumeration of the map. *)
Definition canonical_range : MapRange :=
  {| map_range := fun K _ _ V (m : gmap K V) => map_to_list m;
     map_range_perm := fun K _ _ V m => reflexivity _ |}.

(** ** Signs of binary64 results *)

Lemma binary_round_aux_sign (s : bool) (m e : Z) (l : location) :
  SF_sign_is s (binary_round_aux prec emax s m e l).
Proof.
  unfold binary_round_aux.
  destruct (shr_fexp prec emax m e l) as [mrs' e'].
  destruct (shr_fexp prec emax _ e' loc_Exact) as [mrs'' e''].
  destruct (shr_m mrs''); simpl; [reflexivity| |exact I].
  destruct (Z.leb e'' (Z.sub emax prec)); reflexivity.
Qed.

Lemma binary_round_sign (s : bool) (m : positive) (e : Z) :
  SF_sign_is s (binary_round prec emax s m e).
Proof.
  unfold binary_round. destruct (shl_align m e _) as [mz ez].
  apply binary_round_aux_sign.
Qed.

Lemma SF_sign_true_nonpos (f : spec_float) : SF_sign_is true f -> SF_nonpos f.
Proof. destruct f as [s|s| |s m e]; simpl; intros H; subst; exact I. Qed.

Lemma SFopp_sign_false_nonpos (f : spec_float) : SF_sign_is false f -> SF_nonpos (SFopp f).
Proof. destruct f as [s|s| |s m e]; simpl; intros H; subst; exact I. Qed.

Lemma of_uint63_sign (n : int) : SF_sign_is false (Prim2SF (of_uint63 n)).
Proof.
  rewrite of_uint63_spec. pose proof (to_Z_bounded n) as Hn.
  destruct (to_Z n) as [|p|p]; simpl.
  - reflexivity.
  - apply binary_round_sign.
  - lia.
Qed.

Lemma float64_of_int_nonpos (z : Z) : z <= 0 -> SF_nonpos (Prim2SF (Go.float64_of_int z)).
Proof.
  intros Hz. unfold Go.float64_of_int.
  destruct (Z.eqb_spec z Go.min_int) as [->|Hmin].
  - vm_compute. exact I.
  - destruct (Z.ltb_spec z 0) as [Hneg|Hpos].
    + rewrite FloatAxioms.opp_spec. apply SFopp_sign_false_nonpos, of_uint63_sign.
    + assert (z = 0) as -> by lia. vm_compute. exact I.
Qed.

Lemma SFdiv_nonpos (x : spec_float) (m : positive) (e : Z) :
  SF_nonpos x -> SF_nonpos (SF64div x (S754_finite false m e)).
Proof.
  destruct x as [[]|[]| |[] mx ex]; simpl; try tauto; intros _.
  unfold SF64div, SFdiv.
  destruct (SFdiv_core_binary prec emax (Z.pos mx) ex (Z.pos m) e) as [[mz ez] lz].
  apply SF_sign_true_nonpos, binary_round_aux_sign.
Qed.

Lemma SFadd_nonpos (x y : spec_float) :
  SF_nonpos x -> SF_nonpos y -> SF_nonpos (SF64add x y).
Proof.
  destruct x as [[]|[]| |[] mx ex], y as [[]|[]| |[] my ey]; simpl; try tauto; intros _ _.
  unfold SF64add, SFadd, cond_Zopp. simpl Z.opp. simpl Z.add. simpl binary_normalize.
  apply SF_sign_true_nonpos, binary_round_sign.
Qed.

Lemma trunc_mag_nonneg (m : positive) (e : Z) : 0 <= Go.trunc_mag m e.
Proof.
  unfold Go.trunc_mag. destruct (0 <=? e) eqn:He.
  - apply Z.leb_le in He. apply Z.mul_nonneg_nonneg; [lia|]. apply Z.pow_nonneg; lia.
  - apply Z.leb_gt in He. apply Z.div_pos; [lia|]. apply Z.pow_pos_nonneg; lia.
Qed.

Lemma int_of_float64_nonpos (f : float) :
  SF_nonpos (Prim2SF f) -> Go.int_of_float64 f <= 0.
Proof.
  unfold Go.int_of_float64. destruct (Prim2SF f) as [s|[]| |[] m e]; simpl; try tauto; intros _.
  - lia.
  - unfold Go.min_int. lia.
  - unfold Go.min_int. lia.
  - pose proof (trunc_mag_nonneg m e).
    destruct (_ && _); [lia|]. unfold Go.min_int. lia.
Qed.

(** A non-positive duration has a non-positive number of whole seconds. *)
Lemma Seconds_nonpos (d : Duration) : d <= 0 -> Go.int_of_float64 (Seconds d) <= 0.
Proof.
  intros Hd. apply int_of_float64_nonpos. unfold Seconds.
  rewrite FloatAxioms.add_spec. apply SFadd_nonpos.
  - apply float64_of_int_nonpos.
    rewrite <- (Z.opp_involutive d), Z.quot_opp_l by (unfold Second; lia).
    assert (0 <= Z.quot (- d) Second); [|lia].
    apply Z.quot_pos; unfold Second; lia.
  - rewrite FloatAxioms.div_spec.
    replace (Prim2SF 1e9) with (S754_finite false 8388608000000000 (-23)) by (vm_compute; reflexivity).
    apply SFdiv_nonpos, float64_of_int_nonpos.
    rewrite <- (Z.opp_involutive d), Z.rem_opp_l by (unfold Second; lia).
    assert (0 <= Z.rem (- d) Second); [|lia].
    apply Z.rem_nonneg; unfold Second; lia.
Qed.

(** ** Metric calculators *)

Lemma Sub_negative (t u : Time) : t < u -> Sub t u < 0.
Proof.
  intros H. unfold Sub, minDuration, maxDuration, Go.min_int, Go.max_int.
  destruct (t - u <? - 2 ^ 63) eqn:E1; [lia|].
  destruct (2 ^ 63 - 1 <? t - u) eqn:E2; lia.
Qed.

Lemma clamped_seconds_spec (d : Duration) :
  let seconds := Go.int_of_float64 (Seconds d) in
  0 <= (if seconds <? 0 then 0 else seconds)
  /\ (d < 0 -> (if seconds <? 0 then 0 else seconds) = 0).
Proof.
  intros seconds. split.
  - destruct (Z.ltb_spec seconds 0); lia.
  - intros Hd. pose proof (Seconds_nonpos d ltac:(lia)) as Hs. fold seconds in Hs.
    destruct (Z.ltb_spec seconds 0); lia.
Qed.

(** C8. [CalculateTTFR] and [CalculateTimeToApproval] return nil exactly
    when the end timestamp (first review, approval) is missing; otherwise
    they return a non-negative number of seconds, and a negative difference
    (clock skew: the end lies before the trigger) gives zero.  Both are
    functions of their two arguments that return the number only: they
    write to no timestamp. *)
Theorem C8_calculators_nil_or_clamped (triggeredAt : Time) (endAt : option Time) :
  let holds (calc : Time -> option Time -> option Z) :=
    (calc triggeredAt endAt = None <-> endAt = None)
    /\ (forall s, calc triggeredAt endAt = Some s -> 0 <= s)
    /\ (forall t, endAt = Some t -> t < triggeredAt -> calc triggeredAt endAt = Some 0) in
  holds CalculateTTFR /\ holds CalculateTimeToApproval.
Proof.
  assert (forall t, let seconds := Go.int_of_float64 (Seconds (Sub t triggeredAt)) in
            0 <= (if seconds <? 0 then 0 else seconds)
            /\ (t < triggeredAt -> (if seconds <? 0 then 0 else seconds) = 0)) as Hclamp.
  { intros t seconds. destruct (clamped_seconds_spec (Sub t triggeredAt)) as [H0 Hneg].
    split; [exact H0|]. intros Hlt. apply Hneg, Sub_negative, Hlt. }
  cbv zeta. split.
  - unfold CalculateTTFR. destruct endAt as [t|]; cbv zeta.
    + destruct (Hclamp t) as [H0 Hneg]. split; [split; discriminate|]. split.
      * intros s [= <-]. exact H0.
      * intros t' [= <-] Hlt. f_equal. apply Hneg, Hlt.
    + split; [split; reflexivity|]. split; intros; discriminate.
  - unfold CalculateTimeToApproval. destruct endAt as [t|]; cbv zeta.
    + destruct (Hclamp t) as [H0 Hneg]. split; [split; discriminate|]. split.
      * intros s [= <-]. exact H0.
      * intros t' [= <-] Hlt. f_equal. apply Hneg, Hlt.
    + split; [split; reflexivity|]. split; intros; discriminate.
Qed.

Example CalculateTTFR_one_hour :
  CalculateTTFR (Date 2025 1 15 10 0 0 0 UTC) (Some (Date 2025 1 15 11 0 0 0 UTC)) = Some 3600.
Proof. vm_compute. reflexivity. Qed.

Example CalculateTTFR_clock_skew :
  CalculateTTFR (Date 2025 1 15 10 0 0 0 UTC) (Some (Date 2025 1 15 9 59 58 0 UTC)) = Some 0.
Proof. vm_compute. reflexivity. Qed.

Example CalculateTimeToApproval_pending :
  CalculateTimeToApproval (Date 2025 1 15 10 0 0 0 UTC) None = None.
Proof. reflexivity. Qed.

(** ** Period windows *)

Lemma year2000_unix : year2000 = 946684800 * Second.
Proof. reflexivity. Qed.

(** C10. [calculatePeriodRange], in the badge evaluator and in the
    leaderboard service alike, is a total function that returns a pair of
    instants and no error.  The window always ends at [now]; it starts 24
    hours, 7, 30 or 365 days earlier for day, week, month and year; for
    every other string (all_time, the empty string, anything unrecognised)
    it starts on 2000-01-01T00:00:00Z. *)
Theorem C10_calculatePeriodRange_total (now : Time) (period : string) :
  let holds (range : Time -> string -> Time * Time) :=
    snd (range now period) = now
    /\ (period = "day" -> fst (range now period) = now - 24 * Hour)
    /\ (period = "week" -> fst (range now period) = now - 7 * (24 * Hour))
    /\ (period = "month" -> fst (range now period) = now - 30 * (24 * Hour))
    /\ (period = "year" -> fst (range now period) = now - 365 * (24 * Hour))
    /\ (period <> "day" -> period <> "week" -> period <> "month" -> period <> "year" ->
        fst (range now period) = Date 2000 1 1 0 0 0 0 UTC) in
  holds badges_period.calculatePeriodRange /\ holds leaderboard_period.calculatePeriodRange.
Proof.
  cbv zeta. split.
  - unfold badges_period.calculatePeriodRange. simpl fst. simpl snd.
    split; [reflexivity|].
    repeat split; try (intros ->; reflexivity).
    intros Hd Hw Hm Hy.
    destruct (String.eqb_spec period "day"); [contradiction|].
    destruct (String.eqb_spec period "week"); [contradiction|].
    destruct (String.eqb_spec period "month"); [contradiction|].
    destruct (String.eqb_spec period "year"); [contradiction|].
    destruct (_ || _); reflexivity.
  - unfold leaderboard_period.calculatePeriodRange. simpl fst. simpl snd.
    split; [reflexivity|].
    repeat split; try (intros ->; reflexivity).
    intros Hd Hw Hm Hy.
    destruct (String.eqb_spec period "day"); [contradiction|].
    destruct (String.eqb_spec period "week"); [contradiction|].
    destruct (String.eqb_spec period "month"); [contradiction|].
    destruct (String.eqb_spec period "year"); [contradiction|].
    destruct (_ || _); reflexivity.
Qed.

Example calculatePeriodRange_unrecognised :
  badges_period.calculatePeriodRange (Date 2025 1 15 12 0 0 0 UTC) "fortnight"
  = (946684800 * Second, Date 2025 1 15 12 0 0 0 UTC).
Proof. reflexivity. Qed.

(** ** Out-of-office windows *)

(** [IsUserOOO] includes both endpoints of a window. *)
Lemma IsUserOOO_inclusive (now : Time) (db : DB) (userID : Z) :
  IsUserOOO now db userID = true
  <-> exists o, o ∈ db_ooo_status db /\ OOO_UserID o = userID
                /\ OOO_StartDate o <= now <= OOO_EndDate o.
Proof.
  unfold IsUserOOO, Count.
  set (p := fun o => (OOO_UserID o =? userID) && (OOO_StartDate o <=? now) && (OOO_EndDate o >=? now)).
  assert (forall o, p o = true <-> OOO_UserID o = userID /\ OOO_StartDate o <= now <= OOO_EndDate o) as Hp.
  { intros o. unfold p. rewrite !andb_true_iff, Z.eqb_eq, Z.leb_le, Z.geb_le. tauto. }
  split.
  - intros H. destruct (List.filter p (db_ooo_status db)) as [|o l] eqn:E; [discriminate|].
    assert (List.In o (List.filter p (db_ooo_status db))) as Hin by (rewrite E; left; reflexivity).
    apply filter_In in Hin as [Hin Hpo]. exists o. split; [apply list_elem_of_In, Hin|].
    apply Hp, Hpo.
  - intros (o & Hin & Ho). apply list_elem_of_In in Hin.
    assert (List.In o (List.filter p (db_ooo_status db))) as Hf.
    { apply filter_In. split; [exact Hin|]. apply Hp, Ho. }
    destruct (List.filter p (db_ooo_status db)); [destruct Hf|]. reflexivity.
Qed.

(** [OOOStatus.IsActive] excludes both endpoints of its window. *)
Lemma IsActive_exclusive (now : Time) (o : OOOStatus) :
  IsActive now o = true <-> OOO_StartDate o < now < OOO_EndDate o.
Proof.
  unfold IsActive, After, Before. rewrite andb_true_iff, !Z.ltb_lt. tauto.
Qed.

(** C7 (the code departs from the claim).  At the first and at the last
    instant of a window the repository query [IsUserOOO] reports the user
    out of office, as the inclusive rule asks, while the model predicate
    [OOOStatus.IsActive] reports the window inactive: it compares with
    strict [After]/[Before]. *)
Theorem C7_IsActive_misses_endpoints :
  IsUserOOO (OOO_StartDate ooo_window) ooo_db 7 = true
  /\ IsActive (OOO_StartDate ooo_window) ooo_window = false
  /\ IsUserOOO (OOO_EndDate ooo_window) ooo_db 7 = true
  /\ IsActive (OOO_EndDate ooo_window) ooo_window = false
  /\ forall o : OOOStatus,
       IsActive (OOO_StartDate o) o = false /\ IsActive (OOO_EndDate o) o = false.
Proof.
  repeat split; try reflexivity.
  - unfold IsActive, After. rewrite Z.ltb_irrefl. reflexivity.
  - unfold IsActive, Before. rewrite Z.ltb_irrefl. apply andb_false_r.
Qed.

(** ** Badges are awarded at most once *)

Lemma readonly_ret {A} (a : A) : readonly (ret a).
Proof. intros w. reflexivity. Qed.

Lemma readonly_query {A} (f : DB -> A) : readonly (query f).
Proof. intros w. reflexivity. Qed.

Lemma readonly_time_Now : readonly time_Now.
Proof. intros w. reflexivity. Qed.

Lemma readonly_bind {A B} (m : M A) (k : A -> M B) :
  readonly m -> (forall a, readonly (k a)) -> readonly (bind m k).
Proof.
  intros Hm Hk w. unfold bind. specialize (Hm w).
  destruct (m w) as [a w']. simpl in Hm. rewrite Hk. exact Hm.
Qed.





Section BadgeInvariant.
Context {sorter : SliceSorter} {order : MapRange}.

Lemma evaluateTopRanking_readonly metric topN period userID :
  readonly (evaluateTopRanking metric topN period userID).
Proof.
  unfold evaluateTopRanking. apply readonly_bind; [apply readonly_time_Now|]. intros now.
  destruct (badges_period.calculatePeriodRange now period) as [startDate endDate].
  apply readonly_bind; [apply readonly_query|]. intros allMetrics.
  destruct (badges_aggregateMetricsByUser allMetrics metric); apply readonly_ret.
Qed.

Lemma checkCriteria_readonly criteria userID : readonly (checkCriteria criteria userID).
Proof.
  unfold checkCriteria. apply readonly_bind; [apply readonly_time_Now|]. intros now.
  destruct (badges_period.calculatePeriodRange now _) as [startDate endDate].
  apply readonly_bind; [apply readonly_query|]. intros userMetrics.
  destruct (userMetrics !! BC_Metric criteria); [|apply readonly_ret].
  destruct (String.eqb _ "top"), (BC_Value criteria);
    auto using readonly_ret, evaluateTopRanking_readonly.
Qed.

Lemma EvaluateBadge_readonly badge userID : readonly (EvaluateBadge badge userID).
Proof.
  unfold EvaluateBadge.
  destruct (Badge_Criteria badge); auto using readonly_ret, checkCriteria_readonly.
Qed.

Lemma pair_count_nonneg db userID badgeID : 0 <= pair_count db userID badgeID.
Proof. unfold pair_count, Count. lia. Qed.

Lemma HasUserEarnedBadge_pair_count db userID badgeID :
  HasUserEarnedBadge db userID badgeID = false <-> pair_count db userID badgeID = 0.
Proof.
  unfold HasUserEarnedBadge. fold (pair_count db userID badgeID).
  pose proof (pair_count_nonneg db userID badgeID).
  destruct (Z.gtb_spec (pair_count db userID badgeID) 0); split; intros; (discriminate || lia || reflexivity).
Qed.









End BadgeInvariant.


Example EvaluateAllBadges_awards_once :
  fst (EvaluateAllBadges (sorter := insertion_sorter) (order := canonical_range) badge_world) = Ok 1
  /\ fst (EvaluateAllBadges (sorter := insertion_sorter) (order := canonical_range)
            (evaluate_n_times (sorter := insertion_sorter) (order := canonical_range) 1 badge_world)) = Ok 0
  /\ db_user_badges (w_db (evaluate_n_times (sorter := insertion_sorter) (order := canonical_range) 2 badge_world))
     = [ mkUserBadge 1 1 1 (Date 2025 1 15 12 0 2 0 UTC) ].
Proof. vm_compute. repeat split; reflexivity. Qed.


(** ** The external_reviews placeholder *)

Lemma userTotals_completed (rows : list ReviewMetrics) (t : userTotals) :
  totalCompletedReviews (fold_left userTotals_add rows t)
  = fold_left (fun total m => Go.int_add total (RM_CompletedReviews m)) rows
              (totalCompletedReviews t).
Proof.
  revert t. induction rows as [|m rows IH]; intros t; simpl; [reflexivity|].
  rewrite IH. reflexivity.
Qed.

Lemma external_reviews_lookup (db : DB) (userID : Z) (startDate endDate : Time) :
  let metrics := badges_aggregateUserMetrics db userID startDate endDate in
  let rows := GetMetricsByUser db userID startDate endDate in
  metrics !! "external_reviews" = metrics !! "completed_reviews"
  /\ metrics !! "external_reviews"
     = if (length rows =? 0)%nat then None
       else Some (Go.float64_of_int (summed_completed_reviews rows)).
Proof.
  cbv zeta. unfold badges_aggregateUserMetrics.
  destruct (length (GetMetricsByUser db userID startDate endDate) =? 0)%nat; [split; reflexivity|].
  cbv zeta. rewrite lookup_insert_eq, lookup_insert_ne by discriminate.
  rewrite lookup_insert_eq. split; [reflexivity|].
  unfold summed_completed_reviews. rewrite userTotals_completed. reflexivity.
Qed.

(** C9 (amended).  [aggregateUserMetrics] of the badge evaluator reports
    [external_reviews] as exactly the user's summed [completed_reviews]
    over the window (both absent when the user has no row there), so a
    criterion on [external_reviews] whose operator is not "top" is decided
    exactly as the same criterion on [completed_reviews]: same verdict or
    same error, same clock readings. *)
Theorem C9_external_reviews_is_completed_reviews {sorter : SliceSorter} {order : MapRange}
    (w : World) (userID : Z) (startDate endDate : Time)
    (operator period : string) (value : JSONValue) :
  let metrics := badges_aggregateUserMetrics (w_db w) userID startDate endDate in
  let rows := GetMetricsByUser (w_db w) userID startDate endDate in
  metrics !! "external_reviews" = metrics !! "completed_reviews"
  /\ metrics !! "external_reviews"
     = (if (length rows =? 0)%nat then None
        else Some (Go.float64_of_int (summed_completed_reviews rows)))
  /\ (operator <> "top" ->
      checkCriteria (mkBadgeCriteria "external_reviews" operator value period) userID w
      = checkCriteria (mkBadgeCriteria "completed_reviews" operator value period) userID w).
Proof.
  cbv zeta.
  destruct (external_reviews_lookup (w_db w) userID startDate endDate) as [Heq Hval].
  split; [exact Heq|]. split; [exact Hval|].
  intros Hop. unfold checkCriteria, bind, time_Now, query. simpl.
  match goal with
  | |- context [badges_aggregateUserMetrics ?d ?u ?s ?e !! "external_reviews"] =>
      destruct (external_reviews_lookup d u s e) as [-> _]
  end.
  destruct (String.eqb_spec operator "top"); [contradiction|]. reflexivity.
Qed.

(** With the operator "top" the two criteria part ways: the ranking
    supports [completed_reviews] and rejects [external_reviews]. *)
Example top_external_reviews_rejected :
  fst (checkCriteria (sorter := insertion_sorter) (order := canonical_range)
         (mkBadgeCriteria "completed_reviews" "top" (JNumber 1) "all_time") 1 badge_world)
  = Ok true
  /\ fst (checkCriteria (sorter := insertion_sorter) (order := canonical_range)
            (mkBadgeCriteria "external_reviews" "top" (JNumber 1) "all_time") 1 badge_world)
     = Err "top ranking not supported for metric".
Proof. vm_compute. split; reflexivity. Qed.

(** "Any criterion on external_reviews is satisfied iff the same criterion
    on completed_reviews is" fails for the operator "top". *)
Lemma C9_top_counterexample :
  ~ (forall (sorter : SliceSorter) (order : MapRange) (w : World) (userID : Z)
            (operator period : string) (value : JSONValue),
       fst (checkCriteria (mkBadgeCriteria "external_reviews" operator value period) userID w)
       = Ok true
       <-> fst (checkCriteria (mkBadgeCriteria "completed_reviews" operator value period)
                  userID w)
           = Ok true).
Proof.
  intros Hclaim.
  specialize (Hclaim insertion_sorter canonical_range badge_world 1
                "top" "all_time" (JNumber 1)).
  destruct top_external_reviews_rejected as [Hcompleted Hexternal].
  apply Hclaim in Hcompleted. rewrite Hexternal in Hcompleted. discriminate.
Qed.

(** ** Top-N criteria against the leaderboard ranking *)

(** C4 (the code departs from the claim).  On [ranking_world] the
    leaderboard of section 4.G ranks alice first on avg_ttfr (mean 30
    against 120, ascending) and bob first on engagement_score (mean 15
    against 10).  The evaluator's top-1 criterion answers the opposite both
    times: it sums each metric per user and always ranks in descending
    order, so bob (sum 120) is its top on avg_ttfr and alice (sum 20) its
    top on engagement_score. *)
Theorem C4_top_ranking_departs_from_leaderboard :
  let rank := GetUserRank (sorter := insertion_sorter) (order := canonical_range)
                (w_wall ranking_world 0) (w_db ranking_world) in
  let evaluate := fun metric userID =>
    fst (EvaluateBadge (sorter := insertion_sorter) (order := canonical_range)
           (top1 metric) userID ranking_world) in
  rank 1 "all_time" "avg_ttfr" = Some 1
  /\ rank 2 "all_time" "avg_ttfr" = Some 2
  /\ evaluate "avg_ttfr" 1 = Ok false
  /\ evaluate "avg_ttfr" 2 = Ok true
  /\ rank 2 "all_time" "engagement_score" = Some 1
  /\ rank 1 "all_time" "engagement_score" = Some 2
  /\ evaluate "engagement_score" 2 = Ok false
  /\ evaluate "engagement_score" 1 = Ok true.
Proof. vm_compute. repeat split; reflexivity. Qed.

(** ** The order of binary64 numbers *)

Lemma SFltb_lex (f1 f2 : spec_float) :
  SF_is_nan f1 = false -> SF_is_nan f2 = false ->
  (SFltb f1 f2 = true <-> lex_lt (SF_key f1) (SF_key f2)).
Proof.
  unfold SFltb, lex_lt.
  destruct f1 as [[]|[]| |[] m1 e1], f2 as [[]|[]| |[] m2 e2]; simpl;
    intros Hn1 Hn2; try discriminate;
    repeat match goal with
    | |- context [Pos.compare_cont Eq ?a ?b] =>
        change (Pos.compare_cont Eq a b) with (Pos.compare a b);
        destruct (Pos.compare_spec a b)
    | |- context [Z.compare ?a ?b] => destruct (Z.compare_spec a b)
    end; simpl; split; intros; try discriminate; try reflexivity; lia.
Qed.

Lemma is_nan_Prim2SF (x : float) : is_nan x = SF_is_nan (Prim2SF x).
Proof.
  unfold is_nan. rewrite FloatAxioms.eqb_spec. unfold SFeqb.
  destruct (Prim2SF x) as [[]|[]| |[] m e]; simpl; try reflexivity.
  - rewrite Z.compare_refl. change (Pos.compare_cont Eq m m) with (Pos.compare m m).
    rewrite Pos.compare_refl. reflexivity.
  - rewrite Z.compare_refl. change (Pos.compare_cont Eq m m) with (Pos.compare m m).
    rewrite Pos.compare_refl. reflexivity.
Qed.

Lemma ltb_lex (x y : float) :
  is_nan x = false -> is_nan y = false ->
  ((x <? y)%float = true <-> lex_lt (float_key x) (float_key y)).
Proof.
  rewrite !is_nan_Prim2SF, FloatAxioms.ltb_spec. apply SFltb_lex.
Qed.

Lemma ltb_true_not_nan (x y : float) :
  (x <? y)%float = true -> is_nan x = false /\ is_nan y = false.
Proof.
  rewrite !is_nan_Prim2SF, FloatAxioms.ltb_spec. unfold SFltb.
  destruct (Prim2SF x), (Prim2SF y); simpl; intros; (discriminate || (split; reflexivity)).
Qed.

Lemma lex_lt_irrefl (a : Z * Z * Z) : ~ lex_lt a a.
Proof. destruct a as [[a1 a2] a3]. unfold lex_lt. lia. Qed.

Lemma lex_lt_trans (a b c : Z * Z * Z) : lex_lt a b -> lex_lt b c -> lex_lt a c.
Proof.
  destruct a as [[a1 a2] a3], b as [[b1 b2] b3], c as [[c1 c2] c3]. unfold lex_lt. lia.
Qed.

Lemma lex_lt_negtrans (a b c : Z * Z * Z) : ~ lex_lt a b -> ~ lex_lt b c -> ~ lex_lt a c.
Proof.
  destruct a as [[a1 a2] a3], b as [[b1 b2] b3], c as [[c1 c2] c3]. unfold lex_lt. lia.
Qed.

Lemma float_ltb_irrefl (x : float) : (x <? x)%float = false.
Proof.
  destruct (x <? x)%float eqn:E; [|reflexivity].
  destruct (ltb_true_not_nan _ _ E) as [Hx _].
  apply ltb_lex in E; [|assumption..]. destruct (lex_lt_irrefl _ E).
Qed.

Lemma float_ltb_trans (x y z : float) :
  (x <? y)%float = true -> (y <? z)%float = true -> (x <? z)%float = true.
Proof.
  intros Hxy Hyz.
  destruct (ltb_true_not_nan _ _ Hxy) as [Hx Hy], (ltb_true_not_nan _ _ Hyz) as [_ Hz].
  apply ltb_lex in Hxy, Hyz; try assumption.
  apply ltb_lex; try assumption. eapply lex_lt_trans; eassumption.
Qed.

Lemma float_ltb_negtrans (x y z : float) :
  is_nan y = false ->
  (x <? y)%float = false -> (y <? z)%float = false -> (x <? z)%float = false.
Proof.
  intros Hy Hxy Hyz.
  destruct (x <? z)%float eqn:Hxz; [|reflexivity].
  destruct (ltb_true_not_nan _ _ Hxz) as [Hx Hz].
  apply ltb_lex in Hxz; try assumption.
  exfalso. revert Hxz. apply (lex_lt_negtrans _ (float_key y)).
  - intros H. apply ltb_lex in H; try assumption. congruence.
  - intros H. apply ltb_lex in H; try assumption. congruence.
Qed.

(** On numbers, "not less" is "greater or equal". *)
Lemma float_not_ltb_leb (x y : float) :
  is_nan x = false -> is_nan y = false ->
  (y <? x)%float = false -> (x <=? y)%float = true.
Proof.
  rewrite !is_nan_Prim2SF, FloatAxioms.ltb_spec, FloatAxioms.leb_spec.
  unfold SFltb, SFleb.
  destruct (Prim2SF x) as [[]|[]| |[] m1 e1], (Prim2SF y) as [[]|[]| |[] m2 e2]; simpl;
    intros Hn1 Hn2; try discriminate; try reflexivity;
    repeat match goal with
    | |- context [Pos.compare_cont Eq ?a ?b] =>
        change (Pos.compare_cont Eq a b) with (Pos.compare a b);
        destruct (Pos.compare_spec a b)
    | |- context [Z.compare ?a ?b] => destruct (Z.compare_spec a b)
    end; simpl; intros; try discriminate; try reflexivity; exfalso; lia.
Qed.

(** ** Leaderboard order, ranks and truncation *)

Lemma sortLeaderboard_less {sorter : SliceSorter} (entries : list Entry) (metric : string) :
  sortLeaderboard entries metric = sort_Slice (leaderboard_less metric) entries.
Proof.
  unfold sortLeaderboard, leaderboard_less.
  repeat (destruct (String.eqb metric _); [reflexivity|]). reflexivity.
Qed.

Ltac metric_cases metric :=
  unfold leaderboard_less, metric_defined, in_order;
  destruct (String.eqb_spec metric "completed_reviews") as [->|];
  [simpl|
   destruct (String.eqb_spec metric "engagement_score") as [->|];
   [simpl|
    destruct (String.eqb_spec metric "avg_ttfr") as [->|];
    [simpl|
     destruct (String.eqb_spec metric "avg_comment_count") as [->|]; simpl]]].

Lemma int_desc_strict_weak {A} (f : A -> Z) (l : list A) :
  strict_weak_on (fun a b => f a >? f b) l.
Proof.
  split; [|split].
  - intros x _. rewrite Z.gtb_ltb. apply Z.ltb_irrefl.
  - intros x y z _ _ _. rewrite !Z.gtb_ltb, !Z.ltb_lt. lia.
  - intros x y z _ _ _. rewrite !Z.gtb_ltb, !Z.ltb_ge. lia.
Qed.

Lemma float_asc_strict_weak {A} (f : A -> float) (l : list A) :
  (forall y, y ∈ l -> is_nan (f y) = false) ->
  strict_weak_on (fun a b => (f a <? f b)%float) l.
Proof.
  intros Hd. split; [|split].
  - intros x _. apply float_ltb_irrefl.
  - intros x y z _ _ _. apply float_ltb_trans.
  - intros x y z _ Hy _. apply float_ltb_negtrans, Hd, Hy.
Qed.

Lemma float_desc_strict_weak {A} (f : A -> float) (l : list A) :
  (forall y, y ∈ l -> is_nan (f y) = false) ->
  strict_weak_on (fun a b => float_gt (f a) (f b)) l.
Proof.
  intros Hd. unfold float_gt. split; [|split].
  - intros x _. apply float_ltb_irrefl.
  - intros x y z _ _ _ Hxy Hyz. eapply float_ltb_trans; eassumption.
  - intros x y z _ Hy _ Hxy Hyz. eapply float_ltb_negtrans; [apply Hd, Hy|eassumption..].
Qed.

Lemma leaderboard_less_strict_weak (metric : string) (l : list Entry) :
  Forall (metric_defined metric) l -> strict_weak_on (leaderboard_less metric) l.
Proof.
  rewrite Forall_forall. metric_cases metric; intros Hd.
  - apply int_desc_strict_weak.
  - apply float_desc_strict_weak, Hd.
  - apply float_asc_strict_weak, Hd.
  - apply float_desc_strict_weak, Hd.
  - apply int_desc_strict_weak.
Qed.

Lemma leaderboard_less_in_order (metric : string) (x y : Entry) :
  metric_defined metric x -> metric_defined metric y ->
  leaderboard_less metric y x = false -> in_order metric x y.
Proof.
  metric_cases metric; unfold float_gt; intros Hx Hy Hless;
    try (rewrite Z.gtb_ltb, Z.ltb_ge in Hless; exact Hless);
    apply float_not_ltb_leb; assumption.
Qed.

Lemma leaderboard_less_set_Rank (metric : string) (r r' : Z) (x y : Entry) :
  leaderboard_less metric (set_Rank r x) (set_Rank r' y) = leaderboard_less metric x y.
Proof. unfold leaderboard_less. repeat destruct (String.eqb metric _); reflexivity. Qed.

Lemma metric_defined_set_Rank (metric : string) (r : Z) (x : Entry) :
  metric_defined metric (set_Rank r x) <-> metric_defined metric x.
Proof. unfold metric_defined. repeat destruct (String.eqb metric _); reflexivity. Qed.

Lemma assign_ranks_lookup (l : list Entry) (i : nat) (e : Entry) :
  assign_ranks l !! i = Some e <->
  exists e0, l !! i = Some e0 /\ e = set_Rank (Z.of_nat i + 1) e0.
Proof.
  unfold assign_ranks. rewrite list_lookup_imap.
  destruct (l !! i) as [e0|]; simpl; split.
  - intros [= <-]. eauto.
  - intros (e1 & [= <-] & ->). reflexivity.
  - discriminate.
  - intros (e1 & ? & _). discriminate.
Qed.

Lemma assign_ranks_sorted (metric : string) (l : list Entry) :
  sorted_by (leaderboard_less metric) l ->
  sorted_by (leaderboard_less metric) (assign_ranks l).
Proof.
  intros Hs i j x y Hi Hj Hij.
  apply assign_ranks_lookup in Hi as (x0 & Hi & ->).
  apply assign_ranks_lookup in Hj as (y0 & Hj & ->).
  rewrite leaderboard_less_set_Rank. eapply Hs; eauto.
Qed.

Lemma assign_ranks_defined (metric : string) (l : list Entry) :
  Forall (metric_defined metric) (assign_ranks l) <-> Forall (metric_defined metric) l.
Proof.
  rewrite !Forall_lookup. split.
  - intros Hd i e Hi.
    assert (assign_ranks l !! i = Some (set_Rank (Z.of_nat i + 1) e)) as Hr
      by (apply assign_ranks_lookup; eauto).
    apply Hd in Hr. apply metric_defined_set_Rank in Hr. exact Hr.
  - intros Hd i e Hi. apply assign_ranks_lookup in Hi as (e0 & Hi & ->).
    apply metric_defined_set_Rank. eapply Hd, Hi.
Qed.

Lemma apply_limit_take (limit : Z) (entries : list Entry) :
  apply_limit limit entries
  = if limit >? 0 then take (Z.to_nat limit) entries else entries.
Proof.
  unfold apply_limit. destruct (Z.gtb_spec limit 0); simpl; [|reflexivity].
  destruct (Z.gtb_spec (Z.of_nat (length entries)) limit); [reflexivity|].
  symmetry. apply take_ge. lia.
Qed.

Lemma apply_limit_zero (entries : list Entry) : apply_limit 0 entries = entries.
Proof. reflexivity. Qed.

Lemma apply_limit_lookup (limit : Z) (entries : list Entry) (i : nat) (e : Entry) :
  apply_limit limit entries !! i = Some e -> entries !! i = Some e.
Proof.
  rewrite apply_limit_take. destruct (limit >? 0); [|auto].
  intros H. apply lookup_take_Some in H. tauto.
Qed.

Lemma getLeaderboard_limit {sorter : SliceSorter} {order : MapRange}
    (now : Time) (db : DB) (team period metric : string) (limit : Z) :
  getLeaderboard now db team period metric limit
  = apply_limit limit (ranked_leaderboard now db team period metric).
Proof.
  unfold ranked_leaderboard, getLeaderboard.
  destruct (leaderboard_period.calculatePeriodRange now period) as [startDate endDate].
  rewrite apply_limit_zero. reflexivity.
Qed.

Lemma ranked_leaderboard_sorted {sorter : SliceSorter} {order : MapRange}
    (now : Time) (db : DB) (team period metric : string) :
  Forall (metric_defined metric) (ranked_leaderboard now db team period metric) ->
  sorted_by (leaderboard_less metric) (ranked_leaderboard now db team period metric).
Proof.
  unfold ranked_leaderboard, getLeaderboard.
  destruct (leaderboard_period.calculatePeriodRange now period) as [startDate endDate].
  rewrite apply_limit_zero. cbv zeta. rewrite sortLeaderboard_less.
  intros Hdef. apply (proj1 (assign_ranks_defined _ _)) in Hdef.
  apply assign_ranks_sorted, sort_Slice_sorted, leaderboard_less_strict_weak.
  rewrite <- (sort_Slice_perm _ (leaderboard_less metric)). exact Hdef.
Qed.

Lemma ranked_leaderboard_rank {sorter : SliceSorter} {order : MapRange}
    (now : Time) (db : DB) (team period metric : string) (i : nat) (e : Entry) :
  ranked_leaderboard now db team period metric !! i = Some e -> E_Rank e = Z.of_nat i + 1.
Proof.
  unfold ranked_leaderboard, getLeaderboard.
  destruct (leaderboard_period.calculatePeriodRange now period) as [startDate endDate].
  rewrite apply_limit_zero. cbv zeta. intros H.
  apply assign_ranks_lookup in H as (e0 & _ & ->). reflexivity.
Qed.


(** Float comparison does not order NaN, which is why [metric_defined]
    asks for numbers: neither 5 > NaN nor NaN > 3, yet 5 > 3. *)
Example float_gt_does_not_order_nan :
  float_gt 5 nan = false /\ float_gt nan 3 = false /\ float_gt 5 3 = true.
Proof. vm_compute. repeat split; reflexivity. Qed.

(** On the integer metric, and so on every unknown metric, the order needs
    no proviso. *)
Corollary leaderboard_by_count_sorted {sorter : SliceSorter} {order : MapRange}
    (now : Time) (db : DB) (team period metric : string) (limit : Z)
    (i j : nat) (x y : Entry) :
  metric <> "engagement_score" -> metric <> "avg_ttfr" -> metric <> "avg_comment_count" ->
  getLeaderboard now db team period metric limit !! i = Some x ->
  getLeaderboard now db team period metric limit !! j = Some y ->
  (i < j)%nat ->
  E_CompletedReviews y <= E_CompletedReviews x.
Proof.
  intros He Ht Hc Hi Hj Hij.
  assert (forall e, metric_defined metric e) as Hdef.
  { intros e. unfold metric_defined.
    destruct (String.eqb_spec metric "engagement_score"); [contradiction|].
    destruct (String.eqb_spec metric "avg_ttfr"); [contradiction|].
    destruct (String.eqb_spec metric "avg_comment_count"); [contradiction|]. exact I. }
  rewrite getLeaderboard_limit in Hi, Hj. apply apply_limit_lookup in Hi, Hj.
  assert (in_order metric x y) as Hord.
  { apply leaderboard_less_in_order; [apply Hdef..|].
    eapply ranked_leaderboard_sorted; eauto.
    apply Forall_forall. intros e _. apply Hdef. }
  revert Hord. unfold in_order.
  destruct (String.eqb_spec metric "engagement_score"); [contradiction|].
  destruct (String.eqb_spec metric "avg_ttfr"); [contradiction|].
  destruct (String.eqb_spec metric "avg_comment_count"); [contradiction|]. auto.
Qed.

(** The seed scenario "leaderboard ordering by avg_ttfr". *)
Example leaderboard_by_avg_ttfr :
  (fun e => (E_Username e, E_Rank e))
    <$> GetGlobalLeaderboard (sorter := insertion_sorter) (order := canonical_range)
          (w_wall three_users_world 0) (w_db three_users_world) "all_time" "avg_ttfr" 10
  = [("bob", 1); ("charlie", 2); ("alice", 3)].
Proof. vm_compute. reflexivity. Qed.


(** ** Rank against the number of strictly better entries *)

Lemma filter_none {A} (p : A -> bool) (l : list A) :
  (forall x, x ∈ l -> p x = false) -> List.filter p l = [].
Proof.
  induction l as [|x l IH]; intros Hp; simpl; [reflexivity|].
  rewrite (Hp x) by (left). apply IH. intros y Hy. apply Hp. right. exact Hy.
Qed.

Lemma filter_all {A} (p : A -> bool) (l : list A) :
  (forall x, x ∈ l -> p x = true) -> List.filter p l = l.
Proof.
  induction l as [|x l IH]; intros Hp; simpl; [reflexivity|].
  rewrite (Hp x) by (left). f_equal. apply IH. intros y Hy. apply Hp. right. exact Hy.
Qed.

Lemma length_filter_le {A} (p : A -> bool) (l : list A) :
  (length (List.filter p l) <= length l)%nat.
Proof.
  induction l as [|x l IH]; simpl; [lia|]. destruct (p x); simpl; lia.
Qed.

Section SortedPosition.
Context {A : Type} (less : A -> A -> bool) (l : list A) (i : nat) (e : A).
Hypothesis Hsorted : sorted_by less l.
Hypothesis Hat : l !! i = Some e.
Hypothesis Hirr : less e e = false.

Lemma split_at_position : l = take i l ++ e :: drop (S i) l.
Proof using Hat.
  rewrite <- (take_drop i l) at 1. f_equal. apply drop_S, Hat.
Qed.

Lemma better_before : List.filter (fun x => less x e) (e :: drop (S i) l) = [].
Proof using Hsorted Hat Hirr.
  apply filter_none. intros x Hx. apply elem_of_cons in Hx as [->|Hx]; [exact Hirr|].
  apply list_elem_of_lookup in Hx as [k Hk]. rewrite lookup_drop in Hk.
  apply (Hsorted i (S i + k)%nat e x); [exact Hat|exact Hk|lia].
Qed.

Lemma worse_after : List.filter (fun x => less e x) (take i l) = [].
Proof using Hsorted Hat.
  apply filter_none. intros x Hx. apply elem_of_take in Hx as (k & Hk & Hlt).
  apply (Hsorted k i x e); assumption.
Qed.

Lemma better_count_le : (length (List.filter (fun x => less x e) l) <= i)%nat.
Proof using Hsorted Hat Hirr.
  rewrite split_at_position, List.filter_app, better_before, app_nil_r.
  etransitivity; [apply length_filter_le|]. rewrite length_take. lia.
Qed.

Lemma worse_count_le :
  (i + 1 + length (List.filter (fun x => less e x) l) <= length l)%nat.
Proof using Hsorted Hat Hirr.
  pose proof (lookup_lt_Some _ _ _ Hat) as Hlen.
  rewrite split_at_position at 1. rewrite List.filter_app, worse_after. simpl.
  rewrite Hirr. pose proof (length_filter_le (fun x => less e x) (drop (S i) l)) as Hle.
  rewrite length_drop in Hle. lia.
Qed.

Lemma better_count_no_tie :
  (forall j x, l !! j = Some x -> j <> i -> less x e = true \/ less e x = true) ->
  length (List.filter (fun x => less x e) l) = i.
Proof using Hsorted Hat Hirr.
  intros Hnotie. pose proof (lookup_lt_Some _ _ _ Hat) as Hlen.
  rewrite split_at_position, List.filter_app, better_before, app_nil_r.
  rewrite filter_all; [rewrite length_take; lia|].
  intros x Hx. apply elem_of_take in Hx as (k & Hk & Hlt).
  destruct (Hnotie k x Hk ltac:(lia)) as [Hb|Hw]; [exact Hb|].
  rewrite (Hsorted k i x e Hk Hat Hlt) in Hw. discriminate.
Qed.

End SortedPosition.

Lemma leaderboard_less_irrefl (metric : string) (e : Entry) : leaderboard_less metric e e = false.
Proof.
  unfold leaderboard_less, float_gt.
  repeat (destruct (String.eqb metric _);
          [apply float_ltb_irrefl || (rewrite Z.gtb_ltb; apply Z.ltb_irrefl)|]).
  rewrite Z.gtb_ltb. apply Z.ltb_irrefl.
Qed.

(** C6 (amended).  On an unlimited leaderboard whose entries' values of
    the chosen metric are numbers: the entry at position i (from 0)
    carries rank i + 1, so the ranks are pairwise distinct and are exactly
    1..n; the entries are sorted as [in_order] says; and an entry's rank
    lies between 1 + (number of strictly better entries) and
    n - (number of strictly worse entries).  It equals
    1 + (number of strictly better entries) whenever no other entry ties
    with it on the metric. *)
Theorem C6_rank_bounds {sorter : SliceSorter} {order : MapRange}
    (now : Time) (db : DB) (team period metric : string) :
  let res := getLeaderboard now db team period metric 0 in
  let n := Z.of_nat (length res) in
  Forall (metric_defined metric) res ->
  (forall (i : nat) e, res !! i = Some e -> E_Rank e = Z.of_nat i + 1 /\ 1 <= E_Rank e <= n)
  /\ (forall (i j : nat) e e',
        res !! i = Some e -> res !! j = Some e' -> E_Rank e = E_Rank e' -> i = j)
  /\ (forall (i j : nat) x y,
        res !! i = Some x -> res !! j = Some y -> (i < j)%nat -> in_order metric x y)
  /\ (forall (i : nat) e, res !! i = Some e ->
        1 + better_count metric res e <= E_Rank e <= n - worse_count metric res e)
  /\ (forall (i : nat) e, res !! i = Some e ->
        (forall (j : nat) x, res !! j = Some x -> j <> i ->
           leaderboard_less metric x e = true \/ leaderboard_less metric e x = true) ->
        E_Rank e = 1 + better_count metric res e).
Proof.
  intros res n Hdef. fold (ranked_leaderboard now db team period metric) in res.
  pose proof (ranked_leaderboard_sorted now db team period metric Hdef) as Hsorted.
  fold res in Hsorted.
  assert (forall (i : nat) e, res !! i = Some e -> E_Rank e = Z.of_nat i + 1) as Hrank
    by apply ranked_leaderboard_rank.
  split; [|split; [|split; [|split]]].
  - intros i e Hi. split; [apply Hrank, Hi|].
    rewrite (Hrank i e Hi). apply lookup_lt_Some in Hi. subst n. lia.
  - intros i j e e' Hi Hj. rewrite (Hrank i e Hi), (Hrank j e' Hj). lia.
  - intros i j x y Hi Hj Hij. rewrite Forall_lookup in Hdef.
    apply leaderboard_less_in_order; [eapply Hdef, Hi|eapply Hdef, Hj|].
    eapply Hsorted; eauto.
  - intros i e Hi. rewrite (Hrank i e Hi). unfold better_count, worse_count. subst n.
    pose proof (better_count_le _ res i e Hsorted Hi (leaderboard_less_irrefl metric e)).
    pose proof (worse_count_le _ res i e Hsorted Hi (leaderboard_less_irrefl metric e)).
    lia.
  - intros i e Hi Hnotie. rewrite (Hrank i e Hi). unfold better_count.
    rewrite (better_count_no_tie _ res i e Hsorted Hi (leaderboard_less_irrefl metric e) Hnotie).
    lia.
Qed.

(** With a tie, ranks are still 1 and 2, though neither entry has a
    strictly better one: "rank = 1 + number of strictly better entries"
    fails for the entry ranked second. *)
Lemma C6_tie_counterexample :
  ~ (forall (sorter : SliceSorter) (order : MapRange)
            (now : Time) (db : DB) (team period metric : string),
       let res := getLeaderboard now db team period metric 0 in
       forall e, e ∈ res -> E_Rank e = 1 + better_count metric res e).
Proof.
  intros Hclaim.
  specialize (Hclaim insertion_sorter canonical_range
                (w_wall tie_world 0) (w_db tie_world) "" "all_time" "completed_reviews").
  cbv zeta in Hclaim.
  set (res := getLeaderboard (sorter := insertion_sorter) (order := canonical_range)
                _ _ _ _ _ _) in Hclaim.
  assert (exists e, res !! 1%nat = Some e /\ E_Rank e = 2
                    /\ better_count "completed_reviews" res e = 0) as (e & He & Hr & Hb).
  { vm_compute. eexists. repeat split. }
  specialize (Hclaim e (list_elem_of_lookup_2 _ _ _ He)). lia.
Qed.

Lemma C6_rank_bounds_witness :
  let res := getLeaderboard (sorter := insertion_sorter) (order := canonical_range)
               (w_wall tie_world 0) (w_db tie_world) "" "all_time" "engagement_score" 0 in
  let n := Z.of_nat (length res) in
  (forall (i : nat) e, res !! i = Some e -> E_Rank e = Z.of_nat i + 1 /\ 1 <= E_Rank e <= n)
  /\ (forall (i j : nat) e e',
        res !! i = Some e -> res !! j = Some e' -> E_Rank e = E_Rank e' -> i = j)
  /\ (forall (i j : nat) x y,
        res !! i = Some x -> res !! j = Some y -> (i < j)%nat ->
        in_order "engagement_score" x y)
  /\ (forall (i : nat) e, res !! i = Some e ->
        1 + better_count "engagement_score" res e <= E_Rank e
        <= n - worse_count "engagement_score" res e)
  /\ (forall (i : nat) e, res !! i = Some e ->
        (forall (j : nat) x, res !! j = Some x -> j <> i ->
           leaderboard_less "engagement_score" x e = true
           \/ leaderboard_less "engagement_score" e x = true) ->
        E_Rank e = 1 + better_count "engagement_score" res e).
Proof.
  apply (C6_rank_bounds (sorter := insertion_sorter) (order := canonical_range)
           (w_wall tie_world 0) (w_db tie_world) "" "all_time" "engagement_score").
  vm_compute. repeat constructor.
Defined.

(** ** The upsert of metrics rows *)

Lemma metric_key_set_RM_ID id m : metric_key (set_RM_ID id m) = metric_key m.
Proof. reflexivity. Qed.

Lemma set_RM_ID_twice id id' m : set_RM_ID id (set_RM_ID id' m) = set_RM_ID id m.
Proof. reflexivity. Qed.

Lemma same_key_true m r : same_key m r = true <-> metric_key r = metric_key m.
Proof. unfold same_key. apply bool_decide_eq_true. Qed.

Lemma same_key_false m r : same_key m r = false <-> metric_key r <> metric_key m.
Proof. unfold same_key. apply bool_decide_eq_false. Qed.

Lemma same_key_eq_keys m m' r : metric_key m = metric_key m' -> same_key m r = same_key m' r.
Proof. unfold same_key. intros ->. reflexivity. Qed.

Lemma next_id_fresh (ids : list Z) : next_id ids ∉ ids.
Proof.
  assert (forall x, x ∈ ids -> x <= foldr Z.max 0 ids) as Hmax.
  { induction ids as [|y ids IH]; intros x Hx; [inversion Hx|].
    simpl. apply elem_of_cons in Hx as [->|Hx]; [lia|]. specialize (IH x Hx). lia. }
  intros Hin. apply Hmax in Hin. unfold next_id in Hin. lia.
Qed.

Lemma Save_other (m : ReviewMetrics) (T : list ReviewMetrics) :
  RM_ID m ∉ RM_ID <$> T -> MetricsRepository_Save m T = T.
Proof.
  unfold MetricsRepository_Save. induction T as [|r T IH]; intros Hid; [reflexivity|].
  rewrite fmap_cons in Hid. apply not_elem_of_cons in Hid as [Hne Hid].
  rewrite fmap_cons. destruct (Z.eqb_spec (RM_ID r) (RM_ID m)); [congruence|].
  f_equal. apply IH, Hid.
Qed.

(** On a table whose IDs are pairwise distinct, the lookup of
    [CreateOrUpdate] followed by its save rewrites the first row of the
    key, and nothing else. *)
Lemma First_update_first (m : ReviewMetrics) (T : list ReviewMetrics) :
  NoDup (RM_ID <$> T) ->
  match First (same_key m) T with
  | Some e => update_first m T = Some (MetricsRepository_Save (set_RM_ID (RM_ID e) m) T)
  | None => update_first m T = None
  end.
Proof.
  unfold First. induction T as [|r T IH]; intros Hnd; [reflexivity|].
  rewrite fmap_cons in Hnd. apply NoDup_cons in Hnd as [Hr Hnd]. simpl.
  destruct (same_key m r) eqn:Hk.
  - rewrite Z.eqb_refl.
    do 2 f_equal. symmetry. apply (Save_other (set_RM_ID (RM_ID r) m)). exact Hr.
  - specialize (IH Hnd). destruct (List.find (same_key m) T) as [e|] eqn:Hfind.
    + rewrite IH. simpl.
      apply find_some in Hfind as [Hin _].
      destruct (Z.eqb_spec (RM_ID r) (RM_ID e)) as [Heq|]; [|reflexivity].
      exfalso. apply Hr. rewrite Heq. apply list_elem_of_fmap_2.
      apply list_elem_of_In, Hin.
    + rewrite IH. reflexivity.
Qed.

Lemma update_first_shape (m : ReviewMetrics) (T T' : list ReviewMetrics) :
  update_first m T = Some T' ->
  RM_ID <$> T' = RM_ID <$> T /\ metric_key <$> T' = metric_key <$> T.
Proof.
  revert T'. induction T as [|r T IH]; intros T'; simpl; [discriminate|].
  destruct (same_key m r) eqn:Hk.
  - intros [= <-]. rewrite !fmap_cons. simpl. apply same_key_true in Hk.
    rewrite metric_key_set_RM_ID, Hk. split; reflexivity.
  - destruct (update_first m T) as [T1|]; simpl; [|discriminate].
    intros [= <-]. rewrite !fmap_cons. destruct (IH T1 eq_refl) as [-> ->]. split; reflexivity.
Qed.

Lemma update_first_None (m : ReviewMetrics) (T : list ReviewMetrics) :
  update_first m T = None <-> metric_key m ∉ metric_key <$> T.
Proof.
  induction T as [|r T IH]; simpl.
  - split; [intros _ H; inversion H|reflexivity].
  - rewrite not_elem_of_cons. destruct (same_key m r) eqn:Hk.
    + apply same_key_true in Hk. split; [discriminate|]. intros [Hne _]. congruence.
    + apply same_key_false in Hk. destruct (update_first m T); simpl.
      * split; [discriminate|]. intros [_ Hn]. apply IH in Hn. discriminate.
      * split; [|reflexivity]. intros _. split; [congruence|]. apply IH. reflexivity.
Qed.

Lemma update_first_is_Some (m : ReviewMetrics) (T : list ReviewMetrics) :
  metric_key m ∈ metric_key <$> T -> exists T', update_first m T = Some T'.
Proof.
  intros Hin. destruct (update_first m T) as [T'|] eqn:E; [eauto|].
  apply update_first_None in E. contradiction.
Qed.

Lemma update_first_app_l (m : ReviewMetrics) (T T' X : list ReviewMetrics) :
  update_first m T = Some T' -> update_first m (T ++ X) = Some (T' ++ X).
Proof.
  revert T'. induction T as [|r T IH]; intros T'; simpl; [discriminate|].
  destruct (same_key m r); [intros [= <-]; reflexivity|].
  destruct (update_first m T) as [T1|]; simpl; [|discriminate].
  intros [= <-]. rewrite (IH T1 eq_refl). reflexivity.
Qed.

Lemma update_first_app_r (m x : ReviewMetrics) (T : list ReviewMetrics) :
  update_first m T = None -> metric_key x = metric_key m ->
  update_first m (T ++ [x]) = Some (T ++ [set_RM_ID (RM_ID x) m]).
Proof.
  intros Hnone Hx. induction T as [|r T IH]; simpl in *.
  - apply same_key_true in Hx. rewrite Hx. reflexivity.
  - destruct (same_key m r); [discriminate|].
    destruct (update_first m T); [discriminate|]. rewrite IH by reflexivity. reflexivity.
Qed.

Lemma update_first_app_None (m x : ReviewMetrics) (T : list ReviewMetrics) :
  update_first m T = None -> metric_key x <> metric_key m ->
  update_first m (T ++ [x]) = None.
Proof.
  intros Hnone Hx. apply update_first_None. apply update_first_None in Hnone.
  rewrite fmap_app, elem_of_app. simpl. rewrite list_elem_of_singleton. intros [?|?]; congruence.
Qed.

(** A second write of the same key replaces the first: last write wins. *)
Lemma update_first_absorb (m m' : ReviewMetrics) (T T' : list ReviewMetrics) :
  metric_key m' = metric_key m ->
  update_first m T = Some T' -> update_first m' T' = update_first m' T.
Proof.
  intros Hkey. revert T'. induction T as [|r T IH]; intros T'; simpl; [discriminate|].
  rewrite (same_key_eq_keys m' m r Hkey).
  destruct (same_key m r) eqn:Hk.
  - intros [= <-]. simpl.
    assert (same_key m' (set_RM_ID (RM_ID r) m) = true) as ->.
    { apply same_key_true. rewrite metric_key_set_RM_ID. congruence. }
    reflexivity.
  - destruct (update_first m T) as [T1|]; simpl; [|discriminate].
    intros [= <-]. simpl. rewrite (same_key_eq_keys m' m r Hkey), Hk.
    rewrite (IH T1 eq_refl). reflexivity.
Qed.

(** Writes of different keys that both hit existing rows commute. *)
Lemma update_first_commute (m1 m2 : ReviewMetrics) (T T1 T2 : list ReviewMetrics) :
  metric_key m1 <> metric_key m2 ->
  update_first m1 T = Some T1 -> update_first m2 T = Some T2 ->
  exists T12, update_first m1 T2 = Some T12 /\ update_first m2 T1 = Some T12.
Proof.
  intros Hne. revert T1 T2. induction T as [|r T IH]; intros T1 T2; simpl; [discriminate|].
  destruct (same_key m1 r) eqn:Hk1, (same_key m2 r) eqn:Hk2.
  - apply same_key_true in Hk1, Hk2. congruence.
  - intros [= <-]. destruct (update_first m2 T) as [T2'|] eqn:E2; simpl; [|discriminate].
    intros [= <-]. exists (set_RM_ID (RM_ID r) m1 :: T2'). simpl. rewrite Hk1.
    assert (same_key m2 (set_RM_ID (RM_ID r) m1) = false) as ->.
    { apply same_key_false. rewrite metric_key_set_RM_ID. exact Hne. }
    rewrite E2. split; reflexivity.
  - destruct (update_first m1 T) as [T1'|] eqn:E1; simpl; [|discriminate].
    intros [= <-] [= <-]. exists (set_RM_ID (RM_ID r) m2 :: T1'). simpl. rewrite Hk2.
    assert (same_key m1 (set_RM_ID (RM_ID r) m2) = false) as ->.
    { apply same_key_false. rewrite metric_key_set_RM_ID. congruence. }
    rewrite E1. split; reflexivity.
  - destruct (update_first m1 T) as [T1'|]; simpl; [|discriminate].
    destruct (update_first m2 T) as [T2'|]; simpl; [|discriminate].
    intros [= <-] [= <-]. destruct (IH T1' T2' eq_refl eq_refl) as (T12 & H1 & H2).
    exists (r :: T12). simpl. rewrite Hk1, Hk2, H1, H2. split; reflexivity.
Qed.

Lemma upsert_key_in (m : ReviewMetrics) (T : list ReviewMetrics) k :
  k ∈ metric_key <$> upsert m T <-> k = metric_key m \/ k ∈ metric_key <$> T.
Proof.
  unfold upsert. destruct (update_first m T) as [T'|] eqn:E.
  - destruct (update_first_shape m T T' E) as [_ ->].
    split; [auto|]. intros [->|H]; [|exact H].
    destruct (decide (metric_key m ∈ metric_key <$> T)) as [Hin|Hin]; [exact Hin|].
    apply update_first_None in Hin. congruence.
  - rewrite fmap_app, elem_of_app. simpl.
    rewrite list_elem_of_singleton. tauto.
Qed.

Lemma upsert_NoDup (m : ReviewMetrics) (T : list ReviewMetrics) :
  RM_ID m = 0 -> NoDup (RM_ID <$> T) -> NoDup (RM_ID <$> upsert m T).
Proof.
  intros Hid Hnd. unfold upsert. destruct (update_first m T) as [T'|] eqn:E.
  - destruct (update_first_shape m T T' E) as [-> _]. exact Hnd.
  - rewrite Hid. simpl. rewrite fmap_app. simpl.
    apply NoDup_app. split; [exact Hnd|]. split; [|apply NoDup_singleton].
    intros x Hx Hx'. apply list_elem_of_singleton in Hx'. subst x.
    exact (next_id_fresh _ Hx).
Qed.

Lemma upsert_absorb (m m' : ReviewMetrics) (T : list ReviewMetrics) :
  metric_key m' = metric_key m -> RM_ID m = 0 -> RM_ID m' = 0 ->
  upsert m' (upsert m T) = upsert m' T.
Proof.
  intros Hkey Hid Hid'. unfold upsert at 2. destruct (update_first m T) as [T'|] eqn:E.
  - unfold upsert. rewrite (update_first_absorb m m' T T' Hkey E).
    destruct (update_first m' T) as [X|] eqn:E'; [reflexivity|].
    apply update_first_None in E'. rewrite Hkey in E'. apply update_first_None in E'. congruence.
  - assert (update_first m' T = None) as E'.
    { apply update_first_None. rewrite Hkey. apply update_first_None, E. }
    unfold upsert. rewrite E'. rewrite Hid, Hid'. simpl.
    rewrite (update_first_app_r m' _ T E') by (rewrite metric_key_set_RM_ID; congruence).
    reflexivity.
Qed.

Lemma upsert_commute (m1 m2 : ReviewMetrics) (T : list ReviewMetrics) :
  metric_key m1 <> metric_key m2 -> metric_key m1 ∈ metric_key <$> T ->
  upsert m1 (upsert m2 T) = upsert m2 (upsert m1 T).
Proof.
  intros Hne Hin. destruct (update_first_is_Some m1 T Hin) as [T1 E1].
  assert (upsert m1 T = T1) as -> by (unfold upsert; rewrite E1; reflexivity).
  destruct (update_first m2 T) as [T2|] eqn:E2.
  - assert (upsert m2 T = T2) as -> by (unfold upsert; rewrite E2; reflexivity).
    destruct (update_first_commute m1 m2 T T1 T2 Hne E1 E2) as (T12 & H1 & H2).
    unfold upsert. rewrite H1, H2. reflexivity.
  - assert (upsert m2 T
            = T ++ [set_RM_ID (if RM_ID m2 =? 0 then next_id (RM_ID <$> T) else RM_ID m2) m2])
      as -> by (unfold upsert; rewrite E2; reflexivity).
    destruct (update_first_shape m1 T T1 E1) as [Hids Hkeys].
    assert (update_first m2 T1 = None) as E2'.
    { apply update_first_None. rewrite Hkeys. apply update_first_None, E2. }
    unfold upsert. rewrite E2'. rewrite Hids.
    rewrite (update_first_app_l m1 T T1 _ E1). reflexivity.
Qed.

Lemma apply_ops_key_in (ops : list ReviewMetrics) (T : list ReviewMetrics) k :
  k ∈ metric_key <$> T -> k ∈ metric_key <$> apply_ops ops T.
Proof.
  revert T. induction ops as [|m ops IH]; intros T Hk; simpl; [exact Hk|].
  apply IH, upsert_key_in. right. exact Hk.
Qed.

Lemma apply_ops_op_key_in (ops : list ReviewMetrics) (T : list ReviewMetrics) m :
  m ∈ ops -> metric_key m ∈ metric_key <$> apply_ops ops T.
Proof.
  revert T. induction ops as [|m' ops IH]; intros T Hm; [inversion Hm|]. simpl.
  apply elem_of_cons in Hm as [->|Hm]; [|apply IH, Hm].
  apply apply_ops_key_in, upsert_key_in. left. reflexivity.
Qed.

Lemma apply_ops_NoDup (ops : list ReviewMetrics) (T : list ReviewMetrics) :
  Forall (fun m => RM_ID m = 0) ops -> NoDup (RM_ID <$> T) ->
  NoDup (RM_ID <$> apply_ops ops T).
Proof.
  revert T. induction ops as [|m ops IH]; intros T Hops Hnd; simpl; [exact Hnd|].
  apply Forall_cons in Hops as [Hm Hops]. apply IH; [exact Hops|]. apply upsert_NoDup; assumption.
Qed.

(** A write whose key is written again later in the batch leaves no trace. *)
Lemma apply_ops_absorb (ops : list ReviewMetrics) (m : ReviewMetrics) (T : list ReviewMetrics) :
  Forall (fun m => RM_ID m = 0) (m :: ops) ->
  metric_key m ∈ metric_key <$> ops -> metric_key m ∈ metric_key <$> T ->
  apply_ops ops (upsert m T) = apply_ops ops T.
Proof.
  intros Hids. apply Forall_cons in Hids as [Hm Hops].
  revert T. induction ops as [|m' ops IH]; intros T Hin HT; [inversion Hin|]. simpl.
  apply Forall_cons in Hops as [Hm' Hops].
  destruct (decide (metric_key m' = metric_key m)) as [Heq|Hne].
  - rewrite upsert_absorb by assumption. reflexivity.
  - rewrite fmap_cons in Hin. apply elem_of_cons in Hin as [Hin|Hin]; [congruence|].
    rewrite <- upsert_commute by (auto; congruence).
    apply IH; [exact Hops|exact Hin|]. apply upsert_key_in. right. exact HT.
Qed.

(** A write whose key the batch does not touch commutes with the batch. *)
Lemma apply_ops_commute (ops : list ReviewMetrics) (m : ReviewMetrics) (T : list ReviewMetrics) :
  metric_key m ∉ metric_key <$> ops -> metric_key m ∈ metric_key <$> T ->
  apply_ops ops (upsert m T) = upsert m (apply_ops ops T).
Proof.
  revert T. induction ops as [|m' ops IH]; intros T Hnin HT; simpl; [reflexivity|].
  rewrite fmap_cons in Hnin. apply not_elem_of_cons in Hnin as [Hne Hnin].
  rewrite <- upsert_commute by assumption.
  apply IH; [exact Hnin|]. apply upsert_key_in. right. exact HT.
Qed.

(** Running a batch of upserts twice is running it once. *)
Lemma apply_ops_idempotent (ops : list ReviewMetrics) (T : list ReviewMetrics) :
  Forall (fun m => RM_ID m = 0) ops ->
  apply_ops ops (apply_ops ops T) = apply_ops ops T.
Proof.
  revert T. induction ops as [|m ops IH]; intros T Hids; [reflexivity|].
  pose proof Hids as Hids'. apply Forall_cons in Hids' as [Hm Hops].
  change (apply_ops (m :: ops) T) with (apply_ops ops (upsert m T)).
  set (T' := upsert m T).
  change (apply_ops (m :: ops) (apply_ops ops T'))
    with (apply_ops ops (upsert m (apply_ops ops T'))).
  assert (metric_key m ∈ metric_key <$> T') as HT' by (apply upsert_key_in; left; reflexivity).
  assert (metric_key m ∈ metric_key <$> apply_ops ops T') as HX by apply apply_ops_key_in, HT'.
  destruct (decide (metric_key m ∈ metric_key <$> ops)) as [Hin|Hnin].
  - rewrite apply_ops_absorb by assumption. apply IH, Hops.
  - rewrite <- (apply_ops_commute ops m T') by assumption.
    assert (upsert m T' = T') as -> by (unfold T'; apply upsert_absorb; auto).
    apply IH, Hops.
Qed.

(** Upserts of pairwise distinct keys that all hit existing rows can be
    run in any order. *)
Lemma apply_ops_perm (ops ops' : list ReviewMetrics) (T : list ReviewMetrics) :
  ops ≡ₚ ops' -> NoDup (metric_key <$> ops) ->
  (forall m, m ∈ ops -> metric_key m ∈ metric_key <$> T) ->
  apply_ops ops T = apply_ops ops' T.
Proof.
  intros Hperm. revert T. induction Hperm as [|m l l' Hp IH|m1 m2 l|l l' l'' Hp1 IH1 Hp2 IH2];
    intros T Hnd Hin.
  - reflexivity.
  - simpl. rewrite fmap_cons in Hnd. apply NoDup_cons in Hnd as [_ Hnd].
    apply IH; [exact Hnd|]. intros x Hx. apply upsert_key_in. right. apply Hin. right. exact Hx.
  - simpl. rewrite !fmap_cons in Hnd. apply NoDup_cons in Hnd as [Hne _].
    apply not_elem_of_cons in Hne as [Hne _].
    rewrite upsert_commute; [reflexivity|congruence|]. apply Hin. right. left.
  - rewrite IH1 by assumption. apply IH2.
    + rewrite <- Hp1. exact Hnd.
    + intros x Hx. apply Hin. rewrite Hp1. exact Hx.
Qed.

(** ** One [CreateOrUpdate] against the clock *)

Lemma fmap_RM_ID_unstamp (T : list ReviewMetrics) : RM_ID <$> (unstamp <$> T) = RM_ID <$> T.
Proof. rewrite <- list_fmap_compose. reflexivity. Qed.

Lemma fmap_metric_key_unstamp (T : list ReviewMetrics) :
  metric_key <$> (unstamp <$> T) = metric_key <$> T.
Proof. rewrite <- list_fmap_compose. reflexivity. Qed.

Lemma unstamp_stamp_CreatedAt (now : Time) (m : ReviewMetrics) :
  unstamp (stamp_CreatedAt now m) = unstamp m.
Proof. unfold stamp_CreatedAt. destruct (IsZero (RM_CreatedAt m)); reflexivity. Qed.

Lemma RM_ID_stamp_CreatedAt (now : Time) (m : ReviewMetrics) :
  RM_ID (stamp_CreatedAt now m) = RM_ID m.
Proof. unfold stamp_CreatedAt. destruct (IsZero (RM_CreatedAt m)); reflexivity. Qed.

Lemma metric_key_stamp_CreatedAt (now : Time) (m : ReviewMetrics) :
  metric_key (stamp_CreatedAt now m) = metric_key m.
Proof. unfold stamp_CreatedAt. destruct (IsZero (RM_CreatedAt m)); reflexivity. Qed.

(** The ORM stamps the struct the aggregator builds: its [CreatedAt] is
    zero. *)
Lemma stamp_CreatedAt_zero (now : Time) (m : ReviewMetrics) :
  RM_CreatedAt m = zero_Time -> stamp_CreatedAt now m = set_RM_CreatedAt now m.
Proof. unfold stamp_CreatedAt, IsZero. intros ->. rewrite Z.eqb_refl. reflexivity. Qed.

Lemma unstamp_fixed (m : ReviewMetrics) : RM_CreatedAt m = zero_Time -> unstamp m = m.
Proof. destruct m. unfold unstamp, set_RM_CreatedAt. cbn [RM_CreatedAt]. intros ->. reflexivity. Qed.

Lemma fmap_unstamp_fixed (ops : list ReviewMetrics) :
  Forall (fun m => RM_CreatedAt m = zero_Time) ops -> unstamp <$> ops = ops.
Proof.
  induction 1 as [|m ops Hm _ IH]; [reflexivity|].
  rewrite fmap_cons, IH, (unstamp_fixed m Hm). reflexivity.
Qed.

Lemma update_first_unstamp (m : ReviewMetrics) (T : list ReviewMetrics) :
  update_first (unstamp m) (unstamp <$> T)
  = (fun T' : list ReviewMetrics => unstamp <$> T') <$> update_first m T.
Proof.
  induction T as [|r T IH]; [reflexivity|].
  rewrite fmap_cons. simpl update_first.
  change (same_key (unstamp m) (unstamp r)) with (same_key m r).
  destruct (same_key m r); [reflexivity|].
  rewrite IH. destruct (update_first m T); reflexivity.
Qed.

Lemma First_None (m : ReviewMetrics) (T : list ReviewMetrics) :
  First (same_key m) T = None <-> metric_key m ∉ metric_key <$> T.
Proof.
  unfold First. induction T as [|r T IH]; simpl.
  - split; [intros _ H; inversion H|reflexivity].
  - rewrite ?fmap_cons, not_elem_of_cons. destruct (same_key m r) eqn:Hk.
    + apply same_key_true in Hk. split; [discriminate|]. intros [Hne _]. congruence.
    + apply same_key_false in Hk. rewrite IH. split; [|tauto]. intros H. split; [congruence|exact H].
Qed.

(** On a table whose IDs are pairwise distinct, one [CreateOrUpdate]
    rewrites the first row of the key in place and leaves the clock alone,
    or appends the stamped row and takes one reading. *)
Lemma upsert_step_update_first (wall : nat -> Time) (st : nat * list ReviewMetrics)
    (m : ReviewMetrics) :
  NoDup (RM_ID <$> snd st) ->
  upsert_step wall st m
  = match update_first m (snd st) with
    | Some T' => (fst st, T')
    | None => (S (fst st), MetricsRepository_Create (wall (fst st)) m (snd st))
    end.
Proof.
  intros Hnd. unfold upsert_step. pose proof (First_update_first m (snd st) Hnd) as H.
  destruct (First (same_key m) (snd st)); rewrite H; reflexivity.
Qed.

(** The creation stamps set aside, one [CreateOrUpdate] is the upsert. *)
Lemma upsert_step_unstamp (wall : nat -> Time) (st : nat * list ReviewMetrics)
    (m : ReviewMetrics) :
  NoDup (RM_ID <$> snd st) ->
  unstamp <$> snd (upsert_step wall st m) = upsert (unstamp m) (unstamp <$> snd st).
Proof.
  intros Hnd. rewrite upsert_step_update_first by exact Hnd.
  unfold upsert. rewrite update_first_unstamp.
  destruct (update_first m (snd st)) as [T'|]; [reflexivity|].
  cbn [fmap option_fmap option_map snd]. unfold MetricsRepository_Create.
  rewrite fmap_app, RM_ID_stamp_CreatedAt, fmap_RM_ID_unstamp.
  change (RM_ID (unstamp m)) with (RM_ID m). f_equal.
  change (unstamp <$> [?x]) with [unstamp x].
  cbn [fmap list_fmap]. f_equal.
  change (unstamp (set_RM_ID ?i ?x)) with (set_RM_ID i (unstamp x)).
  rewrite unstamp_stamp_CreatedAt. reflexivity.
Qed.

Lemma upsert_step_ids (wall : nat -> Time) (st : nat * list ReviewMetrics) (m : ReviewMetrics) :
  RM_ID m = 0 -> NoDup (RM_ID <$> snd st) -> NoDup (RM_ID <$> snd (upsert_step wall st m)).
Proof.
  intros Hid Hnd. rewrite <- fmap_RM_ID_unstamp, upsert_step_unstamp by exact Hnd.
  apply upsert_NoDup; [exact Hid|]. rewrite fmap_RM_ID_unstamp. exact Hnd.
Qed.

Lemma upsert_step_key_in (wall : nat -> Time) (st : nat * list ReviewMetrics)
    (m : ReviewMetrics) k :
  NoDup (RM_ID <$> snd st) ->
  k ∈ metric_key <$> snd (upsert_step wall st m)
  <-> k = metric_key m \/ k ∈ metric_key <$> snd st.
Proof.
  intros Hnd. rewrite <- fmap_metric_key_unstamp, upsert_step_unstamp by exact Hnd.
  rewrite upsert_key_in, fmap_metric_key_unstamp. reflexivity.
Qed.

Lemma upsert_step_tick (wall : nat -> Time) (st : nat * list ReviewMetrics) (m : ReviewMetrics) :
  (fst st <= fst (upsert_step wall st m))%nat.
Proof. unfold upsert_step. destruct (First (same_key m) (snd st)); simpl; lia. Qed.

(** *** The row stored under a key *)

Lemma find_app_last {A} (p : A -> bool) (l : list A) (x : A) :
  List.find p (l ++ [x])
  = match List.find p l with Some y => Some y | None => if p x then Some x else None end.
Proof.
  induction l as [|y l IH]; simpl; [reflexivity|]. destruct (p y); [reflexivity|exact IH].
Qed.

Lemma update_first_find_other (m m' : ReviewMetrics) (T T' : list ReviewMetrics) :
  metric_key m' <> metric_key m -> update_first m' T = Some T' ->
  List.find (same_key m) T' = List.find (same_key m) T.
Proof.
  intros Hne. revert T'. induction T as [|r T IH]; intros T'; simpl; [discriminate|].
  destruct (same_key m' r) eqn:Hk'.
  - intros [= <-]. simpl. apply same_key_true in Hk'.
    assert (same_key m (set_RM_ID (RM_ID r) m') = false) as ->
      by (apply same_key_false; rewrite metric_key_set_RM_ID; exact Hne).
    assert (same_key m r = false) as -> by (apply same_key_false; congruence).
    reflexivity.
  - destruct (update_first m' T) as [T1|]; simpl; [|discriminate].
    intros [= <-]. simpl. rewrite (IH T1 eq_refl). reflexivity.
Qed.

Lemma update_first_find_self (m : ReviewMetrics) (T T' : list ReviewMetrics) :
  update_first m T = Some T' ->
  exists id, List.find (same_key m) T' = Some (set_RM_ID id m).
Proof.
  revert T'. induction T as [|r T IH]; intros T'; simpl; [discriminate|].
  destruct (same_key m r) eqn:Hk.
  - intros [= <-]. exists (RM_ID r). simpl.
    assert (same_key m (set_RM_ID (RM_ID r) m) = true) as ->
      by (apply same_key_true; reflexivity).
    reflexivity.
  - destruct (update_first m T) as [T1|]; simpl; [|discriminate].
    intros [= <-]. destruct (IH T1 eq_refl) as [id Hid]. exists id. simpl.
    rewrite Hk. exact Hid.
Qed.

(** A [CreateOrUpdate] of another key leaves the row stored under a key as
    it is. *)
Lemma stored_stamp_other (wall : nat -> Time) (st : nat * list ReviewMetrics)
    (m m' : ReviewMetrics) :
  NoDup (RM_ID <$> snd st) -> metric_key m' <> metric_key m ->
  First (same_key m) (snd (upsert_step wall st m')) = First (same_key m) (snd st).
Proof.
  intros Hnd Hne. rewrite upsert_step_update_first by exact Hnd. unfold First.
  destruct (update_first m' (snd st)) as [T'|] eqn:E.
  - exact (update_first_find_other m m' (snd st) T' Hne E).
  - cbn [snd]. unfold MetricsRepository_Create. rewrite find_app_last.
    destruct (List.find (same_key m) (snd st)); [reflexivity|].
    assert (same_key m (set_RM_ID
              (if RM_ID (stamp_CreatedAt (wall (fst st)) m') =? 0
               then next_id (RM_ID <$> snd st)
               else RM_ID (stamp_CreatedAt (wall (fst st)) m'))
              (stamp_CreatedAt (wall (fst st)) m')) = false) as ->; [|reflexivity].
    apply same_key_false. rewrite metric_key_set_RM_ID, metric_key_stamp_CreatedAt. exact Hne.
Qed.

(** A [CreateOrUpdate] on a key the table holds stores the [created_at] of
    the struct it is given, and takes no reading of the clock. *)
Lemma stored_stamp_update (wall : nat -> Time) (st : nat * list ReviewMetrics)
    (m : ReviewMetrics) :
  NoDup (RM_ID <$> snd st) -> metric_key m ∈ metric_key <$> snd st ->
  stored_stamp m (snd (upsert_step wall st m)) = Some (RM_CreatedAt m).
Proof.
  intros Hnd Hin. rewrite upsert_step_update_first by exact Hnd.
  destruct (update_first_is_Some m (snd st) Hin) as [T' E]. rewrite E. cbn [snd].
  destruct (update_first_find_self m (snd st) T' E) as [id Hid].
  unfold stored_stamp, First. rewrite Hid. reflexivity.
Qed.

(** A [CreateOrUpdate] on a key the table does not hold stores the reading
    of the clock, when the struct's [CreatedAt] is zero. *)
Lemma stored_stamp_create (wall : nat -> Time) (st : nat * list ReviewMetrics)
    (m : ReviewMetrics) :
  metric_key m ∉ metric_key <$> snd st -> RM_CreatedAt m = zero_Time ->
  stored_stamp m (snd (upsert_step wall st m)) = Some (wall (fst st)).
Proof.
  intros Hnin Hzero. pose proof Hnin as Hnone. apply First_None in Hnone.
  unfold upsert_step. rewrite Hnone. cbn [snd].
  unfold stored_stamp, First, MetricsRepository_Create. rewrite find_app_last.
  unfold First in Hnone. rewrite Hnone, (stamp_CreatedAt_zero _ m Hzero).
  assert (same_key m (set_RM_ID
            (if RM_ID (set_RM_CreatedAt (wall (fst st)) m) =? 0
             then next_id (RM_ID <$> snd st)
             else RM_ID (set_RM_CreatedAt (wall (fst st)) m))
            (set_RM_CreatedAt (wall (fst st)) m)) = true) as ->
    by (apply same_key_true; reflexivity).
  reflexivity.
Qed.

(** ** A batch of [CreateOrUpdate] calls *)

Lemma run_ops_app (wall : nat -> Time) (ops ops' : list ReviewMetrics)
    (st : nat * list ReviewMetrics) :
  run_ops wall (ops ++ ops') st = run_ops wall ops' (run_ops wall ops st).
Proof. apply fold_left_app. Qed.

Lemma run_ops_ids (wall : nat -> Time) (ops : list ReviewMetrics)
    (st : nat * list ReviewMetrics) :
  Forall (fun m => RM_ID m = 0) ops -> NoDup (RM_ID <$> snd st) ->
  NoDup (RM_ID <$> snd (run_ops wall ops st)).
Proof.
  revert st. induction ops as [|m ops IH]; intros st Hops Hnd; [exact Hnd|].
  apply Forall_cons in Hops as [Hm Hops]. apply IH; [exact Hops|].
  apply upsert_step_ids; assumption.
Qed.

(** The creation stamps set aside, a batch of [CreateOrUpdate] calls is the
    batch of upserts. *)
Lemma run_ops_unstamp (wall : nat -> Time) (ops : list ReviewMetrics)
    (st : nat * list ReviewMetrics) :
  Forall (fun m => RM_ID m = 0) ops -> NoDup (RM_ID <$> snd st) ->
  unstamp <$> snd (run_ops wall ops st) = apply_ops (unstamp <$> ops) (unstamp <$> snd st).
Proof.
  revert st. induction ops as [|m ops IH]; intros st Hops Hnd; [reflexivity|].
  apply Forall_cons in Hops as [Hm Hops]. rewrite fmap_cons.
  change (run_ops wall (m :: ops) st) with (run_ops wall ops (upsert_step wall st m)).
  rewrite IH; [|exact Hops|apply upsert_step_ids; assumption].
  rewrite upsert_step_unstamp by exact Hnd. reflexivity.
Qed.

Lemma run_ops_tick (wall : nat -> Time) (ops : list ReviewMetrics)
    (st : nat * list ReviewMetrics) :
  (fst st <= fst (run_ops wall ops st))%nat.
Proof.
  revert st. induction ops as [|m ops IH]; intros st; [reflexivity|].
  change (run_ops wall (m :: ops) st) with (run_ops wall ops (upsert_step wall st m)).
  etransitivity; [apply (upsert_step_tick wall st m)|apply IH].
Qed.

Lemma run_ops_key_in (wall : nat -> Time) (ops : list ReviewMetrics)
    (st : nat * list ReviewMetrics) k :
  Forall (fun m => RM_ID m = 0) ops -> NoDup (RM_ID <$> snd st) ->
  k ∈ metric_key <$> snd (run_ops wall ops st)
  <-> k ∈ metric_key <$> ops \/ k ∈ metric_key <$> snd st.
Proof.
  revert st. induction ops as [|m ops IH]; intros st Hops Hnd.
  - simpl. rewrite elem_of_nil. tauto.
  - apply Forall_cons in Hops as [Hm Hops].
    change (run_ops wall (m :: ops) st) with (run_ops wall ops (upsert_step wall st m)).
    rewrite IH; [|exact Hops|apply upsert_step_ids; assumption].
    rewrite upsert_step_key_in by exact Hnd. rewrite fmap_cons, elem_of_cons. tauto.
Qed.

(** A batch that does not write a key leaves the row stored under it as it
    is. *)
Lemma run_ops_other (wall : nat -> Time) (ops : list ReviewMetrics)
    (st : nat * list ReviewMetrics) (m : ReviewMetrics) :
  Forall (fun m => RM_ID m = 0) ops -> NoDup (RM_ID <$> snd st) ->
  metric_key m ∉ metric_key <$> ops ->
  First (same_key m) (snd (run_ops wall ops st)) = First (same_key m) (snd st).
Proof.
  revert st. induction ops as [|m' ops IH]; intros st Hops Hnd Hnin; [reflexivity|].
  apply Forall_cons in Hops as [Hm Hops].
  rewrite fmap_cons in Hnin. apply not_elem_of_cons in Hnin as [Hne Hnin].
  change (run_ops wall (m' :: ops) st) with (run_ops wall ops (upsert_step wall st m')).
  rewrite IH; [|exact Hops|apply upsert_step_ids; assumption|exact Hnin].
  apply stored_stamp_other; [exact Hnd|congruence].
Qed.

Lemma stored_stamp_key_in (m : ReviewMetrics) (T : list ReviewMetrics) (t : Time) :
  stored_stamp m T = Some t -> metric_key m ∈ metric_key <$> T.
Proof.
  intros H. destruct (decide (metric_key m ∈ metric_key <$> T)) as [Hin|Hnin]; [exact Hin|].
  apply First_None in Hnin. unfold stored_stamp in H. rewrite Hnin in H. discriminate.
Qed.

Lemma stored_stamp_eq_keys (m m' : ReviewMetrics) (T : list ReviewMetrics) :
  metric_key m = metric_key m' -> stored_stamp m T = stored_stamp m' T.
Proof.
  intros Hkey. unfold stored_stamp, First. f_equal.
  induction T as [|r T IH]; [reflexivity|]. simpl.
  rewrite (same_key_eq_keys m m' r Hkey), IH. reflexivity.
Qed.

(** Once the row stored under a key has a zero [created_at], the structs
    the aggregator builds keep it zero. *)
Lemma run_ops_keeps_zero (wall : nat -> Time) (ops : list ReviewMetrics)
    (st : nat * list ReviewMetrics) (m : ReviewMetrics) :
  Forall (fun m => RM_ID m = 0) ops -> Forall (fun m => RM_CreatedAt m = zero_Time) ops ->
  NoDup (RM_ID <$> snd st) ->
  stored_stamp m (snd st) = Some zero_Time ->
  stored_stamp m (snd (run_ops wall ops st)) = Some zero_Time.
Proof.
  revert st. induction ops as [|m' ops IH]; intros st Hops Hzero Hnd Hst; [exact Hst|].
  apply Forall_cons in Hops as [Hm Hops]. apply Forall_cons in Hzero as [Hz Hzero].
  change (run_ops wall (m' :: ops) st) with (run_ops wall ops (upsert_step wall st m')).
  apply IH; [exact Hops|exact Hzero|apply upsert_step_ids; assumption|].
  destruct (decide (metric_key m' = metric_key m)) as [Heq|Hne].
  - rewrite (stored_stamp_eq_keys m m') by congruence.
    rewrite stored_stamp_update; [rewrite Hz; reflexivity|exact Hnd|].
    rewrite Heq. exact (stored_stamp_key_in m _ _ Hst).
  - unfold stored_stamp. rewrite stored_stamp_other by assumption. exact Hst.
Qed.

(** A batch of the aggregator's structs leaves a zero [created_at] on every
    row it writes whose key the table held before. *)
Lemma run_ops_rewritten (wall : nat -> Time) (ops : list ReviewMetrics)
    (st : nat * list ReviewMetrics) (m : ReviewMetrics) :
  Forall (fun m => RM_ID m = 0) ops -> Forall (fun m => RM_CreatedAt m = zero_Time) ops ->
  NoDup (RM_ID <$> snd st) ->
  m ∈ ops -> metric_key m ∈ metric_key <$> snd st ->
  stored_stamp m (snd (run_ops wall ops st)) = Some zero_Time.
Proof.
  revert st. induction ops as [|m' ops IH]; intros st Hops Hzero Hnd Hm Hin; [inversion Hm|].
  pose proof Hops as Hops'. pose proof Hzero as Hzero'.
  apply Forall_cons in Hops' as [Hid Hops']. apply Forall_cons in Hzero' as [Hz Hzero'].
  change (run_ops wall (m' :: ops) st) with (run_ops wall ops (upsert_step wall st m')).
  apply elem_of_cons in Hm as [->|Hm].
  - apply run_ops_keeps_zero; [exact Hops'|exact Hzero'|apply upsert_step_ids; assumption|].
    rewrite stored_stamp_update by assumption. rewrite Hz. reflexivity.
  - apply IH; [exact Hops'|exact Hzero'|apply upsert_step_ids; assumption|exact Hm|].
    apply upsert_step_key_in; [exact Hnd|]. right. exact Hin.
Qed.

(** A row the batch writes once, under a key the table did not hold, is
    stored with a reading of the clock as its [created_at]. *)
Lemma run_ops_created (wall : nat -> Time) (pre post : list ReviewMetrics) (m : ReviewMetrics)
    (st : nat * list ReviewMetrics) :
  Forall (fun m => RM_ID m = 0) (pre ++ m :: post) -> RM_CreatedAt m = zero_Time ->
  NoDup (RM_ID <$> snd st) ->
  metric_key m ∉ metric_key <$> snd st ->
  metric_key m ∉ metric_key <$> pre -> metric_key m ∉ metric_key <$> post ->
  exists n, (fst st <= n)%nat
            /\ stored_stamp m (snd (run_ops wall (pre ++ m :: post) st)) = Some (wall n).
Proof.
  intros Hops Hz Hnd Hst Hpre Hpost.
  apply Forall_app in Hops as [Hids_pre Hops]. apply Forall_cons in Hops as [Hid Hids_post].
  rewrite run_ops_app.
  set (st1 := run_ops wall pre st).
  assert (NoDup (RM_ID <$> snd st1)) as Hnd1 by (apply run_ops_ids; assumption).
  assert (metric_key m ∉ metric_key <$> snd st1) as Hst1.
  { unfold st1. rewrite run_ops_key_in by assumption. tauto. }
  exists (fst st1). split; [apply run_ops_tick|].
  change (run_ops wall (m :: post) st1) with (run_ops wall post (upsert_step wall st1 m)).
  unfold stored_stamp. rewrite run_ops_other; [|exact Hids_post| |exact Hpost].
  - apply stored_stamp_create; assumption.
  - apply upsert_step_ids; assumption.
Qed.

(** ** The daily aggregation as a batch of [CreateOrUpdate] calls *)

Lemma world_of_eta (w : World) : world_of w (w_tick w, metrics_rows w) = w.
Proof. destruct w as [wall tick db]. destruct db. reflexivity. Qed.

Lemma world_of_world_of (w : World) (st st' : nat * list ReviewMetrics) :
  world_of (world_of w st) st' = world_of w st'.
Proof. reflexivity. Qed.

Lemma bind_run {A B} (m : M A) (k : A -> M B) (w w' : World) (a : A) :
  m w = (a, w') -> bind m k w = k a w'.
Proof. unfold bind. intros ->. reflexivity. Qed.

(** [CreateOrUpdate] always succeeds, and is one step on the clock and the
    metrics table. *)
Lemma CreateOrUpdate_run (m : ReviewMetrics) (w : World) (st : nat * list ReviewMetrics) :
  CreateOrUpdate m (world_of w st) = (Ok tt, world_of w (upsert_step (w_wall w) st m)).
Proof.
  unfold CreateOrUpdate, upsert_step.
  rewrite (bind_run _ _ _ _ _ (eq_refl : query _ (world_of w st) = (_, world_of w st))).
  change (db_review_metrics (w_db (world_of w st))) with (snd st).
  destruct (First (same_key m) (snd st)); reflexivity.
Qed.

Lemma foldM_run {X} (F : unit -> X -> M unit) (h : X -> list ReviewMetrics)
    (l : list X) (w : World) (st : nat * list ReviewMetrics) :
  (forall x st, F tt x (world_of w st) = (tt, world_of w (run_ops (w_wall w) (h x) st))) ->
  foldM F tt l (world_of w st)
  = (tt, world_of w (run_ops (w_wall w) (concat (h <$> l)) st)).
Proof.
  intros HF. revert st. induction l as [|x l IH]; intros st; [reflexivity|].
  rewrite fmap_cons. simpl foldM. simpl concat. rewrite run_ops_app.
  rewrite (bind_run _ _ _ _ _ (HF x st)). apply IH.
Qed.

Lemma concat_singletons {X Y} (g : X -> Y) (l : list X) :
  concat ((fun x => [g x]) <$> l) = g <$> l.
Proof. induction l as [|x l IH]; [reflexivity|]. rewrite !fmap_cons. simpl. rewrite IH. reflexivity. Qed.

Lemma aggregateTeamMetrics_run (date : Time) (team : string) (reviews : list MRReview)
    (w : World) (st : nat * list ReviewMetrics) :
  aggregateTeamMetrics date team reviews (world_of w st)
  = (Ok tt, world_of w (upsert_step (w_wall w) st (team_metric (w_db w) date team reviews))).
Proof.
  unfold aggregateTeamMetrics.
  rewrite (bind_run _ _ _ _ _ (eq_refl : query _ (world_of w st) = (_, world_of w st))).
  apply CreateOrUpdate_run.
Qed.

Lemma aggregateUserMetrics_run (date : Time) (review : MRReview)
    (w : World) (st : nat * list ReviewMetrics) :
  aggregateUserMetrics date review (world_of w st)
  = (Ok tt,
     world_of w (run_ops (w_wall w)
                   (user_metric date review <$> GetAssignmentsByMRReviewID (w_db w) (MR_ID review))
                   st)).
Proof.
  unfold aggregateUserMetrics.
  rewrite (bind_run _ _ _ _ _ (eq_refl : query _ (world_of w st) = (_, world_of w st))).
  change (GetAssignmentsByMRReviewID (w_db (world_of w st)) (MR_ID review))
    with (GetAssignmentsByMRReviewID (w_db w) (MR_ID review)).
  erewrite bind_run; [reflexivity|].
  rewrite (foldM_run _ (fun a => [user_metric date review a])).
  - rewrite concat_singletons. reflexivity.
  - intros a st'. erewrite bind_run; [reflexivity|]. apply CreateOrUpdate_run.
Qed.

Lemma map_range_empty {order : MapRange} {V} : map_range (∅ : gmap string V) = [].
Proof. apply Permutation_nil_r. rewrite map_range_perm, map_to_list_empty. reflexivity. Qed.

(** [AggregateDaily] always succeeds, and is one batch of [CreateOrUpdate]
    calls on the clock and the metrics table: the team-level rows, then the
    user-level rows. *)
Lemma AggregateDaily_batch {order : MapRange} (date : Time) (loc : Z)
    (w : World) (st : nat * list ReviewMetrics) :
  AggregateDaily date loc (world_of w st)
  = (Ok tt, world_of w (run_ops (w_wall w) (daily_ops (w_db w) date loc) st)).
Proof.
  unfold AggregateDaily, daily_ops, daily_team_ops, daily_user_ops.
  set (sod := startOfDay date loc).
  rewrite (bind_run _ _ _ _ _ (eq_refl : query _ (world_of w st) = (_, world_of w st))).
  change (GetCompletedReviewsByDateRange (w_db (world_of w st)) sod (Add sod (24 * Hour)))
    with (GetCompletedReviewsByDateRange (w_db w) sod (Add sod (24 * Hour))).
  set (reviews := GetCompletedReviewsByDateRange (w_db w) sod (Add sod (24 * Hour))).
  destruct (length reviews =? 0)%nat eqn:Hlen.
  - apply Nat.eqb_eq, nil_length_inv in Hlen. rewrite Hlen.
    unfold team_ops, user_ops, group_by_team. simpl. rewrite map_range_empty. reflexivity.
  - erewrite bind_run.
    2:{ apply (foldM_run _ (fun p : string * list MRReview =>
                              [team_metric (w_db w) sod (fst p) (snd p)])).
        intros [team rs] st'. erewrite bind_run; [reflexivity|].
        apply aggregateTeamMetrics_run. }
    erewrite bind_run.
    2:{ apply (foldM_run _ (fun review =>
                              user_metric sod review
                                <$> GetAssignmentsByMRReviewID (w_db w) (MR_ID review))).
        intros review st'. erewrite bind_run; [reflexivity|].
        apply aggregateUserMetrics_run. }
    rewrite run_ops_app, concat_singletons. unfold ret. do 3 f_equal.
    unfold team_ops. f_equal. apply list_fmap_ext. intros _ [team rs] _. reflexivity.
Qed.

Lemma AggregateDaily_run {order : MapRange} (date : Time) (loc : Z) (w : World) :
  AggregateDaily date loc w
  = (Ok tt,
     world_of w (run_ops (w_wall w) (daily_ops (w_db w) date loc) (w_tick w, metrics_rows w))).
Proof. rewrite <- (world_of_eta w) at 1. apply AggregateDaily_batch. Qed.

(** ** The rows a run writes *)

Lemma team_ops_ids {order : MapRange} (db : DB) (date : Time) (reviews : list MRReview) :
  Forall (fun m => RM_ID m = 0) (team_ops db date reviews).
Proof.
  unfold team_ops. apply Forall_fmap, Forall_forall. intros [team rs] _. reflexivity.
Qed.

Lemma user_ops_ids (db : DB) (date : Time) (reviews : list MRReview) :
  Forall (fun m => RM_ID m = 0) (user_ops db date reviews).
Proof.
  unfold user_ops. apply Forall_concat, Forall_fmap, Forall_forall. intros review _.
  apply Forall_fmap, Forall_forall. intros a _. reflexivity.
Qed.

(** The structs the aggregator builds leave [CreatedAt] at its zero value. *)
Lemma team_ops_stamps {order : MapRange} (db : DB) (date : Time) (reviews : list MRReview) :
  Forall (fun m => RM_CreatedAt m = zero_Time) (team_ops db date reviews).
Proof.
  unfold team_ops. apply Forall_fmap, Forall_forall. intros [team rs] _. reflexivity.
Qed.

Lemma user_ops_stamps (db : DB) (date : Time) (reviews : list MRReview) :
  Forall (fun m => RM_CreatedAt m = zero_Time) (user_ops db date reviews).
Proof.
  unfold user_ops. apply Forall_concat, Forall_fmap, Forall_forall. intros review _.
  apply Forall_fmap, Forall_forall. intros a _. reflexivity.
Qed.

Lemma team_ops_no_user {order : MapRange} (db : DB) (date : Time) (reviews : list MRReview) :
  Forall (fun m => RM_UserID m = None) (team_ops db date reviews).
Proof.
  unfold team_ops. apply Forall_fmap, Forall_forall. intros [team rs] _. reflexivity.
Qed.

Lemma user_ops_user (db : DB) (date : Time) (reviews : list MRReview) :
  Forall (fun m => RM_UserID m <> None) (user_ops db date reviews).
Proof.
  unfold user_ops. apply Forall_concat, Forall_fmap, Forall_forall. intros review _.
  apply Forall_fmap, Forall_forall. intros a _. discriminate.
Qed.

(** Whatever the iteration order, the team-level rows of a run are the same
    rows, with pairwise distinct keys. *)
Lemma team_ops_perm (order1 order2 : MapRange) (db : DB) (date : Time) (reviews : list MRReview) :
  team_ops (order := order2) db date reviews ≡ₚ team_ops (order := order1) db date reviews.
Proof.
  unfold team_ops. apply fmap_Permutation.
  rewrite (map_range_perm (MapRange := order2)), (map_range_perm (MapRange := order1)).
  reflexivity.
Qed.

Lemma team_ops_keys_NoDup {order : MapRange} (db : DB) (date : Time) (reviews : list MRReview) :
  NoDup (metric_key <$> team_ops db date reviews).
Proof.
  unfold team_ops. rewrite <- list_fmap_compose.
  assert (NoDup (fst <$> map_range (group_by_team reviews))) as Hnd.
  { rewrite map_range_perm. apply NoDup_fst_map_to_list. }
  revert Hnd. generalize (map_range (group_by_team reviews)) as l.
  induction l as [|[team rs] l IH]; intros Hnd; [constructor|].
  rewrite fmap_cons in Hnd. apply NoDup_cons in Hnd as [Hteam Hnd].
  rewrite fmap_cons. apply NoDup_cons. split; [|apply IH, Hnd].
  intros Hin. apply Hteam. apply list_elem_of_fmap in Hin as ([team' rs'] & Hkey & Hin).
  apply list_elem_of_fmap. exists (team', rs'). split; [|exact Hin].
  simpl in Hkey. unfold metric_key in Hkey. simpl in Hkey. simpl. congruence.
Qed.

Lemma daily_ops_ids {order : MapRange} (db : DB) (date : Time) (loc : Z) :
  Forall (fun m => RM_ID m = 0) (daily_ops db date loc).
Proof. apply Forall_app. split; [apply team_ops_ids|apply user_ops_ids]. Qed.

Lemma daily_ops_stamps {order : MapRange} (db : DB) (date : Time) (loc : Z) :
  Forall (fun m => RM_CreatedAt m = zero_Time) (daily_ops db date loc).
Proof. apply Forall_app. split; [apply team_ops_stamps|apply user_ops_stamps]. Qed.

Lemma daily_ops_elem (order1 order2 : MapRange) (db : DB) (date : Time) (loc : Z)
    (m : ReviewMetrics) :
  m ∈ daily_ops (order := order1) db date loc -> m ∈ daily_ops (order := order2) db date loc.
Proof.
  unfold daily_ops, daily_team_ops. rewrite !elem_of_app. intros [Hm|Hm]; [left|right; exact Hm].
  rewrite (team_ops_perm order1 order2). exact Hm.
Qed.

(** A team-level row is written once in a run. *)
Lemma daily_ops_team_once {order : MapRange} (db : DB) (date : Time) (loc : Z)
    (m : ReviewMetrics) :
  m ∈ daily_team_ops db date loc ->
  exists pre post,
    daily_ops db date loc = pre ++ m :: post
    /\ (metric_key m ∉ metric_key <$> pre) /\ (metric_key m ∉ metric_key <$> post).
Proof.
  intros Hm. pose proof (team_ops_keys_NoDup db (startOfDay date loc)
    (GetCompletedReviewsByDateRange db (startOfDay date loc)
       (Add (startOfDay date loc) (24 * Hour)))) as Hnd.
  pose proof (team_ops_no_user db (startOfDay date loc)
    (GetCompletedReviewsByDateRange db (startOfDay date loc)
       (Add (startOfDay date loc) (24 * Hour)))) as Hteam.
  pose proof (user_ops_user db (startOfDay date loc)
    (GetCompletedReviewsByDateRange db (startOfDay date loc)
       (Add (startOfDay date loc) (24 * Hour)))) as Huser.
  unfold daily_ops, daily_user_ops. unfold daily_team_ops in *. cbv zeta in *.
  set (tops := team_ops _ _ _) in *. set (uops := user_ops _ _ _) in *.
  apply list_elem_of_split in Hm as (pre & post & Heq). rewrite Heq in Hnd, Hteam |- *.
  rewrite fmap_app, fmap_cons in Hnd. apply NoDup_app in Hnd as (_ & Hdisj & Hnd).
  apply NoDup_cons in Hnd as [Hpost _].
  exists pre, (post ++ uops). split; [rewrite <- app_assoc; reflexivity|]. split.
  - intros Hin. apply (Hdisj _ Hin). left.
  - rewrite fmap_app, elem_of_app. intros [Hin|Hin]; [exact (Hpost Hin)|].
    apply list_elem_of_fmap in Hin as (u & Hkey & Hu).
    rewrite Forall_forall in Huser. apply (Huser u Hu).
    apply Forall_app in Hteam as [_ Hteam]. apply Forall_cons in Hteam as [Hnone _].
    unfold metric_key in Hkey. congruence.
Qed.

(** On a table that already went through a run, a second run (whatever
    its iteration order over the teams) rewrites every row with the values
    it has, the creation stamps set aside. *)
Lemma second_batch_fixpoint (order1 order2 : MapRange) (db : DB) (date : Time) (loc : Z)
    (T0 : list ReviewMetrics) :
  apply_ops (daily_ops (order := order2) db date loc)
            (apply_ops (daily_ops (order := order1) db date loc) T0)
  = apply_ops (daily_ops (order := order1) db date loc) T0.
Proof.
  set (T1 := apply_ops (daily_ops (order := order1) db date loc) T0).
  assert (apply_ops (daily_ops (order := order2) db date loc) T1
          = apply_ops (daily_ops (order := order1) db date loc) T1) as ->.
  { unfold daily_ops, apply_ops. rewrite !fold_left_app. f_equal.
    apply apply_ops_perm.
    - apply team_ops_perm.
    - apply team_ops_keys_NoDup.
    - intros m Hm. apply apply_ops_op_key_in.
      apply elem_of_app. left. unfold daily_team_ops in *.
      rewrite <- (team_ops_perm order1 order2). exact Hm. }
  apply apply_ops_idempotent, daily_ops_ids.
Qed.

(** ** Two runs of the daily aggregation *)

(** The second run changes no column but [created_at], and adds no row. *)
Lemma second_run_other_columns (order1 order2 : MapRange) (date : Time) (loc : Z) (w : World) :
  NoDup (RM_ID <$> metrics_rows w) ->
  let once := snd (AggregateDaily (order := order1) date loc w) in
  let twice := snd (AggregateDaily (order := order2) date loc once) in
  unstamp <$> metrics_rows twice = unstamp <$> metrics_rows once.
Proof.
  intros Hnd once twice. subst twice once.
  rewrite (AggregateDaily_run (order := order1) date loc w). cbn [snd].
  rewrite (AggregateDaily_batch (order := order2)). cbn [snd].
  change (metrics_rows (world_of w ?st)) with (snd st).
  set (st0 := (w_tick w, metrics_rows w)).
  assert (NoDup (RM_ID <$> snd st0)) as Hnd0 by exact Hnd.
  rewrite !run_ops_unstamp;
    try apply daily_ops_ids; try exact Hnd0; try (apply run_ops_ids; [apply daily_ops_ids|exact Hnd0]).
  rewrite !fmap_unstamp_fixed by apply daily_ops_stamps.
  apply second_batch_fixpoint.
Qed.

(** After the second run, every row the run writes is stored with the zero
    time as its [created_at]. *)
Lemma second_run_zero_stamps (order1 order2 : MapRange) (date : Time) (loc : Z) (w : World)
    (m : ReviewMetrics) :
  NoDup (RM_ID <$> metrics_rows w) ->
  m ∈ daily_ops (order := order1) (w_db w) date loc ->
  let once := snd (AggregateDaily (order := order1) date loc w) in
  let twice := snd (AggregateDaily (order := order2) date loc once) in
  stored_stamp m (metrics_rows twice) = Some zero_Time.
Proof.
  intros Hnd Hm once twice. subst twice once.
  rewrite (AggregateDaily_run (order := order1) date loc w). cbn [snd].
  rewrite (AggregateDaily_batch (order := order2)). cbn [snd].
  change (metrics_rows (world_of w ?st)) with (snd st).
  set (st0 := (w_tick w, metrics_rows w)).
  assert (NoDup (RM_ID <$> snd st0)) as Hnd0 by exact Hnd.
  apply run_ops_rewritten.
  - apply daily_ops_ids.
  - apply daily_ops_stamps.
  - apply run_ops_ids; [apply daily_ops_ids|exact Hnd0].
  - apply (daily_ops_elem order1 order2), Hm.
  - apply run_ops_key_in; [apply daily_ops_ids|exact Hnd0|].
    left. apply list_elem_of_fmap_2, Hm.
Qed.

(** After the first run, a team-level row whose key the table did not hold
    is stored with a reading of the clock as its [created_at]. *)
Lemma first_run_clock_stamps {order : MapRange} (date : Time) (loc : Z) (w : World)
    (m : ReviewMetrics) :
  NoDup (RM_ID <$> metrics_rows w) ->
  m ∈ daily_team_ops (w_db w) date loc ->
  metric_key m ∉ metric_key <$> metrics_rows w ->
  exists n, (w_tick w <= n)%nat
            /\ stored_stamp m (metrics_rows (snd (AggregateDaily date loc w)))
               = Some (w_wall w n).
Proof.
  intros Hnd Hm Hfresh. rewrite AggregateDaily_run. cbn [snd].
  change (metrics_rows (world_of w ?st)) with (snd st).
  destruct (daily_ops_team_once (w_db w) date loc m Hm) as (pre & post & Heq & Hpre & Hpost).
  pose proof (daily_ops_ids (w_db w) date loc) as Hids.
  pose proof (daily_ops_stamps (w_db w) date loc) as Hz.
  rewrite Heq in Hids, Hz |- *.
  apply Forall_app in Hz as [_ Hz]. apply Forall_cons in Hz as [Hz _].
  apply (run_ops_created (w_wall w) pre post m (w_tick w, metrics_rows w)); assumption.
Qed.

(** C2.  Running [AggregateDaily] twice does not leave the rows the first
    run left.  [CreateOrUpdate] saves the struct it is given over the row
    it finds, after copying the ID of that row and nothing else into the
    struct; the aggregator builds a new struct at every run, whose
    [CreatedAt] is the zero time; the save writes every column.  So:
    - in the seed scenario (one merged review, two assignments, an empty
      metrics table) the first run stores three rows whose [created_at]
      are the three readings of the clock, and the second run leaves the
      same three rows with [created_at] reset to the zero time: the rows
      after two runs are not the rows after one;
    - in general, on a metrics table whose primary keys are pairwise
      distinct and for any two iteration orders of the team map, the
      second run changes no other column and adds no row (with
      [created_at] set aside the rows after two runs are the rows after
      one); every row it writes ends with the zero time as [created_at];
      and a team-level row that the first run created was stored with a
      reading of the clock, so that the two tables differ whenever the
      clock never reads the zero time. *)
Theorem C2_second_run_resets_created_at :
  (let date := Date 2025 1 15 12 0 0 0 UTC in
   let once := snd (AggregateDaily (order := canonical_range) date UTC scenario_world) in
   let twice := snd (AggregateDaily (order := canonical_range) date UTC once) in
   RM_CreatedAt <$> metrics_rows once
   = [Date 2025 1 16 2 0 0 0 UTC; Date 2025 1 16 2 0 1 0 UTC; Date 2025 1 16 2 0 2 0 UTC]
   /\ RM_CreatedAt <$> metrics_rows twice = [zero_Time; zero_Time; zero_Time]
   /\ metrics_rows twice <> metrics_rows once)
  /\ (forall (order1 order2 : MapRange) (date : Time) (loc : Z) (w : World),
        NoDup (RM_ID <$> metrics_rows w) ->
        let once := snd (AggregateDaily (order := order1) date loc w) in
        let twice := snd (AggregateDaily (order := order2) date loc once) in
        unstamp <$> metrics_rows twice = unstamp <$> metrics_rows once
        /\ (forall m, m ∈ daily_ops (order := order1) (w_db w) date loc ->
              stored_stamp m (metrics_rows twice) = Some zero_Time)
        /\ (forall m, m ∈ daily_team_ops (order := order1) (w_db w) date loc ->
              metric_key m ∉ metric_key <$> metrics_rows w ->
              (exists n, (w_tick w <= n)%nat
                         /\ stored_stamp m (metrics_rows once) = Some (w_wall w n))
              /\ ((forall n, w_wall w n <> zero_Time) ->
                  metrics_rows twice <> metrics_rows once))).
Proof.
  split.
  - cbv zeta. split; [vm_compute; reflexivity|]. split; [vm_compute; reflexivity|].
    intros Heq. apply (f_equal (fmap RM_CreatedAt)) in Heq. vm_compute in Heq. discriminate.
  - intros order1 order2 date loc w Hnd once twice. split; [|split].
    + apply second_run_other_columns, Hnd.
    + intros m Hm. apply (second_run_zero_stamps order1 order2); assumption.
    + intros m Hm Hfresh.
      destruct (first_run_clock_stamps (order := order1) date loc w m Hnd Hm Hfresh)
        as (n & Hn & Hstamp).
      split; [exists n; split; [exact Hn|exact Hstamp]|].
      intros Hclock Heq.
      assert (m ∈ daily_ops (order := order1) (w_db w) date loc) as Hm'
        by (apply elem_of_app; left; exact Hm).
      pose proof (second_run_zero_stamps order1 order2 date loc w m Hnd Hm') as Hzero.
      cbv zeta in Hzero. fold once in Hzero, Hstamp. fold twice in Hzero.
      rewrite Heq, Hstamp in Hzero. injection Hzero as Hzero. exact (Hclock n Hzero).
Qed.

Lemma C2_second_run_resets_created_at_witness :
  let date := Date 2025 1 15 12 0 0 0 UTC in
  let w := scenario_world in
  let once := snd (AggregateDaily (order := canonical_range) date UTC w) in
  let twice := snd (AggregateDaily (order := canonical_range) date UTC once) in
  unstamp <$> metrics_rows twice = unstamp <$> metrics_rows once
  /\ (forall m, m ∈ daily_ops (order := canonical_range) (w_db w) date UTC ->
        stored_stamp m (metrics_rows twice) = Some zero_Time)
  /\ (forall m, m ∈ daily_team_ops (order := canonical_range) (w_db w) date UTC ->
        metric_key m ∉ metric_key <$> metrics_rows w ->
        (exists n, (w_tick w <= n)%nat
                   /\ stored_stamp m (metrics_rows once) = Some (w_wall w n))
        /\ ((forall n, w_wall w n <> zero_Time) ->
            metrics_rows twice <> metrics_rows once)).
Proof.
  apply (proj2 C2_second_run_resets_created_at canonical_range canonical_range
           (Date 2025 1 15 12 0 0 0 UTC) UTC scenario_world).
  simpl. constructor.
Defined.

(** ** The seed scenario of the aggregator *)

Example scenario_rows :
  (fun m => (RM_ID m, RM_UserID m, RM_CompletedReviews m,
             RM_AvgTTFR m, RM_AvgCommentCount m, RM_AvgCommentLength m, RM_EngagementScore m))
    <$> metrics_rows
          (snd (AggregateDaily (order := canonical_range) (Date 2025 1 15 12 0 0 0 UTC) UTC
                  scenario_world))
  = [ (1, None, 1, Some 60, Some 8%float, Some 800%float, Some 88%float);
      (2, Some 1, 1, Some 30, Some 5%float, Some 500%float, Some 55%float);
      (3, Some 2, 1, Some 30, Some 3%float, Some 300%float, Some 33%float) ].
Proof. vm_compute. reflexivity. Qed.

(** The seed scenario "aggregator idempotence", run twice: no new row, the
    same IDs, the same values in every column but [created_at]. *)
Example scenario_run_twice :
  let date := Date 2025 1 15 12 0 0 0 UTC in
  let once := snd (AggregateDaily (order := canonical_range) date UTC scenario_world) in
  let twice := snd (AggregateDaily (order := canonical_range) date UTC once) in
  length (metrics_rows twice) = 3%nat
  /\ RM_ID <$> metrics_rows twice = [1; 2; 3]
  /\ w_tick once = 3%nat /\ w_tick twice = 3%nat.
Proof. vm_compute. repeat split; reflexivity. Qed.

(** The team-level row of the scenario averages per review, not per
    assignment: 8 and 800, not 4 and 400. *)
Lemma C1_team_average_counterexample :
  ~ (exists row,
       row ∈ db_review_metrics
               (w_db (snd (AggregateDaily (order := canonical_range)
                             (Date 2025 1 15 0 0 0 0 UTC) UTC scenario_world)))
       /\ RM_UserID row = None
       /\ RM_AvgCommentCount row = Some 4%float
       /\ RM_AvgCommentLength row = Some 400%float).
Proof.
  intros (row & Hin & Huser & Hcount & _). revert Hin. vm_compute. intros Hin.
  repeat (apply elem_of_cons in Hin as [->|Hin]); try discriminate Huser.
  - apply (f_equal (fun o => match o with Some x => (x =? 4)%float | None => false end))
      in Hcount.
    vm_compute in Hcount. discriminate.
  - inversion Hin.
Qed.

(** A [CreateOrUpdate] of a struct built by the aggregator, on a key the
    table does not hold: the row is appended under the next ID, stamped
    with the reading of the clock. *)
Lemma upsert_step_fresh (wall : nat -> Time) (st : nat * list ReviewMetrics)
    (m : ReviewMetrics) :
  metric_key m ∉ metric_key <$> snd st -> RM_ID m = 0 -> RM_CreatedAt m = zero_Time ->
  upsert_step wall st m
  = (S (fst st),
     snd st ++ [set_RM_ID (next_id (RM_ID <$> snd st)) (set_RM_CreatedAt (wall (fst st)) m)]).
Proof.
  intros Hkey Hid Hz. apply First_None in Hkey. unfold upsert_step. rewrite Hkey.
  unfold MetricsRepository_Create. rewrite (stamp_CreatedAt_zero _ m Hz).
  change (RM_ID (set_RM_CreatedAt (wall (fst st)) m)) with (RM_ID m). rewrite Hid. reflexivity.
Qed.

(** The comment totals and the count of merged reviews that one review
    adds to the team totals do not depend on its timestamps. *)
Lemma teamTotals_add_counts (db : DB) (t : teamTotals) (review : MRReview) :
  let sums :=
    fold_left
      (fun '(cc, cl) assignment =>
         (Go.int_add cc (RA_CommentCount assignment),
          Go.int_add cl (RA_CommentLength assignment)))
      (GetAssignmentsByMRReviewID db (MR_ID review))
      (team_totalCommentCount t, team_totalCommentLength t) in
  team_totalCommentCount (teamTotals_add db t review) = fst sums
  /\ team_totalCommentLength (teamTotals_add db t review) = snd sums
  /\ team_completedCount (teamTotals_add db t review)
     = if String.eqb (MR_Status review) MRStatusMerged
       then Go.int_add (team_completedCount t) 1 else team_completedCount t.
Proof.
  cbv zeta. unfold teamTotals_add.
  repeat match goal with
         | |- context [let '(_, _) := ?x in _] => destruct x
         end.
  simpl. auto.
Qed.

Lemma startOfDay_within (date day : Time) :
  day mod (24 * Hour) = 0 -> day <= date < day + 24 * Hour -> startOfDay date UTC = day.
Proof.
  intros Hmod Hdate. unfold startOfDay, UTC. rewrite Z.mul_0_l, Z.add_0_r, Z.sub_0_r.
  assert (0 < 24 * Hour) as Hpos by reflexivity.
  assert (day = 24 * Hour * (day / (24 * Hour))) as Hday.
  { rewrite (Z.div_mod day (24 * Hour)) at 1 by lia. lia. }
  assert (date / (24 * Hour) = day / (24 * Hour)) as ->.
  { symmetry. apply (Z.div_unique date (24 * Hour) _ (date - day)); lia. }
  lia.
Qed.

Lemma map_range_singleton {order : MapRange} {V} (k : string) (v : V) :
  map_range (<[k := v]> (∅ : gmap string V)) = [(k, v)].
Proof.
  apply Permutation_singleton_r. rewrite map_range_perm, insert_empty, map_to_list_singleton.
  reflexivity.
Qed.

(** The fields of the team-level row, in terms of the team totals. *)
Lemma team_metric_fields (db : DB) (date : Time) (team : string) (reviews : list MRReview) :
  let t := fold_left (teamTotals_add db) reviews (mkTeamTotals 0 0 0 0 0 0 0) in
  let len := Z.of_nat (length reviews) in
  let avgCount :=
    if len >? 0
    then (Go.float64_of_int (team_totalCommentCount t) / Go.float64_of_int len)%float
    else 0%float in
  let avgLength :=
    if len >? 0
    then (Go.float64_of_int (team_totalCommentLength t) / Go.float64_of_int len)%float
    else 0%float in
  metric_key (team_metric db date team reviews) = (date, team, None, None)
  /\ RM_TotalReviews (team_metric db date team reviews) = len
  /\ RM_CompletedReviews (team_metric db date team reviews) = team_completedCount t
  /\ RM_AvgCommentCount (team_metric db date team reviews) = Some avgCount
  /\ RM_AvgCommentLength (team_metric db date team reviews) = Some avgLength
  /\ RM_EngagementScore (team_metric db date team reviews)
     = Some (if len >? 0 then (avgCount * 10 + avgLength / 100)%float else 0%float).
Proof. cbv zeta. repeat split; reflexivity. Qed.

(** C1 (amended).  Running the daily aggregator for 2025-01-15 (UTC) over a
    store that holds exactly one review, merged on that day, with exactly
    two assignments (of two different users) whose comment counts are 5
    and 3 and whose comment lengths are 500 and 300, and an empty metrics
    table, produces exactly three rows: one team-level row (no user, no
    project) with total_reviews = 1, completed_reviews = 1,
    avg_comment_count = 8.0, avg_comment_length = 800.0 (the sums over the
    assignments divided by the number of reviews) and engagement_score =
    88.0; and two user-level rows, one per assignee, carrying that
    assignee's own counts. *)
Theorem C1_daily_aggregation_scenario {order : MapRange}
    (w : World) (review : MRReview) (a1 a2 : ReviewerAssignment) (date merged : Time) :
  let day := Date 2025 1 15 0 0 0 0 UTC in
  let db := w_db w in
  day <= date < day + 24 * Hour ->
  db_mr_reviews db = [review] ->
  db_reviewer_assignments db = [a1; a2] ->
  db_review_metrics db = [] ->
  MR_Status review = MRStatusMerged ->
  MR_MergedAt review = Some merged -> day <= merged <= day + 24 * Hour ->
  RA_MRReviewID a1 = MR_ID review -> RA_MRReviewID a2 = MR_ID review ->
  RA_CommentCount a1 = 5 -> RA_CommentLength a1 = 500 ->
  RA_CommentCount a2 = 3 -> RA_CommentLength a2 = 300 ->
  RA_UserID a1 <> RA_UserID a2 ->
  exists team_row row1 row2,
    db_review_metrics (w_db (snd (AggregateDaily date UTC w))) = [team_row; row1; row2]
    /\ metric_key team_row = (day, MR_Team review, None, None)
    /\ RM_TotalReviews team_row = 1
    /\ RM_CompletedReviews team_row = 1
    /\ RM_AvgCommentCount team_row = Some 8%float
    /\ RM_AvgCommentLength team_row = Some 800%float
    /\ RM_EngagementScore team_row = Some 88%float
    /\ metric_key row1
       = (day, MR_Team review, Some (RA_UserID a1), Some (MR_GitLabProjectID review))
    /\ RM_AvgCommentCount row1 = Some 5%float
    /\ RM_AvgCommentLength row1 = Some 500%float
    /\ RM_EngagementScore row1 = Some 55%float
    /\ metric_key row2
       = (day, MR_Team review, Some (RA_UserID a2), Some (MR_GitLabProjectID review))
    /\ RM_AvgCommentCount row2 = Some 3%float
    /\ RM_AvgCommentLength row2 = Some 300%float
    /\ RM_EngagementScore row2 = Some 33%float.
Proof.
  intros day db Hdate Hreviews Hassign Hmetrics Hstatus Hmerged Hwin Hid1 Hid2
         Hc1 Hl1 Hc2 Hl2 Husers.
  rewrite AggregateDaily_run. cbn [snd].
  change (db_review_metrics (w_db (world_of w ?st))) with (snd st).
  unfold daily_ops, daily_team_ops, daily_user_ops, metrics_rows. cbv zeta. fold db.
  rewrite (startOfDay_within date day) by (exact Hdate || reflexivity).
  assert (GetCompletedReviewsByDateRange db day (Add day (24 * Hour)) = [review]) as ->.
  { unfold GetCompletedReviewsByDateRange. rewrite Hreviews. simpl.
    rewrite Hmerged, Hstatus. simpl.
    unfold between, Add. destruct Hwin as [Hw1 Hw2].
    apply Z.leb_le in Hw1, Hw2. rewrite Hw1, Hw2. reflexivity. }
  rewrite Hmetrics.
  assert (team_ops db day [review] = [team_metric db day (MR_Team review) [review]]) as ->.
  { unfold team_ops, group_by_team. simpl fold_left. rewrite lookup_empty. simpl.
    rewrite map_range_singleton. reflexivity. }
  assert (GetAssignmentsByMRReviewID db (MR_ID review) = [a1; a2]) as Hget.
  { unfold GetAssignmentsByMRReviewID. rewrite Hassign. simpl.
    rewrite Hid1, Hid2, Z.eqb_refl. reflexivity. }
  assert (user_ops db day [review] = [user_metric day review a1; user_metric day review a2]) as ->.
  { unfold user_ops. simpl. rewrite Hget. reflexivity. }
  destruct (team_metric_fields db day (MR_Team review) [review])
    as (Hkey & Htotal & Hcompleted & Hcount & Hlength & Hscore).
  destruct (teamTotals_add_counts db (mkTeamTotals 0 0 0 0 0 0 0) review)
    as (Hcc & Hcl & Hdone).
  simpl fold_left in Hcompleted, Hcount, Hlength, Hscore.
  rewrite Hget in Hcc, Hcl. simpl in Hcc, Hcl. rewrite Hc1, Hc2 in Hcc. rewrite Hl1, Hl2 in Hcl.
  rewrite Hstatus in Hdone. simpl in Hdone.
  rewrite Hcc, Hcl in Hscore. rewrite Hcc in Hcount. rewrite Hcl in Hlength.
  rewrite Hdone in Hcompleted.
  set (tm := team_metric db day (MR_Team review) [review]) in *.
  set (u1 := user_metric day review a1).
  set (u2 := user_metric day review a2).
  assert (metric_key u1
          = (day, MR_Team review, Some (RA_UserID a1), Some (MR_GitLabProjectID review)))
    as Hk1 by reflexivity.
  assert (metric_key u2
          = (day, MR_Team review, Some (RA_UserID a2), Some (MR_GitLabProjectID review)))
    as Hk2 by reflexivity.
  set (wall := w_wall w). set (tick := w_tick w).
  set (r0 := set_RM_ID 1 (set_RM_CreatedAt (wall tick) tm)).
  set (r1 := set_RM_ID 2 (set_RM_CreatedAt (wall (S tick)) u1)).
  set (r2 := set_RM_ID 3 (set_RM_CreatedAt (wall (S (S tick))) u2)).
  assert (run_ops wall ([tm] ++ [u1; u2]) (tick, []) = (S (S (S tick)), [r0; r1; r2])) as ->.
  { change (run_ops wall ([tm] ++ [u1; u2]) (tick, []))
      with (upsert_step wall (upsert_step wall (upsert_step wall (tick, []) tm) u1) u2).
    rewrite (upsert_step_fresh wall (tick, []) tm); [|apply not_elem_of_nil|reflexivity|reflexivity].
    change (S (fst (tick, [])),
            snd (tick, []) ++ [set_RM_ID (next_id (RM_ID <$> snd (tick, [])))
                                 (set_RM_CreatedAt (wall (fst (tick, []))) tm)])
      with (S tick, [r0]).
    rewrite (upsert_step_fresh wall (S tick, [r0]) u1); [| |reflexivity|reflexivity].
    2:{ change (metric_key <$> snd (S tick, [r0])) with [metric_key tm].
        rewrite Hkey, Hk1, list_elem_of_singleton. discriminate. }
    change (S (fst (S tick, [r0])),
            snd (S tick, [r0]) ++ [set_RM_ID (next_id (RM_ID <$> snd (S tick, [r0])))
                                     (set_RM_CreatedAt (wall (fst (S tick, [r0]))) u1)])
      with (S (S tick), [r0; r1]).
    rewrite (upsert_step_fresh wall (S (S tick), [r0; r1]) u2); [reflexivity| |reflexivity|reflexivity].
    change (metric_key <$> snd (S (S tick), [r0; r1])) with [metric_key tm; metric_key u1].
    rewrite Hkey, Hk1, Hk2, !elem_of_cons, elem_of_nil.
    intros [?|[?|[]]]; congruence. }
  exists r0, r1, r2.
  split; [reflexivity|].
  change (metric_key r0) with (metric_key tm).
  change (metric_key r1) with (metric_key u1).
  change (metric_key r2) with (metric_key u2).
  change (RM_TotalReviews r0) with (RM_TotalReviews tm).
  change (RM_CompletedReviews r0) with (RM_CompletedReviews tm).
  change (RM_AvgCommentCount r0) with (RM_AvgCommentCount tm).
  change (RM_AvgCommentLength r0) with (RM_AvgCommentLength tm).
  change (RM_EngagementScore r0) with (RM_EngagementScore tm).
  rewrite Hkey, Htotal, Hcompleted, Hcount, Hlength, Hscore, Hk1, Hk2.
  change (RM_AvgCommentCount r1) with (Some (Go.float64_of_int (RA_CommentCount a1))).
  change (RM_AvgCommentLength r1) with (Some (Go.float64_of_int (RA_CommentLength a1))).
  change (RM_EngagementScore r1) with (Some (CalculateEngagementScore (Some a1))).
  change (RM_AvgCommentCount r2) with (Some (Go.float64_of_int (RA_CommentCount a2))).
  change (RM_AvgCommentLength r2) with (Some (Go.float64_of_int (RA_CommentLength a2))).
  change (RM_EngagementScore r2) with (Some (CalculateEngagementScore (Some a2))).
  unfold CalculateEngagementScore. rewrite Hc1, Hl1, Hc2, Hl2.
  repeat split; vm_compute; reflexivity.
Qed.

Lemma C1_daily_aggregation_scenario_witness :
  exists team_row row1 row2,
    db_review_metrics
      (w_db (snd (AggregateDaily (order := canonical_range) (Date 2025 1 15 12 0 0 0 UTC) UTC
                    scenario_world)))
    = [team_row; row1; row2]
    /\ metric_key team_row = (Date 2025 1 15 0 0 0 0 UTC, MR_Team scenario_review, None, None)
    /\ RM_TotalReviews team_row = 1
    /\ RM_CompletedReviews team_row = 1
    /\ RM_AvgCommentCount team_row = Some 8%float
    /\ RM_AvgCommentLength team_row = Some 800%float
    /\ RM_EngagementScore team_row = Some 88%float
    /\ metric_key row1
       = (Date 2025 1 15 0 0 0 0 UTC, MR_Team scenario_review,
          Some (RA_UserID (scenario_assignment 1 1 "codeowner" 5 500)),
          Some (MR_GitLabProjectID scenario_review))
    /\ RM_AvgCommentCount row1 = Some 5%float
    /\ RM_AvgCommentLength row1 = Some 500%float
    /\ RM_EngagementScore row1 = Some 55%float
    /\ metric_key row2
       = (Date 2025 1 15 0 0 0 0 UTC, MR_Team scenario_review,
          Some (RA_UserID (scenario_assignment 2 2 "team_member" 3 300)),
          Some (MR_GitLabProjectID scenario_review))
    /\ RM_AvgCommentCount row2 = Some 3%float
    /\ RM_AvgCommentLength row2 = Some 300%float
    /\ RM_EngagementScore row2 = Some 33%float.
Proof.
  apply (C1_daily_aggregation_scenario (order := canonical_range)
           scenario_world scenario_review
           (scenario_assignment 1 1 "codeowner" 5 500)
           (scenario_assignment 2 2 "team_member" 3 300)
           (Date 2025 1 15 12 0 0 0 UTC) (Date 2025 1 15 12 0 0 0 UTC));
    try reflexivity; try (vm_compute; split; congruence).
  simpl. lia.
Defined.

(** ** Leaderboard entries, ranks and user statistics *)

(** *** [ORDER BY date DESC] *)

Lemma elem_of_List_filter {A} (p : A -> bool) (l : list A) (x : A) :
  x ∈ List.filter p l <-> x ∈ l /\ p x = true.
Proof. rewrite !list_elem_of_In. apply filter_In. Qed.

Lemma insert_date_desc_perm (r : ReviewMetrics) (l : list ReviewMetrics) :
  insert_date_desc r l ≡ₚ r :: l.
Proof.
  induction l as [|x l IH]; simpl; [reflexivity|].
  destruct (RM_Date x <=? RM_Date r); [reflexivity|].
  rewrite IH. apply Permutation_swap.
Qed.

Lemma order_by_date_desc_perm (l : list ReviewMetrics) : order_by_date_desc l ≡ₚ l.
Proof.
  induction l as [|x l IH]; simpl; [reflexivity|].
  unfold order_by_date_desc in *. simpl. rewrite insert_date_desc_perm, IH. reflexivity.
Qed.

Lemma date_desc_cons (x : ReviewMetrics) (l : list ReviewMetrics) :
  date_desc (x :: l) <-> (forall y, y ∈ l -> RM_Date y <= RM_Date x) /\ date_desc l.
Proof.
  split.
  - intros H. split.
    + intros y Hy. apply list_elem_of_lookup in Hy as [j Hj].
      apply (H 0%nat (S j) x y); [reflexivity|exact Hj|lia].
    + intros i j a b Hi Hj Hlt. apply (H (S i) (S j) a b); [exact Hi|exact Hj|lia].
  - intros [Hhd Htl] i j a b Hi Hj Hlt.
    destruct i as [|i]; destruct j as [|j]; try lia; simpl in *.
    + injection Hi as <-. apply Hhd. eapply list_elem_of_lookup_2, Hj.
    + apply (Htl i j a b Hi Hj). lia.
Qed.

Lemma insert_date_desc_sorted (r : ReviewMetrics) (l : list ReviewMetrics) :
  date_desc l -> date_desc (insert_date_desc r l).
Proof.
  induction l as [|x l IH]; simpl; intros Hs.
  - apply date_desc_cons. split; [intros y Hy; inversion Hy|].
    intros i j a b Hi. destruct i; discriminate.
  - destruct (Z.leb_spec (RM_Date x) (RM_Date r)) as [Hle|Hgt].
    + apply date_desc_cons. split; [|exact Hs].
      apply date_desc_cons in Hs as [Hhd _].
      intros y Hy. apply elem_of_cons in Hy as [->|Hy]; [exact Hle|].
      specialize (Hhd y Hy). lia.
    + apply date_desc_cons in Hs as [Hhd Htl].
      apply date_desc_cons. split; [|apply IH, Htl].
      intros y Hy. rewrite insert_date_desc_perm in Hy.
      apply elem_of_cons in Hy as [->|Hy]; [lia|apply Hhd, Hy].
Qed.

Lemma order_by_date_desc_sorted (l : list ReviewMetrics) : date_desc (order_by_date_desc l).
Proof.
  induction l as [|x l IH]; simpl.
  - intros i j a b Hi. destruct i; discriminate.
  - unfold order_by_date_desc in *. simpl. apply insert_date_desc_sorted, IH.
Qed.

Lemma insert_date_desc_head (r : ReviewMetrics) (l : list ReviewMetrics) :
  (forall y, y ∈ l -> RM_Date y <= RM_Date r) -> insert_date_desc r l = r :: l.
Proof.
  destruct l as [|x l]; simpl; [reflexivity|]. intros H.
  destruct (Z.leb_spec (RM_Date x) (RM_Date r)) as [Hle|Hgt]; [reflexivity|].
  specialize (H x ltac:(left)). lia.
Qed.

Lemma filter_insert_date_desc (p : ReviewMetrics -> bool) (r : ReviewMetrics)
    (l : list ReviewMetrics) :
  date_desc l ->
  List.filter p (insert_date_desc r l)
  = if p r then insert_date_desc r (List.filter p l) else List.filter p l.
Proof.
  induction l as [|x l IH]; intros Hs.
  - simpl. destruct (p r); reflexivity.
  - apply date_desc_cons in Hs as [Hhd Htl]. simpl insert_date_desc.
    destruct (Z.leb_spec (RM_Date x) (RM_Date r)) as [Hle|Hgt].
    + change (List.filter p (r :: x :: l))
        with (if p r then r :: List.filter p (x :: l) else List.filter p (x :: l)).
      destruct (p r); [|reflexivity].
      symmetry. apply insert_date_desc_head. intros y Hy.
      apply elem_of_List_filter in Hy as [Hy _].
      apply elem_of_cons in Hy as [->|Hy]; [exact Hle|]. specialize (Hhd y Hy). lia.
    + simpl. rewrite (IH Htl). destruct (p x) eqn:Hx; destruct (p r) eqn:Hr; simpl;
        try reflexivity.
      destruct (Z.leb_spec (RM_Date x) (RM_Date r)); [lia|reflexivity].
Qed.

Lemma filter_order_by_date_desc (p : ReviewMetrics -> bool) (l : list ReviewMetrics) :
  List.filter p (order_by_date_desc l) = order_by_date_desc (List.filter p l).
Proof.
  induction l as [|x l IH]; [reflexivity|].
  change (order_by_date_desc (x :: l)) with (insert_date_desc x (order_by_date_desc l)).
  rewrite filter_insert_date_desc by apply order_by_date_desc_sorted.
  simpl. destruct (p x); rewrite IH; reflexivity.
Qed.

(** *** Grouping the rows by user *)

Lemma fold_by_user (metrics : list ReviewMetrics) (um : gmap Z aggregatedMetrics) (uid : Z) :
  fold_left
    (fun (userMetrics : gmap Z aggregatedMetrics) m =>
       match RM_UserID m with
       | None => userMetrics
       | Some userID =>
           let agg := default zero_agg (userMetrics !! userID) in
           <[userID := agg_add_row agg m]> userMetrics
       end) metrics um !! uid
  = match rows_of_user uid metrics with
    | [] => um !! uid
    | rows => Some (fold_left agg_add_row rows (default zero_agg (um !! uid)))
    end.
Proof.
  revert um. induction metrics as [|m ms IH]; intros um; [reflexivity|].
  simpl fold_left. rewrite IH. unfold rows_of_user. simpl List.filter.
  destruct (RM_UserID m) as [u|] eqn:Hu.
  - destruct (decide (u = uid)) as [->|Hne].
    + rewrite bool_decide_eq_true_2 by reflexivity.
      simpl. rewrite lookup_insert_eq. simpl.
      destruct (List.filter _ ms); reflexivity.
    + rewrite bool_decide_eq_false_2 by congruence.
      rewrite lookup_insert_ne by exact Hne. reflexivity.
  - rewrite bool_decide_eq_false_2 by congruence. reflexivity.
Qed.

Lemma aggregateMetricsByUser_lookup (metrics : list ReviewMetrics) (uid : Z) :
  leaderboard_aggregateMetricsByUser metrics !! uid
  = match rows_of_user uid metrics with
    | [] => None
    | rows => Some (agg_averages (fold_left agg_add_row rows zero_agg))
    end.
Proof.
  unfold leaderboard_aggregateMetricsByUser. rewrite lookup_fmap, fold_by_user.
  rewrite lookup_empty. destruct (rows_of_user uid metrics); reflexivity.
Qed.

(** *** From the aggregates to the entries *)

Lemma fold_left_snoc_omap {X Y} (g : X -> option Y) (l : list X) (acc : list Y) :
  fold_left (fun entries x => match g x with None => entries | Some e => entries ++ [e] end)
            l acc
  = acc ++ omap g l.
Proof.
  revert acc. induction l as [|x l IH]; intros acc; simpl; [rewrite app_nil_r; reflexivity|].
  rewrite IH. destruct (g x); [rewrite <- app_assoc|]; reflexivity.
Qed.

Lemma badgeCounts_lookup {V} (c : Z -> Z) (l : list (Z * V)) (bc : gmap Z Z) (uid : Z) :
  uid ∈ l.*1 ->
  fold_left (fun (bc : gmap Z Z) '(userID, _) => <[userID := c userID]> bc) l bc !! uid
  = Some (c uid).
Proof.
  revert bc. induction l as [|[u v] l IH]; intros bc Hin; [inversion Hin|].
  simpl in *. destruct (decide (uid ∈ l.*1)) as [Hl|Hl]; [apply IH, Hl|].
  apply elem_of_cons in Hin as [->|Hin]; [|contradiction].
  clear IH. revert bc. induction l as [|[u' v'] l IH]; intros bc; simpl.
  - apply lookup_insert_eq.
  - simpl in Hl. apply not_elem_of_cons in Hl as [Hne Hl].
    rewrite insert_insert_ne by congruence. apply IH, Hl.
Qed.

Lemma omap_ext_in {X Y} (g g' : X -> option Y) (l : list X) :
  (forall x, x ∈ l -> g x = g' x) -> omap g l = omap g' l.
Proof.
  induction l as [|x l IH]; intros H; [reflexivity|].
  change (match g x with Some y => y :: omap g l | None => omap g l end
          = match g' x with Some y => y :: omap g' l | None => omap g' l end).
  rewrite (H x) by left. rewrite IH; [reflexivity|]. intros y Hy. apply H. right. exact Hy.
Qed.

Lemma fold_left_pointwise {X Y} (f g : Y -> X -> Y) (l : list X) (acc : Y) :
  (forall acc x, f acc x = g acc x) -> fold_left f l acc = fold_left g l acc.
Proof.
  intros H. revert acc. induction l as [|x l IH]; intros acc; simpl; [reflexivity|].
  rewrite H. apply IH.
Qed.

Lemma build_entries_omap {order : MapRange} (db : DB) (userMetrics : gmap Z aggregatedMetrics) :
  build_entries db userMetrics
  = omap (fun '(userID, aggMetrics) =>
            entry_of db userID aggMetrics <$> UserRepository_GetByID db userID)
         (map_range userMetrics).
Proof.
  unfold build_entries.
  set (bc := fold_left _ (map_range userMetrics) ∅).
  transitivity
    (fold_left
       (fun entries x =>
          match (let '(userID, aggMetrics) := x in
                 (fun user =>
                    {| E_UserID := userID;
                       E_Username := User_Username user;
                       E_Team := User_Team user;
                       E_CompletedReviews := A_CompletedReviews aggMetrics;
                       E_AvgTTFR := A_AvgTTFR aggMetrics;
                       E_AvgCommentCount := A_AvgCommentCount aggMetrics;
                       E_EngagementScore := A_EngagementScore aggMetrics;
                       E_BadgeCount := default 0 (bc !! userID);
                       E_Rank := 0 |}) <$> UserRepository_GetByID db userID)
          with None => entries | Some e => entries ++ [e] end)
       (map_range userMetrics) []).
  { apply fold_left_pointwise. intros entries [userID aggMetrics].
    destruct (UserRepository_GetByID db userID); reflexivity. }
  rewrite fold_left_snoc_omap. simpl. apply omap_ext_in.
  intros [userID aggMetrics] Hin.
  assert (Hbc : bc !! userID = Some (GetUserBadgeCount db userID)).
  { apply badgeCounts_lookup. apply list_elem_of_fmap. exists (userID, aggMetrics).
    split; [reflexivity|exact Hin]. }
  rewrite Hbc. reflexivity.
Qed.

(** *** From the entries to the leaderboard *)

Lemma map_range_lookup {order : MapRange} {K} `{Countable K} {V} (m : gmap K V) (k : K) (v : V) :
  (k, v) ∈ map_range m <-> m !! k = Some v.
Proof. rewrite map_range_perm. apply elem_of_map_to_list. Qed.

Lemma map_range_NoDup {order : MapRange} {K} `{Countable K} {V} (m : gmap K V) :
  NoDup (map_range m).*1.
Proof. rewrite map_range_perm. apply NoDup_fst_map_to_list. Qed.

Lemma build_entries_elem {order : MapRange} (db : DB) (um : gmap Z aggregatedMetrics) (e : Entry) :
  e ∈ build_entries db um
  <-> exists agg user,
        um !! E_UserID e = Some agg
        /\ UserRepository_GetByID db (E_UserID e) = Some user
        /\ e = entry_of db (E_UserID e) agg user.
Proof.
  rewrite build_entries_omap, list_elem_of_omap. split.
  - intros ([uid agg] & Hin & He). apply map_range_lookup in Hin.
    destruct (UserRepository_GetByID db uid) as [user|] eqn:Hu; [|discriminate].
    simpl in He. injection He as <-. simpl. exists agg, user. auto.
  - intros (agg & user & Hum & Hu & He). exists (E_UserID e, agg). split.
    + apply map_range_lookup, Hum.
    + rewrite Hu. simpl. rewrite <- He. reflexivity.
Qed.

Lemma build_entries_NoDup {order : MapRange} (db : DB) (um : gmap Z aggregatedMetrics) :
  NoDup (E_UserID <$> build_entries db um).
Proof.
  rewrite build_entries_omap. pose proof (map_range_NoDup um) as Hnd.
  induction (map_range um) as [|[uid agg] l IH]; [constructor|].
  simpl in Hnd. apply NoDup_cons in Hnd as [Hnotin Hnd]. specialize (IH Hnd).
  change (NoDup (E_UserID <$>
            match entry_of db uid agg <$> UserRepository_GetByID db uid with
            | Some y => y :: omap (fun '(userID, aggMetrics) =>
                  entry_of db userID aggMetrics <$> UserRepository_GetByID db userID) l
            | None => omap (fun '(userID, aggMetrics) =>
                  entry_of db userID aggMetrics <$> UserRepository_GetByID db userID) l
            end)).
  destruct (UserRepository_GetByID db uid) as [user|]; simpl; [|exact IH].
  apply NoDup_cons. split; [|exact IH].
  intros Hin. apply Hnotin. apply list_elem_of_fmap in Hin as (e & He & Hin).
  apply list_elem_of_omap in Hin as ([uid' agg'] & Hin & Hg).
  destruct (UserRepository_GetByID db uid'); [|discriminate]. simpl in Hg.
  injection Hg as <-. simpl in He. subst uid'.
  apply list_elem_of_fmap. exists (uid, agg'). split; [reflexivity|exact Hin].
Qed.

Lemma assign_ranks_users (l : list Entry) : E_UserID <$> assign_ranks l = E_UserID <$> l.
Proof.
  apply list_eq. intros i. rewrite !list_lookup_fmap.
  destruct (l !! i) as [e0|] eqn:Hi.
  - assert (assign_ranks l !! i = Some (set_Rank (Z.of_nat i + 1) e0)) as ->.
    { apply assign_ranks_lookup. exists e0. auto. }
    reflexivity.
  - destruct (assign_ranks l !! i) as [e|] eqn:Hi'; [|reflexivity].
    apply assign_ranks_lookup in Hi' as (e0 & He0 & _). congruence.
Qed.

Lemma assign_ranks_elem (l : list Entry) (e : Entry) :
  e ∈ assign_ranks l -> exists e0, e0 ∈ l /\ e = set_Rank (E_Rank e) e0.
Proof.
  intros Hin. apply list_elem_of_lookup in Hin as [i Hi].
  apply assign_ranks_lookup in Hi as (e0 & He0 & ->). exists e0. split.
  - eapply list_elem_of_lookup_2, He0.
  - reflexivity.
Qed.

Lemma ranked_leaderboard_unfold {sorter : SliceSorter} {order : MapRange}
    (now : Time) (db : DB) (team period metric : string) :
  ranked_leaderboard now db team period metric
  = assign_ranks
      (sortLeaderboard
         (build_entries db (leaderboard_aggregateMetricsByUser (leaderboard_rows now db team period)))
         metric).
Proof.
  unfold ranked_leaderboard, getLeaderboard, leaderboard_rows.
  destruct (leaderboard_period.calculatePeriodRange now period) as [s e]. simpl.
  apply apply_limit_zero.
Qed.

Lemma sortLeaderboard_perm {sorter : SliceSorter} (entries : list Entry) (metric : string) :
  sortLeaderboard entries metric ≡ₚ entries.
Proof. rewrite sortLeaderboard_less. apply sort_Slice_perm. Qed.

Lemma ranked_leaderboard_users {sorter : SliceSorter} {order : MapRange}
    (now : Time) (db : DB) (team period metric : string) :
  E_UserID <$> ranked_leaderboard now db team period metric
  ≡ₚ E_UserID <$> build_entries db
        (leaderboard_aggregateMetricsByUser (leaderboard_rows now db team period)).
Proof.
  rewrite ranked_leaderboard_unfold, assign_ranks_users. apply fmap_Permutation.
  apply sortLeaderboard_perm.
Qed.

Lemma ranked_leaderboard_elem {sorter : SliceSorter} {order : MapRange}
    (now : Time) (db : DB) (team period metric : string) (e : Entry) :
  e ∈ ranked_leaderboard now db team period metric ->
  exists e0, e = set_Rank (E_Rank e) e0
    /\ e0 ∈ build_entries db
         (leaderboard_aggregateMetricsByUser (leaderboard_rows now db team period)).
Proof.
  rewrite ranked_leaderboard_unfold. intros Hin.
  apply assign_ranks_elem in Hin as (e0 & Hin & He). exists e0. split; [exact He|].
  rewrite sortLeaderboard_perm in Hin. exact Hin.
Qed.

Lemma getLeaderboard_elem {sorter : SliceSorter} {order : MapRange}
    (now : Time) (db : DB) (team period metric : string) (limit : Z) (e : Entry) :
  e ∈ getLeaderboard now db team period metric limit ->
  e ∈ ranked_leaderboard now db team period metric.
Proof.
  rewrite getLeaderboard_limit. intros Hin. apply list_elem_of_lookup in Hin as [i Hi].
  apply apply_limit_lookup in Hi. eapply list_elem_of_lookup_2, Hi.
Qed.

Lemma E_UserID_set_Rank (r : Z) (e : Entry) : E_UserID (set_Rank r e) = E_UserID e.
Proof. reflexivity. Qed.

(** Whatever the team, period, metric and limit, no user appears twice on
    a leaderboard, and every entry belongs to a user the store holds: it
    carries that user's name and team, and the user's badge count. *)
Theorem leaderboard_entries_wellformed {sorter : SliceSorter} {order : MapRange}
    (now : Time) (db : DB) (team period metric : string) (limit : Z) :
  let res := getLeaderboard now db team period metric limit in
  NoDup (E_UserID <$> res)
  /\ forall e, e ∈ res ->
       exists user,
         UserRepository_GetByID db (E_UserID e) = Some user
         /\ E_Username e = User_Username user
         /\ E_Team e = User_Team user
         /\ E_BadgeCount e = GetUserBadgeCount db (E_UserID e).
Proof.
  simpl. split.
  - rewrite getLeaderboard_limit, apply_limit_take.
    assert (Hfull : NoDup (E_UserID <$> ranked_leaderboard now db team period metric)).
    { rewrite ranked_leaderboard_users. apply build_entries_NoDup. }
    destruct (limit >? 0); [|exact Hfull].
    rewrite fmap_take. eapply sublist_NoDup; [exact Hfull|apply sublist_take].
  - intros e Hin. apply getLeaderboard_elem, ranked_leaderboard_elem in Hin as (e0 & He & Hin).
    apply build_entries_elem in Hin as (agg & user & _ & Hu & He0).
    exists user. rewrite He, He0. simpl. auto.
Qed.

Lemma order_by_date_desc_elem (l : list ReviewMetrics) (m : ReviewMetrics) :
  m ∈ order_by_date_desc l <-> m ∈ l.
Proof. rewrite order_by_date_desc_perm. reflexivity. Qed.

Lemma leaderboard_rows_elem (now : Time) (db : DB) (team period : string) (m : ReviewMetrics) :
  m ∈ leaderboard_rows now db team period
  <-> m ∈ db_review_metrics db
      /\ fst (leaderboard_period.calculatePeriodRange now period) <= RM_Date m
         <= snd (leaderboard_period.calculatePeriodRange now period)
      /\ (team = "" \/ RM_Team m = team).
Proof.
  unfold leaderboard_rows, GetByDateRange.
  set (s := fst _). set (e := snd _).
  rewrite order_by_date_desc_elem.
  destruct (String.eqb_spec team "") as [->|Hne]; simpl.
  - rewrite elem_of_List_filter. unfold between. rewrite andb_true_iff, !Z.leb_le. tauto.
  - destruct (String.eqb_spec team "") as [|_]; [contradiction|]. simpl.
    rewrite !elem_of_List_filter. unfold between. rewrite andb_true_iff, !Z.leb_le.
    destruct (String.eqb_spec (RM_Team m) team); split; intros; try tauto; try intuition congruence.
Qed.

Lemma rows_of_user_nonempty (uid : Z) (rows : list ReviewMetrics) :
  rows_of_user uid rows <> [] <-> exists m, m ∈ rows /\ RM_UserID m = Some uid.
Proof.
  unfold rows_of_user. split.
  - intros Hne. destruct (List.filter _ rows) as [|m l] eqn:Hf; [contradiction|].
    assert (Hin : m ∈ List.filter (fun m => bool_decide (RM_UserID m = Some uid)) rows)
      by (rewrite Hf; left).
    apply elem_of_List_filter in Hin as [Hin Hp]. apply bool_decide_eq_true in Hp.
    exists m. auto.
  - intros (m & Hin & Hu) Hnil.
    assert (Hin' : m ∈ List.filter (fun m => bool_decide (RM_UserID m = Some uid)) rows).
    { apply elem_of_List_filter. split; [exact Hin|]. apply bool_decide_eq_true, Hu. }
    rewrite Hnil in Hin'. inversion Hin'.
Qed.

Lemma ranked_leaderboard_member {sorter : SliceSorter} {order : MapRange}
    (now : Time) (db : DB) (team period metric : string) (uid : Z) :
  uid ∈ E_UserID <$> ranked_leaderboard now db team period metric
  <-> on_leaderboard now db team period uid.
Proof.
  rewrite ranked_leaderboard_users, list_elem_of_fmap. unfold on_leaderboard. split.
  - intros (e & -> & Hin). apply build_entries_elem in Hin as (agg & user & Hagg & Hu & _).
    split; [eexists; exact Hu|].
    rewrite aggregateMetricsByUser_lookup in Hagg.
    assert (Hne : rows_of_user (E_UserID e) (leaderboard_rows now db team period) <> []).
    { intros Hnil. rewrite Hnil in Hagg. discriminate. }
    apply rows_of_user_nonempty in Hne as (m & Hin & Hm).
    apply leaderboard_rows_elem in Hin as (Hin & Hd & Ht). exists m. auto.
  - intros ([user Hu] & m & Hin & Hm & Hd & Ht).
    assert (Hne : rows_of_user uid (leaderboard_rows now db team period) <> []).
    { apply rows_of_user_nonempty. exists m. split; [|exact Hm].
      apply leaderboard_rows_elem. auto. }
    pose proof (aggregateMetricsByUser_lookup (leaderboard_rows now db team period) uid) as Hagg.
    destruct (rows_of_user uid (leaderboard_rows now db team period)) as [|r rs] eqn:Hrows;
      [contradiction|].
    eexists (entry_of db uid _ user). split; [reflexivity|].
    apply build_entries_elem. simpl. eexists _, user. split; [exact Hagg|]. split; [exact Hu|].
    reflexivity.
Qed.

Lemma find_user_None (uid : Z) (l : list Entry) :
  List.find (fun e => E_UserID e =? uid) l = None <-> uid ∉ E_UserID <$> l.
Proof.
  split.
  - intros Hnone Hin. apply list_elem_of_fmap in Hin as (e & -> & Hin).
    apply list_elem_of_In in Hin.
    pose proof (find_none _ _ Hnone e Hin) as H. simpl in H.
    rewrite Z.eqb_refl in H. discriminate.
  - intros Hnotin. destruct (List.find _ l) as [e|] eqn:Hf; [|reflexivity].
    apply find_some in Hf as [Hin Hp]. exfalso. apply Hnotin.
    apply Z.eqb_eq in Hp.
    apply list_elem_of_fmap. exists e. split; [congruence|apply list_elem_of_In, Hin].
Qed.

Lemma getUserTeamRank_None {sorter : SliceSorter} {order : MapRange}
    (now : Time) (db : DB) (uid : Z) (team period metric : string) :
  getUserTeamRank now db uid team period metric = None
  <-> ~ on_leaderboard now db team period uid.
Proof.
  unfold getUserTeamRank, GetTeamLeaderboard.
  rewrite <- (ranked_leaderboard_member now db team period metric), <- find_user_None.
  unfold ranked_leaderboard.
  destruct (List.find _ _); simpl; split; congruence.
Qed.

Lemma getUserTeamRank_Some {sorter : SliceSorter} {order : MapRange}
    (now : Time) (db : DB) (uid : Z) (team period metric : string) (r : Z) :
  getUserTeamRank now db uid team period metric = Some r ->
  exists (i : nat) e,
    getLeaderboard now db team period metric 0 !! i = Some e
    /\ E_UserID e = uid /\ E_Rank e = r /\ r = Z.of_nat i + 1.
Proof.
  unfold getUserTeamRank, GetTeamLeaderboard. intros Hr.
  destruct (List.find _ _) as [e|] eqn:Hf; [|discriminate]. simpl in Hr. injection Hr as <-.
  apply find_some in Hf as [Hin Hp]. apply Z.eqb_eq in Hp.
  apply list_elem_of_In, list_elem_of_lookup in Hin as [i Hi].
  pose proof (ranked_leaderboard_rank now db team period metric i e Hi) as Hrank.
  exists i, e. auto.
Qed.

Lemma on_leaderboard_global (now : Time) (db : DB) (team period : string) (uid : Z) :
  on_leaderboard now db team period uid -> on_leaderboard now db "" period uid.
Proof.
  intros (Hu & m & Hin & Hm & Hd & _). split; [exact Hu|]. exists m. auto.
Qed.

Lemma on_leaderboard_dec {sorter : SliceSorter} {order : MapRange}
    (now : Time) (db : DB) (team period : string) (uid : Z) :
  on_leaderboard now db team period uid \/ ~ on_leaderboard now db team period uid.
Proof.
  rewrite <- (ranked_leaderboard_member now db team period "" uid).
  destruct (decide (uid ∈ E_UserID <$> ranked_leaderboard now db team period "")); auto.
Qed.

(** A user is on the untruncated team leaderboard exactly when the store
    holds the user and a metrics row of the user in the period (of the
    team, when one is given).  [getUserTeamRank] fails exactly for the
    users that are not on it, and a rank it returns is the 1-based position
    of the user's entry.  [GetUserRank] is [getUserTeamRank] for the empty
    team, and whoever has a rank in a team has a global rank. *)
Theorem team_rank_is_position {sorter : SliceSorter} {order : MapRange}
    (now : Time) (db : DB) (uid : Z) (team period metric : string) :
  let board := GetTeamLeaderboard now db team period metric 0 in
  (uid ∈ E_UserID <$> board <-> on_leaderboard now db team period uid)
  /\ (getUserTeamRank now db uid team period metric = None
      <-> ~ on_leaderboard now db team period uid)
  /\ (forall r, getUserTeamRank now db uid team period metric = Some r ->
        1 <= r <= Z.of_nat (length board)
        /\ exists e, board !! Z.to_nat (r - 1) = Some e /\ E_UserID e = uid /\ E_Rank e = r)
  /\ GetUserRank now db uid period metric = getUserTeamRank now db uid "" period metric
  /\ (is_Some (getUserTeamRank now db uid team period metric) ->
      is_Some (GetUserRank now db uid period metric)).
Proof.
  simpl. split; [apply ranked_leaderboard_member|]. split; [apply getUserTeamRank_None|].
  split; [|split; [reflexivity|]].
  - intros r Hr. apply getUserTeamRank_Some in Hr as (i & e & Hi & Hu & Hr & ->).
    pose proof (lookup_lt_Some _ _ _ Hi) as Hlt. unfold GetTeamLeaderboard.
    split; [lia|]. exists e. replace (Z.to_nat (Z.of_nat i + 1 - 1)) with i by lia. auto.
  - intros [r Hr].
    change (GetUserRank now db uid period metric)
      with (getUserTeamRank now db uid "" period metric).
    destruct (getUserTeamRank now db uid "" period metric) as [r'|] eqn:Hg;
      [eexists; reflexivity|].
    exfalso. apply getUserTeamRank_None in Hg. apply Hg.
    destruct (on_leaderboard_dec now db team period uid) as [H|H].
    + eapply on_leaderboard_global, H.
    + apply (getUserTeamRank_None now db uid team period metric) in H. congruence.
Qed.

(** *** The same figures on the leaderboard, in the evaluator and in the statistics *)

Lemma List_filter_filter {A} (p q : A -> bool) (l : list A) :
  List.filter p (List.filter q l) = List.filter (fun x => q x && p x) l.
Proof.
  induction l as [|x l IH]; [reflexivity|]. simpl.
  destruct (q x); simpl; [destruct (p x)|]; rewrite IH; reflexivity.
Qed.

Lemma rows_of_user_global (now : Time) (db : DB) (period : string) (uid : Z) :
  rows_of_user uid (leaderboard_rows now db "" period)
  = GetMetricsByUser db uid (fst (leaderboard_period.calculatePeriodRange now period))
                     (snd (leaderboard_period.calculatePeriodRange now period)).
Proof.
  unfold rows_of_user, leaderboard_rows, GetByDateRange, GetMetricsByUser. simpl.
  rewrite filter_order_by_date_desc, List_filter_filter. f_equal.
  apply filter_ext. intros m. apply andb_comm.
Qed.

Lemma int_add_small (a b : Z) :
  Go.min_int <= a + b <= Go.max_int -> Go.int_add a b = a + b.
Proof.
  unfold Go.int_add, Go.wrap_int, Go.min_int, Go.max_int. intros H.
  rewrite Z.mod_small by lia. lia.
Qed.

Lemma agg_count (rows : list ReviewMetrics) (a : aggregatedMetrics) :
  0 <= A_MetricsCount a ->
  A_MetricsCount a + Z.of_nat (length rows) <= Go.max_int ->
  A_MetricsCount (fold_left agg_add_row rows a) = A_MetricsCount a + Z.of_nat (length rows).
Proof.
  revert a. induction rows as [|m rows IH]; intros a H0 Hmax; simpl fold_left.
  - simpl. lia.
  - assert (Hstep : A_MetricsCount (agg_add_row a m) = A_MetricsCount a + 1).
    { simpl. apply int_add_small. unfold Go.min_int, Go.max_int in *.
      simpl length in Hmax. lia. }
    rewrite IH; rewrite Hstep; simpl length in *; lia.
Qed.

(** The evaluator's totals and the leaderboard's run over the same rows in
    step. *)
Lemma agg_userTotals (rows : list ReviewMetrics) (a : aggregatedMetrics) (t : userTotals) :
  A_CompletedReviews a = totalCompletedReviews t ->
  A_TotalTTFR a = totalTTFR t ->
  A_TotalCommentCount a = totalCommentCount t ->
  A_TotalEngagementScore a = totalEngagementScore t ->
  A_MetricsCount a = metricsCount t ->
  let a' := fold_left agg_add_row rows a in
  let t' := fold_left userTotals_add rows t in
  A_CompletedReviews a' = totalCompletedReviews t'
  /\ A_TotalTTFR a' = totalTTFR t'
  /\ A_TotalCommentCount a' = totalCommentCount t'
  /\ A_TotalEngagementScore a' = totalEngagementScore t'
  /\ A_MetricsCount a' = metricsCount t'.
Proof.
  revert a t. induction rows as [|m rows IH]; intros a t H1 H2 H3 H4 H5; simpl; [auto|].
  apply IH; simpl; rewrite ?H1, ?H2, ?H3, ?H4, ?H5; reflexivity.
Qed.


Lemma GetMetricsByUser_length (db : DB) (uid : Z) (s e : Time) :
  (length (GetMetricsByUser db uid s e) <= length (db_review_metrics db))%nat.
Proof.
  unfold GetMetricsByUser. rewrite order_by_date_desc_perm. apply length_filter_le.
Qed.

(** What a global-leaderboard entry holds, in terms of the user's rows. *)
Lemma global_entry_values {sorter : SliceSorter} {order : MapRange}
    (now : Time) (db : DB) (period metric : string) (limit : Z) (e : Entry) :
  e ∈ GetGlobalLeaderboard now db period metric limit ->
  let rows := GetMetricsByUser db (E_UserID e)
                (fst (leaderboard_period.calculatePeriodRange now period))
                (snd (leaderboard_period.calculatePeriodRange now period)) in
  let agg := agg_averages (fold_left agg_add_row rows zero_agg) in
  rows <> []
  /\ E_CompletedReviews e = A_CompletedReviews agg
  /\ E_AvgTTFR e = A_AvgTTFR agg
  /\ E_AvgCommentCount e = A_AvgCommentCount agg
  /\ E_EngagementScore e = A_EngagementScore agg.
Proof.
  intros Hin. apply getLeaderboard_elem, ranked_leaderboard_elem in Hin as (e0 & He & Hin).
  apply build_entries_elem in Hin as (agg & user & Hagg & _ & He0).
  rewrite aggregateMetricsByUser_lookup, rows_of_user_global in Hagg.
  assert (Huid : E_UserID e = E_UserID e0) by (rewrite He; reflexivity).
  simpl. rewrite Huid.
  destruct (GetMetricsByUser db (E_UserID e0) _ _) as [|r rs] eqn:Hrows; [discriminate|].
  injection Hagg as <-. split; [discriminate|].
  rewrite He, He0. simpl. auto.
Qed.

Lemma calculatePeriodRange_same (now : Time) (period : string) :
  badges_period.calculatePeriodRange now period
  = leaderboard_period.calculatePeriodRange now period.
Proof. reflexivity. Qed.

(** For every entry of a global leaderboard, the badge evaluator's
    [aggregateUserMetrics] over the same period reports the figures the
    entry shows: completed reviews, average TTFR, average comment count
    and engagement score.  (The number of metrics rows fits in an [int],
    as the length of a Go slice does.) *)
Theorem leaderboard_agrees_with_evaluator {sorter : SliceSorter} {order : MapRange}
    (now : Time) (db : DB) (period metric : string) (limit : Z) (e : Entry) :
  Z.of_nat (length (db_review_metrics db)) <= Go.max_int ->
  e ∈ GetGlobalLeaderboard now db period metric limit ->
  let window := badges_period.calculatePeriodRange now period in
  let metrics := badges_aggregateUserMetrics db (E_UserID e) (fst window) (snd window) in
  metrics !! "completed_reviews" = Some (Go.float64_of_int (E_CompletedReviews e))
  /\ metrics !! "avg_ttfr" = Some (E_AvgTTFR e)
  /\ metrics !! "avg_comment_count" = Some (E_AvgCommentCount e)
  /\ metrics !! "engagement_score" = Some (E_EngagementScore e).
Proof.
  intros Hmax Hin. cbv zeta. rewrite calculatePeriodRange_same.
  apply global_entry_values in Hin as (Hne & Hc & Ht & Hcc & Hes).
  set (s := fst _) in *. set (en := snd _) in *.
  pose proof (GetMetricsByUser_length db (E_UserID e) s en) as Hlen.
  unfold badges_aggregateUserMetrics.
  set (rows := GetMetricsByUser db (E_UserID e) s en) in *.
  destruct (agg_userTotals rows zero_agg (mkUserTotals 0 0 0 0 0 0)
              eq_refl eq_refl eq_refl eq_refl eq_refl) as (E1 & E2 & E3 & E4 & E5).
  pose proof (agg_count rows zero_agg ltac:(simpl; lia) ltac:(simpl; lia)) as Hcount.
  simpl in Hcount.
  set (a := fold_left agg_add_row rows zero_agg) in *.
  set (t := fold_left userTotals_add rows _) in *.
  assert (Hpos : (0 < length rows)%nat) by (destruct rows; [contradiction|simpl; lia]).
  destruct (Nat.eqb_spec (length rows) 0) as [|_]; [lia|].
  assert (Ht0 : (metricsCount t >? 0) = true) by (rewrite <- E5, Hcount; lia).
  assert (Ha0 : (A_MetricsCount a >? 0) = true) by (rewrite Hcount; lia).
  rewrite Ht0. unfold agg_averages in *. rewrite Ha0 in *. simpl in Hc, Ht, Hcc, Hes.
  rewrite Hc, Ht, Hcc, Hes, E1, E2, E3, E4, E5.
  split; [|split; [|split]].
  - rewrite lookup_insert_ne by discriminate. apply lookup_insert_eq.
  - do 5 (rewrite lookup_insert_ne by discriminate). apply lookup_insert_eq.
  - do 4 (rewrite lookup_insert_ne by discriminate). apply lookup_insert_eq.
  - do 2 (rewrite lookup_insert_ne by discriminate). apply lookup_insert_eq.
Qed.

(** *** [GetUserStats] *)

Lemma GetUserStats_unknown {sorter : SliceSorter} {order : MapRange}
    (w : World) (uid : Z) (period : string) :
  UserRepository_GetByID (w_db w) uid = None ->
  GetUserStats uid period w = (Err "failed to get user", w).
Proof. intros Hu. unfold GetUserStats, bind, query. rewrite Hu. reflexivity. Qed.

Lemma GetUserStats_known {sorter : SliceSorter} {order : MapRange}
    (w : World) (uid : Z) (period : string) (user : User) :
  UserRepository_GetByID (w_db w) uid = Some user ->
  let t := fold_left statsTotals_add (stats_rows w uid period) (mkStatsTotals 0 0 0 0 0 0 0) in
  let count := Go.float64_of_int (st_metricsCount t) in
  exists stats,
    GetUserStats uid period w = (Ok stats, tick (tick (tick w)))
    /\ US_UserID stats = uid
    /\ US_Username stats = User_Username user
    /\ US_Team stats = User_Team user
    /\ US_Period stats = period
    /\ US_TotalReviews stats = st_TotalReviews t
    /\ US_CompletedReviews stats = st_CompletedReviews t
    /\ US_AvgTTFR stats
       = (if st_metricsCount t >? 0 then (st_totalTTFR t / count)%float else 0%float)
    /\ US_AvgTimeToApproval stats
       = (if st_metricsCount t >? 0 then (st_totalTimeToApproval t / count)%float else 0%float)
    /\ US_AvgCommentCount stats
       = (if st_metricsCount t >? 0 then (st_totalCommentCount t / count)%float else 0%float)
    /\ US_EngagementScore stats
       = (if st_metricsCount t >? 0 then (st_totalEngagementScore t / count)%float else 0%float)
    /\ US_Badges stats
       = LUB_Badge <$> List.filter (fun ub => negb (Badge_ID (LUB_Badge ub) =? 0))
                                   (BadgeRepository_GetUserBadges (w_db w) uid)
    /\ US_GlobalRank stats
       = default 0 (GetUserRank (reading w 1) (w_db w) uid period "engagement_score")
    /\ US_TeamRank stats
       = default 0 (getUserTeamRank (reading w 2) (w_db w) uid (User_Team user) period
                                    "engagement_score").
Proof.
  intros Hu. cbv zeta. unfold GetUserStats, bind, query, stats_rows, reading.
  rewrite Hu. simpl.
  rewrite !Nat.add_0_r, !Nat.add_1_r, (Nat.add_comm (w_tick w) 2).
  destruct (leaderboard_period.calculatePeriodRange (w_wall w (w_tick w)) period) as [s e].
  simpl. eexists. split; [reflexivity|]. simpl. repeat split.
Qed.



Lemma preload_found {A} (key : A -> Z) (zero : A) (rows : list A) (id : Z) :
  key zero = 0 -> key (preload key zero rows id) <> 0 ->
  preload key zero rows id ∈ rows /\ key (preload key zero rows id) = id.
Proof.
  unfold preload, First. intros Hz Hne.
  destruct (List.find _ rows) as [r|] eqn:Hf; simpl in *; [|congruence].
  apply find_some in Hf as [Hin Hk]. apply Z.eqb_eq in Hk.
  split; [apply list_elem_of_In, Hin|exact Hk].
Qed.

Lemma order_by_desc_perm {A} (key : A -> Z) (l : list A) : order_by_desc key l ≡ₚ l.
Proof.
  induction l as [|x l IH]; [reflexivity|].
  change (order_by_desc key (x :: l)) with (insert_desc key x (order_by_desc key l)).
  transitivity (x :: order_by_desc key l); [|rewrite IH; reflexivity].
  generalize (order_by_desc key l). clear. intros l.
  induction l as [|y l IH]; simpl; [reflexivity|].
  destruct (key y <=? key x); [reflexivity|]. rewrite IH. apply Permutation_swap.
Qed.

Lemma statsTotals_nil_zero (w : World) (uid : Z) (period : string) :
  stats_rows w uid period = [] ->
  fold_left statsTotals_add (stats_rows w uid period) (mkStatsTotals 0 0 0 0 0 0 0)
  = mkStatsTotals 0 0 0 0 0 0 0.
Proof. intros ->. reflexivity. Qed.

Lemma default_rank_zero {sorter : SliceSorter} {order : MapRange}
    (now : Time) (db : DB) (uid : Z) (team period metric : string) :
  0 <= default 0 (getUserTeamRank now db uid team period metric)
  /\ (default 0 (getUserTeamRank now db uid team period metric) = 0
      <-> ~ on_leaderboard now db team period uid).
Proof.
  rewrite <- (getUserTeamRank_None now db uid team period metric).
  destruct (getUserTeamRank now db uid team period metric) as [r|] eqn:Hr; simpl.
  - apply getUserTeamRank_Some in Hr as (i & e & _ & _ & _ & ->).
    split; [lia|]. split; [lia|discriminate].
  - split; [lia|]. split; reflexivity.
Qed.

Lemma Count_pos {A} (p : A -> bool) (l : list A) (x : A) :
  x ∈ l -> p x = true -> 0 < Count p l.
Proof.
  intros Hin Hp. unfold Count.
  assert (Hin' : x ∈ List.filter p l) by (apply elem_of_List_filter; auto).
  destruct (List.filter p l); [inversion Hin'|]. cbn [length]. lia.
Qed.

Lemma HasUserEarnedBadge_of_row (db : DB) (ub : UserBadge) :
  ub ∈ db_user_badges db -> HasUserEarnedBadge db (UB_UserID ub) (UB_BadgeID ub) = true.
Proof.
  intros Hin. unfold HasUserEarnedBadge. apply Z.gtb_lt.
  apply (Count_pos _ _ ub Hin). rewrite !Z.eqb_refl. reflexivity.
Qed.

(** [GetUserStats] never writes to the store.  For an unknown user it
    fails without reading the clock.  For a known user it succeeds after
    three readings of the clock, with the user's name and team; a rank of
    0 stands for "not on the leaderboard", global or of the user's team;
    every badge listed is a badge of the store that the user has earned;
    a user with no row in the period has all totals and averages zero. *)
Theorem GetUserStats_outcome {sorter : SliceSorter} {order : MapRange}
    (w : World) (uid : Z) (period : string) :
  let out := GetUserStats uid period w in
  w_db (snd out) = w_db w
  /\ (UserRepository_GetByID (w_db w) uid = None -> out = (Err "failed to get user", w))
  /\ (forall user, UserRepository_GetByID (w_db w) uid = Some user ->
        exists stats,
          out = (Ok stats, tick (tick (tick w)))
          /\ US_UserID stats = uid
          /\ US_Username stats = User_Username user
          /\ US_Team stats = User_Team user
          /\ US_Period stats = period
          /\ 0 <= US_GlobalRank stats
          /\ (US_GlobalRank stats = 0
              <-> ~ on_leaderboard (reading w 1) (w_db w) "" period uid)
          /\ 0 <= US_TeamRank stats
          /\ (US_TeamRank stats = 0
              <-> ~ on_leaderboard (reading w 2) (w_db w) (User_Team user) period uid)
          /\ (forall b, b ∈ US_Badges stats ->
                b ∈ db_badges (w_db w) /\ Badge_ID b <> 0
                /\ HasUserEarnedBadge (w_db w) uid (Badge_ID b) = true)
          /\ (stats_rows w uid period = [] ->
                US_TotalReviews stats = 0 /\ US_CompletedReviews stats = 0
                /\ US_AvgTTFR stats = 0%float /\ US_AvgTimeToApproval stats = 0%float
                /\ US_AvgCommentCount stats = 0%float /\ US_EngagementScore stats = 0%float)).
Proof.
  cbv zeta. split; [|split].
  - destruct (UserRepository_GetByID (w_db w) uid) as [user|] eqn:Hu.
    + destruct (GetUserStats_known w uid period user Hu) as (stats & -> & _). reflexivity.
    + rewrite (GetUserStats_unknown w uid period Hu). reflexivity.
  - apply GetUserStats_unknown.
  - intros user Hu.
    destruct (GetUserStats_known w uid period user Hu)
      as (stats & Hrun & H1 & H2 & H3 & H4 & H5 & H6 & H7 & H8 & H9 & H10 & H11 & H12 & H13).
    exists stats. split; [exact Hrun|]. do 4 (split; [assumption|]).
    rewrite H12, H13.
    change (GetUserRank (reading w 1) (w_db w) uid period "engagement_score")
      with (getUserTeamRank (reading w 1) (w_db w) uid "" period "engagement_score").
    split; [apply default_rank_zero|]. split; [apply default_rank_zero|].
    split; [apply default_rank_zero|]. split; [apply default_rank_zero|].
    split.
    + intros b Hb. rewrite H11 in Hb. apply list_elem_of_fmap in Hb as (lub & -> & Hin).
      apply elem_of_List_filter in Hin as [Hin Hnz].
      apply negb_true_iff, Z.eqb_neq in Hnz.
      unfold BadgeRepository_GetUserBadges in Hin.
      apply list_elem_of_fmap in Hin as (ub & -> & Hin).
      rewrite order_by_desc_perm in Hin. apply elem_of_List_filter in Hin as [Hin Hub].
      apply Z.eqb_eq in Hub. simpl in *.
      destruct (preload_found Badge_ID zero_Badge (db_badges (w_db w)) (UB_BadgeID ub)
                  eq_refl Hnz) as [Hfound Hid].
      split; [exact Hfound|]. split; [exact Hnz|].
      rewrite Hid, <- Hub. apply HasUserEarnedBadge_of_row, Hin.
    + intros Hnil. rewrite H5, H6, H7, H8, H9, H10, (statsTotals_nil_zero w uid period Hnil).
      simpl. repeat split.
Qed.

Lemma leaderboard_agrees_with_evaluator_witness :
  let now := Date 2025 1 15 12 0 0 0 UTC in
  let db := w_db three_users_world in
  let window := badges_period.calculatePeriodRange now "all_time" in
  let metrics := badges_aggregateUserMetrics db (E_UserID bob_entry) (fst window) (snd window) in
  metrics !! "completed_reviews" = Some (Go.float64_of_int (E_CompletedReviews bob_entry))
  /\ metrics !! "avg_ttfr" = Some (E_AvgTTFR bob_entry)
  /\ metrics !! "avg_comment_count" = Some (E_AvgCommentCount bob_entry)
  /\ metrics !! "engagement_score" = Some (E_EngagementScore bob_entry).
Proof.
  intros now db.
  refine (leaderboard_agrees_with_evaluator (sorter := insertion_sorter) (order := canonical_range)
           now db "all_time" "avg_ttfr" 10 bob_entry _ _).
  - vm_compute. discriminate.
  - apply list_elem_of_In. vm_compute. left. reflexivity.
Defined.





(** ** More on [CreateOrUpdate] and [AggregateDaily] *)




Lemma run_ops_tick_le (wall : nat -> Time) (ops : list ReviewMetrics)
    (st : nat * list ReviewMetrics) :
  (fst (run_ops wall ops st) <= fst st + length ops)%nat.
Proof.
  revert st. induction ops as [|m ops IH]; intros st; [simpl; lia|].
  change (run_ops wall (m :: ops) st) with (run_ops wall ops (upsert_step wall st m)).
  etransitivity; [apply IH|]. simpl length.
  assert (fst (upsert_step wall st m) <= S (fst st))%nat; [|lia].
  unfold upsert_step. destruct (First (same_key m) (snd st)); simpl; lia.
Qed.

Lemma daily_ops_dates {order : MapRange} (db : DB) (date : Time) (loc : Z) :
  Forall (fun m => RM_Date m = startOfDay date loc) (daily_ops db date loc).
Proof.
  apply Forall_app. split.
  - unfold daily_team_ops, team_ops. cbv zeta.
    apply Forall_fmap, Forall_forall. intros [team rs] _. reflexivity.
  - unfold daily_user_ops, user_ops. cbv zeta.
    apply Forall_concat, Forall_fmap, Forall_forall. intros review _.
    apply Forall_fmap, Forall_forall. intros a _. reflexivity.
Qed.

(** What a run of [AggregateDaily] leaves alone.  The run always succeeds;
    it writes to no table but the metrics table; it reads the clock at
    most once per row it computes; on a day with no completed review it
    does nothing at all.  On a table whose primary keys are pairwise
    distinct it keeps them distinct, removes no key, adds only keys of the
    rows it computes, and leaves the row stored under a key of any other
    date as it is. *)
Theorem AggregateDaily_frame {order : MapRange} (date : Time) (loc : Z) (w : World) :
  let out := AggregateDaily date loc w in
  let sod := startOfDay date loc in
  fst out = Ok tt
  /\ w_wall (snd out) = w_wall w
  /\ set_review_metrics [] (w_db (snd out)) = set_review_metrics [] (w_db w)
  /\ (w_tick w <= w_tick (snd out) <= w_tick w + length (daily_ops (w_db w) date loc))%nat
  /\ (GetCompletedReviewsByDateRange (w_db w) sod (Add sod (24 * Hour)) = [] -> snd out = w)
  /\ (NoDup (RM_ID <$> metrics_rows w) ->
      NoDup (RM_ID <$> metrics_rows (snd out))
      /\ (forall k, k ∈ metric_key <$> metrics_rows (snd out)
                    <-> k ∈ metric_key <$> daily_ops (w_db w) date loc
                        \/ k ∈ metric_key <$> metrics_rows w)
      /\ (forall m, RM_Date m <> sod ->
            First (same_key m) (metrics_rows (snd out)) = First (same_key m) (metrics_rows w))).
Proof.
  intros out sod. subst out. rewrite AggregateDaily_run. cbn [fst snd].
  change (metrics_rows (world_of w ?s)) with (snd s).
  change (w_tick (world_of w ?s)) with (fst s).
  set (st := (w_tick w, metrics_rows w)).
  split; [reflexivity|]. split; [reflexivity|]. split; [reflexivity|].
  split; [split; [apply (run_ops_tick (w_wall w) _ st)|apply (run_ops_tick_le (w_wall w) _ st)]|].
  split.
  - intros Hnone. unfold daily_ops, daily_team_ops, daily_user_ops. cbv zeta. fold sod.
    rewrite Hnone. unfold team_ops, user_ops, group_by_team. simpl. rewrite map_range_empty.
    apply world_of_eta.
  - intros Hnd. assert (NoDup (RM_ID <$> snd st)) as Hnd' by exact Hnd.
    split; [apply run_ops_ids; [apply daily_ops_ids|exact Hnd']|].
    split; [intros k; apply run_ops_key_in; [apply daily_ops_ids|exact Hnd']|].
    intros m Hm. apply run_ops_other; [apply daily_ops_ids|exact Hnd'|].
    intros Hin. apply list_elem_of_fmap in Hin as (op & Hkey & Hop).
    pose proof (daily_ops_dates (w_db w) date loc) as Hdates.
    rewrite Forall_forall in Hdates. specialize (Hdates op Hop).
    unfold metric_key in Hkey. apply Hm. fold sod in Hdates. congruence.
Qed.

(** ** The lookups of out-of-office windows *)

Lemma find_head_filter {A} (p : A -> bool) (l : list A) :
  List.find p l = head (List.filter p l).
Proof. induction l as [|x l IH]; simpl; [reflexivity|]. destruct (p x); [reflexivity|exact IH]. Qed.

(** The three lookups of a user's active out-of-office windows agree, and
    all three take the window as closed: [GetActiveOOO] returns exactly the
    user's windows that contain the instant, ends included; [IsUserOOO]
    says whether there is one; [GetActiveByUserID] returns the first.  The
    windows they return that [OOOStatus.IsActive] does not hold active are
    those the instant is an end of. *)
Theorem OOO_lookups_agree (now : Time) (db : DB) (userID : Z) :
  (forall o, o ∈ GetActiveOOO now db userID
             <-> o ∈ db_ooo_status db /\ OOO_UserID o = userID
                 /\ OOO_StartDate o <= now <= OOO_EndDate o)
  /\ (IsUserOOO now db userID = true <-> GetActiveOOO now db userID <> [])
  /\ GetActiveByUserID now db userID = head (GetActiveOOO now db userID)
  /\ (forall o, o ∈ GetActiveOOO now db userID -> IsActive now o = false ->
        now = OOO_StartDate o \/ now = OOO_EndDate o).
Proof.
  assert (forall o, o ∈ GetActiveOOO now db userID
             <-> o ∈ db_ooo_status db /\ OOO_UserID o = userID
                 /\ OOO_StartDate o <= now <= OOO_EndDate o) as Hmem.
  { intros o. unfold GetActiveOOO. rewrite elem_of_List_filter, !andb_true_iff.
    rewrite Z.eqb_eq, Z.leb_le, Z.geb_le. tauto. }
  split; [exact Hmem|]. split; [|split].
  - unfold IsUserOOO, GetActiveOOO, Count. rewrite Z.gtb_lt.
    destruct (List.filter _ (db_ooo_status db)); simpl; split; intros H; try lia; congruence.
  - apply find_head_filter.
  - intros o Ho Hact. apply Hmem in Ho as (_ & _ & Hwin).
    destruct (decide (OOO_StartDate o < now < OOO_EndDate o)) as [Hin|Hout]; [|lia].
    apply IsActive_exclusive in Hin. congruence.
Qed.

(** ** Revoking a badge *)

Lemma Count_app {A} (p : A -> bool) (l l' : list A) : Count p (l ++ l') = Count p l + Count p l'.
Proof. unfold Count. rewrite List.filter_app, length_app. lia. Qed.



(** An [AwardBadge] of a badge the user does not hold succeeds and inserts
    one row for the pair. *)
Lemma BadgeRepository_AwardBadge_new (w : World) (userID badgeID : Z) :
  HasUserEarnedBadge (w_db w) userID badgeID = false ->
  let out := BadgeRepository_AwardBadge userID badgeID w in
  fst out = Ok tt
  /\ (exists ub, UB_UserID ub = userID /\ UB_BadgeID ub = badgeID
                 /\ w_db (snd out) = set_user_badges (db_user_badges (w_db w) ++ [ub]) (w_db w))
  /\ w_wall (snd out) = w_wall w.
Proof.
  intros Hnot. unfold BadgeRepository_AwardBadge, bind, query. rewrite Hnot.
  cbn. split; [reflexivity|]. split; [|reflexivity].
  eexists. split; [|split; [|reflexivity]]; reflexivity.
Qed.


(** ** The badge evaluation of one user *)

Lemma HasUserEarnedBadge_true (db : DB) (userID badgeID : Z) :
  HasUserEarnedBadge db userID badgeID = true
  <-> exists ub, ub ∈ db_user_badges db /\ UB_UserID ub = userID /\ UB_BadgeID ub = badgeID.
Proof.
  split.
  - unfold HasUserEarnedBadge, Count. rewrite Z.gtb_lt.
    destruct (List.filter _ (db_user_badges db)) as [|ub l] eqn:Hf; [simpl; lia|]. intros _.
    assert (ub ∈ ub :: l) as Hin by left. rewrite <- Hf in Hin.
    apply elem_of_List_filter in Hin as [Hin Hp]. apply andb_true_iff in Hp as [Hu Hb].
    apply Z.eqb_eq in Hu, Hb. eauto.
  - intros (ub & Hin & <- & <-). apply HasUserEarnedBadge_of_row, Hin.
Qed.

Lemma HasUserEarnedBadge_grows (db : DB) (added : list UserBadge) (userID badgeID : Z) :
  HasUserEarnedBadge db userID badgeID = true ->
  HasUserEarnedBadge (set_user_badges (db_user_badges db ++ added) db) userID badgeID = true.
Proof.
  rewrite !HasUserEarnedBadge_true. intros (ub & Hin & Hu & Hb). exists ub.
  split; [|auto]. cbn [db_user_badges set_user_badges]. apply elem_of_app. left. exact Hin.
Qed.

(** The awards a run adds for one user: one row per badge, of pairwise
    distinct badges. *)
Lemma Count_added (added : list UserBadge) (userID u b : Z) :
  Forall (fun ub => UB_UserID ub = userID) added -> NoDup (UB_BadgeID <$> added) ->
  Count (fun ub => (UB_UserID ub =? u) && (UB_BadgeID ub =? b)) added
  = if (u =? userID) && bool_decide (b ∈ UB_BadgeID <$> added) then 1 else 0.
Proof.
  unfold Count. induction added as [|ub added IH]; intros Hall Hnd.
  - simpl. rewrite andb_false_r. reflexivity.
  - apply Forall_cons in Hall as [Hu Hall]. rewrite fmap_cons in Hnd.
    apply NoDup_cons in Hnd as [Hfresh Hnd]. specialize (IH Hall Hnd).
    rewrite fmap_cons. cbn [List.filter]. rewrite Hu.
    destruct (Z.eqb_spec userID u) as [->|Hne].
    + rewrite Z.eqb_refl in *. cbn [andb] in *.
      destruct (Z.eqb_spec (UB_BadgeID ub) b) as [Hb|Hb].
      * cbn [length]. rewrite Nat2Z.inj_succ, IH. subst b.
        rewrite (bool_decide_eq_false_2 _ Hfresh).
        rewrite bool_decide_eq_true_2 by left. reflexivity.
      * rewrite IH.
        rewrite (bool_decide_ext (b ∈ UB_BadgeID ub :: (UB_BadgeID <$> added))
                                 (b ∈ UB_BadgeID <$> added)); [reflexivity|].
        rewrite elem_of_cons. split; [|auto]. intros [?|?]; [congruence|auto].
    + assert ((u =? userID) = false) as Hf by (apply Z.eqb_neq; congruence).
      rewrite Hf in *. cbn [andb] in *. exact IH.
Qed.

Section UserEvaluation.
Context {sorter : SliceSorter} {order : MapRange}.

Lemma Service_AwardBadge_new (w : World) (userID : Z) (badge : Badge) :
  HasUserEarnedBadge (w_db w) userID (Badge_ID badge) = false ->
  let out := Service_AwardBadge userID badge w in
  fst out = Ok tt
  /\ exists ub, UB_UserID ub = userID /\ UB_BadgeID ub = Badge_ID badge
                /\ w_db (snd out) = set_user_badges (db_user_badges (w_db w) ++ [ub]) (w_db w).
Proof.
  intros Hnot. unfold Service_AwardBadge, bind.
  destruct (BadgeRepository_AwardBadge_new w userID (Badge_ID badge) Hnot)
    as (Hok & (ub & Hu & Hb & Hdb) & _).
  destruct (BadgeRepository_AwardBadge userID (Badge_ID badge) w) as [r w1].
  cbn [fst snd] in *. subst r. cbn. split; [reflexivity|]. exists ub. auto.
Qed.

Lemma evaluate_user_badge_step (userID : Z) (acc : list Badge) (badge : Badge) (w : World) :
  let out := evaluate_user_badge userID acc badge w in
  (fst out = acc /\ w_db (snd out) = w_db w)
  \/ (fst out = acc ++ [badge]
      /\ HasUserEarnedBadge (w_db w) userID (Badge_ID badge) = false
      /\ exists ub, UB_UserID ub = userID /\ UB_BadgeID ub = Badge_ID badge
           /\ w_db (snd out) = set_user_badges (db_user_badges (w_db w) ++ [ub]) (w_db w)).
Proof.
  cbv zeta. unfold evaluate_user_badge, bind, query.
  destruct (HasUserEarnedBadge (w_db w) userID (Badge_ID badge)) eqn:Hhas; [left; split; reflexivity|].
  pose proof (EvaluateBadge_readonly badge userID w) as Hro.
  destruct (EvaluateBadge badge userID w) as [q w1]. cbn [snd] in Hro.
  destruct q as [qualifies|msg]; [|left; split; [reflexivity|exact Hro]].
  destruct qualifies; [|left; split; [reflexivity|exact Hro]].
  assert (HasUserEarnedBadge (w_db w1) userID (Badge_ID badge) = false) as Hhas1
    by (rewrite Hro; exact Hhas).
  destruct (Service_AwardBadge_new w1 userID badge Hhas1) as (Hok & ub & Hu & Hb & Hdb).
  destruct (Service_AwardBadge userID badge w1) as [r w2]. cbn [fst snd] in *. subst r.
  right. split; [reflexivity|]. split; [reflexivity|]. exists ub.
  split; [exact Hu|]. split; [exact Hb|].
  change (w_db w2 = set_user_badges (db_user_badges (w_db w) ++ [ub]) (w_db w)).
  rewrite Hdb, Hro. reflexivity.
Qed.

Lemma EvaluateUserBadges_loop (userID : Z) (badges : list Badge) (acc : list Badge) (w : World) :
  let out := foldM (evaluate_user_badge userID) acc badges w in
  exists new added,
    fst out = acc ++ new
    /\ w_db (snd out) = set_user_badges (db_user_badges (w_db w) ++ added) (w_db w)
    /\ Forall (fun ub => UB_UserID ub = userID) added
    /\ UB_BadgeID <$> added = Badge_ID <$> new
    /\ Forall (fun b => b ∈ badges
                        /\ HasUserEarnedBadge (w_db w) userID (Badge_ID b) = false) new
    /\ NoDup (Badge_ID <$> new).
Proof.
  cbv zeta. revert acc w. induction badges as [|badge badges IH]; intros acc w.
  - exists [], []. simpl. rewrite !app_nil_r. destruct (w_db w).
    repeat split; constructor.
  - simpl foldM. unfold bind.
    pose proof (evaluate_user_badge_step userID acc badge w) as Hstep. cbv zeta in Hstep.
    destruct (evaluate_user_badge userID acc badge w) as [acc1 w1]. cbn [fst snd] in Hstep.
    destruct (IH acc1 w1) as (new & added & Hfst & Hdb & Hall & Hids & Hnew & Hnd).
    destruct Hstep as [[-> Hsame]|(-> & Hnot & ub & Hu & Hb & Hw1)].
    + exists new, added. rewrite Hfst, Hdb, Hsame.
      repeat split; try assumption.
      eapply Forall_impl; [exact Hnew|]. intros b [Hin Hb]. rewrite Hsame in Hb.
      split; [right; exact Hin|exact Hb].
    + exists (badge :: new), (ub :: added). rewrite Hfst, Hdb, Hw1.
      cbn [db_user_badges set_user_badges]. rewrite <- !app_assoc. simpl app.
      split; [reflexivity|]. split; [reflexivity|].
      split; [constructor; assumption|]. split; [rewrite !fmap_cons, Hb, Hids; reflexivity|].
      assert (HasUserEarnedBadge (w_db w1) userID (Badge_ID badge) = true) as Hearned.
      { apply HasUserEarnedBadge_true. exists ub. rewrite Hw1.
        cbn [db_user_badges set_user_badges]. split; [|auto]. apply elem_of_app. right. left. }
      split.
      * constructor; [split; [left|exact Hnot]|].
        eapply Forall_impl; [exact Hnew|]. intros b [Hin Hbb]. split; [right; exact Hin|].
        destruct (HasUserEarnedBadge (w_db w) userID (Badge_ID b)) eqn:Hbefore; [|reflexivity].
        rewrite Hw1 in Hbb.
        rewrite (HasUserEarnedBadge_grows (w_db w) [ub] userID (Badge_ID b) Hbefore) in Hbb.
        discriminate.
      * rewrite fmap_cons. apply NoDup_cons. split; [|exact Hnd].
        intros Hin. apply list_elem_of_fmap in Hin as (b & Hid & Hin).
        rewrite Forall_forall in Hnew. destruct (Hnew b Hin) as [_ Hbb].
        rewrite <- Hid, Hearned in Hbb. discriminate.
Qed.

(** [EvaluateUserBadges] always succeeds.  The badges it returns are badges
    of the store, of pairwise distinct IDs, that the user did not hold
    before; it adds exactly one award per returned badge, all to this
    user, and changes nothing else in the store: every other (user, badge)
    pair keeps the awards it had.  So a store in which no badge is awarded
    twice to the same user stays so. *)
Theorem EvaluateUserBadges_outcome (userID : Z) (w : World) :
  let out := EvaluateUserBadges userID w in
  exists newlyEarned,
    fst out = Ok newlyEarned
    /\ NoDup (Badge_ID <$> newlyEarned)
    /\ (forall b, b ∈ newlyEarned ->
          b ∈ db_badges (w_db w)
          /\ HasUserEarnedBadge (w_db w) userID (Badge_ID b) = false
          /\ HasUserEarnedBadge (w_db (snd out)) userID (Badge_ID b) = true)
    /\ (forall u b,
          pair_count (w_db (snd out)) u b
          = pair_count (w_db w) u b
            + (if (u =? userID) && bool_decide (b ∈ Badge_ID <$> newlyEarned) then 1 else 0))
    /\ set_user_badges [] (w_db (snd out)) = set_user_badges [] (w_db w)
    /\ (at_most_once (w_db w) -> at_most_once (w_db (snd out))).
Proof.
  cbv zeta. unfold EvaluateUserBadges, bind, query, BadgeRepository_GetAll.
  pose proof (EvaluateUserBadges_loop userID (db_badges (w_db w)) [] w) as Hloop.
  cbv zeta in Hloop. destruct Hloop as (new & added & Hfst & Hdb & Hall & Hids & Hnew & Hnd).
  destruct (foldM (evaluate_user_badge userID) [] (db_badges (w_db w)) w) as [acc w1].
  cbn [fst snd] in *. subst acc. exists new. simpl app.
  assert (forall u b,
          pair_count (w_db w1) u b
          = pair_count (w_db w) u b
            + (if (u =? userID) && bool_decide (b ∈ Badge_ID <$> new) then 1 else 0)) as Hcount.
  { intros u b. rewrite Hdb. unfold pair_count. cbn [db_user_badges set_user_badges].
    rewrite Count_app, (Count_added added userID u b Hall), Hids; [reflexivity|].
    rewrite Hids. exact Hnd. }
  rewrite Forall_forall in Hnew.
  split; [reflexivity|]. split; [exact Hnd|]. split; [|split; [exact Hcount|split]].
  - intros b Hb. destruct (Hnew b Hb) as [Hin Hnot]. split; [exact Hin|]. split; [exact Hnot|].
    change (HasUserEarnedBadge (w_db w1) userID (Badge_ID b) = true).
    destruct (HasUserEarnedBadge (w_db w1) userID (Badge_ID b)) eqn:Hafter; [reflexivity|].
    apply HasUserEarnedBadge_pair_count in Hafter, Hnot. rewrite Hcount, Hnot, Z.eqb_refl in Hafter.
    rewrite bool_decide_eq_true_2 in Hafter by (apply list_elem_of_fmap_2, Hb). discriminate.
  - change (set_user_badges [] (w_db w1) = set_user_badges [] (w_db w)). rewrite Hdb. reflexivity.
  - intros Hone u b. change (pair_count (w_db w1) u b <= 1). rewrite Hcount.
    destruct ((u =? userID) && bool_decide (b ∈ Badge_ID <$> new)) eqn:Hub;
      [|specialize (Hone u b); lia].
    apply andb_true_iff in Hub as [Hu Hb]. apply Z.eqb_eq in Hu. subst u.
    apply bool_decide_eq_true in Hb. apply list_elem_of_fmap in Hb as (b0 & -> & Hb0).
    destruct (Hnew b0 Hb0) as [_ Hnot]. apply HasUserEarnedBadge_pair_count in Hnot.
    rewrite Hnot. lia.
Qed.

End UserEvaluation.
